(** * Elevator module (Foundry VTT): network sync, current-level messaging
      and approval routing

    A shallow embedding of [modules/elevator.js].  Module-level mutable
    state ([CLIENT_STATE], [_SEEN_SOCKET_IDS], the rerender timers, the world
    settings, the documents of the world) is threaded explicitly; the values
    the host supplies ([Date.now()], [foundry.utils.randomID()], whether a
    teleport throws) are arguments of the functions that consume them. *)

From Stdlib Require Import ZArith String Ascii List Lia Bool.
From stdpp Require Import gmap strings list.

Open Scope string_scope.

(** ** JavaScript strings

    A string is a sequence of code units; the embedding keeps the code units
    below 256, so [ascii] is the character type.  [String.prototype.trim] and
    the regular-expression class [\s] agree on the white space they accept. *)
Module JS.

Definition code (c : ascii) : nat := nat_of_ascii c.

(** White space of ECMAScript below code unit 256: TAB, LF, VT, FF, CR, SP
    and NBSP. *)
Definition isWhiteSpace (c : ascii) : bool :=
  let n := code c in
  (n =? 9)%nat || (n =? 10)%nat || (n =? 11)%nat || (n =? 12)%nat
  || (n =? 13)%nat || (n =? 32)%nat || (n =? 160)%nat.

(** Line terminators, which the regular-expression atom [.] refuses. *)
Definition isLineTerminator (c : ascii) : bool :=
  let n := code c in (n =? 10)%nat || (n =? 13)%nat.

(** The class [\d]. *)
Definition isDigit (c : ascii) : bool :=
  let n := code c in (48 <=? n)%nat && (n <=? 57)%nat.

(** The class of the atom [.] (no [s] flag). *)
Definition isDot (c : ascii) : bool := negb (isLineTerminator c).

Fixpoint trimStart (s : string) : string :=
  match s with
  | "" => ""
  | String c s' => if isWhiteSpace c then trimStart s' else s
  end.

Fixpoint trimEnd (s : string) : string :=
  match s with
  | "" => ""
  | String c s' =>
      match trimEnd s' with
      | "" => if isWhiteSpace c then "" else String c ""
      | r => String c r
      end
  end.

Definition trim (s : string) : string := trimEnd (trimStart s).

(** [s.startsWith(p)]. *)
Fixpoint startsWith (p s : string) : bool :=
  match p, s with
  | "", _ => true
  | String a p', String b s' => if Ascii.eqb a b then startsWith p' s' else false
  | String _ _, "" => false
  end.

(** A string is truthy when it is not empty. *)
Definition truthy (s : string) : bool :=
  match s with "" => false | _ => true end.

(** [a || b] on strings. *)
Definition orElse (a b : string) : string := if truthy a then a else b.

(** [String(x ?? "")] for a value that is a string, [undefined] or [null]. *)
Definition str (x : option string) : string := default "" x.

Definition digitChar (d : Z) : ascii := ascii_of_nat (48 + Z.to_nat d).

Fixpoint decimalGo (fuel : nat) (n : Z) (acc : string) : string :=
  match fuel with
  | O => acc
  | S fuel' =>
      let acc' := String (digitChar (n mod 10)) acc in
      if (n / 10 =? 0)%Z then acc' else decimalGo fuel' (n / 10) acc'
  end.

(** [String(n)] for an integer [n >= 0] (below 10^21, where JavaScript still
    prints every digit). *)
Definition numberToString (n : Z) : string :=
  decimalGo (S (Z.to_nat n)) n "".

Fixpoint repeatChar (k : nat) (c : ascii) (s : string) : string :=
  match k with
  | O => s
  | S k' => String c (repeatChar k' c s)
  end.

(** [s.padStart(width, c)] for a one-character filler. *)
Definition padStart (width : nat) (c : ascii) (s : string) : string :=
  repeatChar (width - String.length s) c s.

(** *** Plain objects used as dictionaries

    [CLIENT_STATE.currentLevelByElevatorId] and the values of the world
    settings are plain objects keyed by elevator id.  A [gmap] holds the own
    properties of such an object.  A key the object does not hold is looked
    up in [Object.prototype]; an assignment under ["__proto__"] reaches the
    accessor of [Object.prototype], which creates no own property (and, for a
    value that is a string, does nothing else). *)

(** [String(f)] for a built-in function named [name], as Chromium prints
    it. *)
Definition nativeFunctionText (name : string) : string :=
  "function " ++ name ++ "() { [native code] }".

(** [String(Object.prototype[k])] for the property names of
    [Object.prototype], [None] for every other key. *)
Definition Object_prototype (k : string) : option string :=
  if String.eqb k "__proto__" then Some "[object Object]"
  else if String.eqb k "constructor" then Some (nativeFunctionText "Object")
  else if existsb (String.eqb k)
            ["hasOwnProperty"; "isPrototypeOf"; "propertyIsEnumerable";
             "toLocaleString"; "toString"; "valueOf"; "__defineGetter__";
             "__defineSetter__"; "__lookupGetter__"; "__lookupSetter__"]
  then Some (nativeFunctionText k)
  else None.

(** [String(o[k])] for a plain object [o] with own properties that are
    strings; [None] when [o[k]] is [undefined]. *)
Definition readKey (o : gmap string string) (k : string) : option string :=
  match o !! k with
  | Some v => Some v
  | None => Object_prototype k
  end.

(** The own properties of [o] after [o[k] = v]. *)
Definition assignKey {A : Type} (k : string) (v : A) (o : gmap string A)
    : gmap string A :=
  if String.eqb k "__proto__" then
    match o !! k with
    | Some _ => <[k := v]> o
    | None => o
    end
  else <[k := v]> o.

End JS.

(** ** Region names: [stripElevatorNamePrefix], [formatElevatorRegionName] *)
Module Naming.
Import JS.

(** *** The regular expression [/^ELV\s+.+?\s+\d{2}\s+/]

    Each quantifier is a function of the remaining input and of the
    continuation that matches the rest of the pattern; the result is the
    input left after the first match in the order a backtracking matcher
    tries them. *)

(** [X+] (greedy) over a character class: the longer repetition is tried
    first, the continuation on the shorter one only when that fails. *)
Fixpoint plusGreedy (p : ascii -> bool) (s : string)
    (k : string -> option string) : option string :=
  match s with
  | "" => None
  | String c s' =>
      if p c then
        match plusGreedy p s' k with
        | Some r => Some r
        | None => k s'
        end
      else None
  end.

(** [X+?] (lazy): the continuation is tried before another repetition. *)
Fixpoint plusLazy (p : ascii -> bool) (s : string)
    (k : string -> option string) : option string :=
  match s with
  | "" => None
  | String c s' =>
      if p c then
        match k s' with
        | Some r => Some r
        | None => plusLazy p s' k
        end
      else None
  end.

(** A literal. *)
Fixpoint literal (l : string) (s : string)
    (k : string -> option string) : option string :=
  match l, s with
  | "", _ => k s
  | String a l', String b s' => if Ascii.eqb a b then literal l' s' k else None
  | String _ _, "" => None
  end.

(** [\d{2}]. *)
Definition twoDigits (s : string) (k : string -> option string) : option string :=
  match s with
  | String a (String b s') => if isDigit a && isDigit b then k s' else None
  | _ => None
  end.

(** [\d{2}\s+], the end of the pattern. *)
Definition digitsThenSpace (s : string) : option string :=
  twoDigits s (fun s2 => plusGreedy isWhiteSpace s2 Some).

(** [\s+\d{2}\s+], the tail of the pattern after the elevator id. *)
Definition floorTail (s : string) : option string :=
  plusGreedy isWhiteSpace s digitsThenSpace.

(** The whole pattern, anchored at the start; [Some r] is the input after
    the match. *)
Definition matchPrefix (s : string) : option string :=
  literal "ELV" s (fun s1 =>
    plusGreedy isWhiteSpace s1 (fun s2 =>
      plusLazy isDot s2 floorTail)).

(** [s.replace(/^ELV\s+.+?\s+\d{2}\s+/, "")]. *)
Definition replacePrefix (s : string) : string :=
  match matchPrefix s with
  | Some r => r
  | None => s
  end.

Definition stripElevatorNamePrefix (name : string) : string :=
  let s := trim name in
  if negb (startsWith "ELV " s) then s
  else
    let stripped := trim (replacePrefix s) in
    orElse stripped s.

(** The floor as the name shows it:
    [String(Math.max(1, Number(floorNumber) || 1)).padStart(2, "0")].
    [floorNumber] is the integer the sync computes; [Number(n) || 1] sends 0
    to 1. *)
Definition floorField (floorNumber : Z) : string :=
  padStart 2 "0"
    (numberToString
       (Z.max 1 (if (floorNumber =? 0)%Z then 1 else floorNumber))).

Definition formatElevatorRegionName (elevatorId : string) (floorNumber : Z)
    (label : string) : string :=
  let id := trim elevatorId in
  let num := floorField floorNumber in
  let lbl := stripElevatorNamePrefix (trim label) in
  trim ("ELV " ++ id ++ " " ++ num ++ " " ++ lbl).

(** *** Segments and character classes of a name *)

(** The segments of a string between runs of white space, in order. *)
Fixpoint segments (s : string) : list string :=
  match s with
  | "" => []
  | String c s' =>
      if isWhiteSpace c then segments s'
      else
        match s' with
        | "" => [String c ""]
        | String c' _ =>
            if isWhiteSpace c' then String c "" :: segments s'
            else
              match segments s' with
              | w :: ws => String c w :: ws
              | [] => [String c ""]
              end
        end
  end.

(** A segment that is a two-digit number on its own. *)
Definition isTwoDigitNumber (seg : string) : bool :=
  match seg with
  | String a (String b "") => isDigit a && isDigit b
  | _ => false
  end.

(** Every character of the string is in the class. *)
Fixpoint allChars (p : ascii -> bool) (s : string) : bool :=
  match s with
  | "" => true
  | String c s' => p c && allChars p s'
  end.

End Naming.

(** ** The stop registry and [syncElevatorNetwork] *)
Module Sync.
Import JS Naming.

(** One entry of a stop list, [{ uuid, label }]; a missing field reads as
    the empty string ([String(s?.uuid ?? "")]). *)
Record Stop := mkStop { uuid : string; label : string }.

(** A registry entry, the value of [linksById[elevatorId]].  A missing
    [homeUuid] is the empty string: [||] treats both alike. *)
Record Master := mkMaster {
  m_homeUuid : string;
  m_theme : string;
  m_iconSrc : string;
  m_iconSize : Z;
  m_iconAlwaysOn : bool;
  m_stops : list Stop
}.

(** The module's flags on a Region, [doc.flags.elevator]; [f_other] holds the
    attributes the sync does not own, which [mergeObject] keeps. *)
Record Flags := mkFlags {
  f_enabled : bool;
  f_elevatorId : string;
  f_isElevatorHere : bool;
  f_theme : string;
  f_iconSrc : string;
  f_iconSize : Z;
  f_iconAlwaysOn : bool;
  f_levels : list Stop;
  f_returnTo : option Stop;
  f_other : list (string * string)
}.

(** The flags object [{}]. *)
Definition noFlags : Flags :=
  mkFlags false "" false "" "" 0 false [] None [].

(** A Region behavior: its [type] and [system.destination] (empty when
    unset). *)
Record Behavior := mkBehavior { b_type : string; b_destination : string }.

Record RegionDocument := mkRegion {
  r_name : string;
  r_flags : option Flags;
  r_behaviors : list Behavior
}.

(** What [fromUuid] can resolve to. *)
Inductive Document :=
  | IsRegion (r : RegionDocument)
  | NotRegion.

(** A write the sync issues. *)
Inductive Write :=
  | SetLinks (next : gmap string Master)
  | UpdateRegion (target : string) (newFlags : Flags) (newName : option string)
  | UpdateBehavior (target : string) (newDestination : string).

Record World := mkWorld {
  userIsGM : bool;
  links : gmap string Master;
  docs : gmap string Document;
  writes : list Write
}.

Definition getElevatorFlags (d : RegionDocument) : Flags :=
  default noFlags (r_flags d).

Fixpoint normalizeFrom (seen : gset string) (stops : list Stop) : list Stop :=
  match stops with
  | [] => []
  | s :: rest =>
      let u := trim (uuid s) in
      if negb (truthy u) || bool_decide (u ∈ seen) then normalizeFrom seen rest
      else mkStop u (stripElevatorNamePrefix (trim (label s)))
             :: normalizeFrom ({[u]} ∪ seen) rest
  end.

Definition normalizeStops (stops : list Stop) : list Stop :=
  normalizeFrom ∅ stops.

(** The first loop of the sync: the stops whose uuid resolves to a Region,
    with [label: s.label || doc.name].  The document itself is read from the
    world where the loop body uses [stop.doc]. *)
Definition resolveStop (w : World) (s : Stop) : option Stop :=
  match docs w !! uuid s with
  | Some (IsRegion d) => Some (mkStop (uuid s) (orElse (label s) (r_name d)))
  | _ => None
  end.

Definition resolveStops (w : World) (stops : list Stop) : list Stop :=
  omap (resolveStop w) stops.

(** [cleanedStops.findIndex(s => s.uuid === u)], [None] for -1. *)
Fixpoint findIndex (u : string) (l : list Stop) : option nat :=
  match l with
  | [] => None
  | s :: rest =>
      if String.eqb (uuid s) u then Some 0%nat
      else option_map S (findIndex u rest)
  end.

(** [cleanedStops.find(s => s.uuid === u)]. *)
Definition findStop (u : string) (l : list Stop) : option Stop :=
  List.find (fun s => String.eqb (uuid s) u) l.

Definition floorNumberOf (cleaned : list Stop) (stop : Stop) : Z :=
  Z.of_nat (length cleaned)
  - Z.of_nat (default 0%nat (findIndex (uuid stop) cleaned)).

Definition stopLabelOf (cleaned : list Stop) (stop : Stop) (d : RegionDocument)
    : string :=
  let fromList :=
    match findIndex (uuid stop) cleaned with
    | Some i => match cleaned !! i with Some s => label s | None => "" end
    | None => ""
    end in
  orElse fromList (orElse (label stop) (r_name d)).

Definition desiredNameOf (elevatorId : string) (cleaned : list Stop)
    (stop : Stop) (d : RegionDocument) : string :=
  formatElevatorRegionName elevatorId (floorNumberOf cleaned stop)
    (stopLabelOf cleaned stop d).

Definition otherStopsOf (cleaned : list Stop) (stop : Stop) : list Stop :=
  filter (fun s => uuid s ≠ uuid stop) cleaned.

(** [mergeObject(current, { enabled: true, ... }, { inplace: false })]. *)
Definition nextFlagsOf (elevatorId : string) (master : Master)
    (cleaned : list Stop) (home homeLabel : string) (stop : Stop)
    (current : Flags) : Flags :=
  {| f_enabled := true;
     f_elevatorId := elevatorId;
     f_isElevatorHere := String.eqb (uuid stop) home;
     f_theme := m_theme master;
     f_iconSrc := m_iconSrc master;
     f_iconSize := m_iconSize master;
     f_iconAlwaysOn := m_iconAlwaysOn master;
     f_levels := otherStopsOf cleaned stop;
     f_returnTo :=
       if truthy home && negb (String.eqb home (uuid stop))
       then Some (mkStop home homeLabel) else None;
     f_other := f_other current |}.

(** The behavior is a teleport whose destination is set and lies outside
    the allowed set. *)
Definition needsRedirect (allowed : gset string) (b : Behavior) : bool :=
  String.eqb (b_type b) "teleportToken"
  && truthy (b_destination b)
  && negb (bool_decide (b_destination b ∈ allowed)).

Definition restrictBehavior (allowed : gset string) (fallback : option string)
    (b : Behavior) : Behavior :=
  match fallback with
  | Some f => if needsRedirect allowed b then mkBehavior (b_type b) f else b
  | None => b
  end.

Definition fallbackOf (allowed : gset string) (fallbackUUID : string)
    : option string :=
  if truthy fallbackUUID && bool_decide (fallbackUUID ∈ allowed)
  then Some fallbackUUID else None.

(** The behaviors of a Region after
    [restrictTeleportBehaviorsToNetwork(regionDoc, allowedUUIDs, fallbackUUID)]. *)
Definition restrictTeleportBehaviorsToNetwork (allowed : gset string)
    (fallbackUUID : string) (bs : list Behavior) : list Behavior :=
  map (restrictBehavior allowed (fallbackOf allowed fallbackUUID)) bs.

(** The [behavior.update] calls it makes. *)
Definition behaviorWrites (target : string) (allowed : gset string)
    (fallback : option string) (bs : list Behavior) : list Write :=
  match fallback with
  | Some f => map (fun _ => UpdateBehavior target f) (List.filter (needsRedirect allowed) bs)
  | None => []
  end.

(** The Region [d] of [stop] after [stop.doc.update(updateData)] and
    [restrictTeleportBehaviorsToNetwork(stop.doc, allowedSet, home)]. *)
Definition syncedRegion (elevatorId : string) (master : Master)
    (cleaned : list Stop) (home homeLabel : string) (allowed : gset string)
    (stop : Stop) (d : RegionDocument) : RegionDocument :=
  let desiredName := desiredNameOf elevatorId cleaned stop d in
  mkRegion
    (if negb (String.eqb (r_name d) desiredName) then desiredName else r_name d)
    (Some (nextFlagsOf elevatorId master cleaned home homeLabel stop
             (getElevatorFlags d)))
    (restrictTeleportBehaviorsToNetwork allowed home (r_behaviors d)).

(** The writes of one round: the update of the Region, whose [name] is set
    only when it differs from the desired one, and the updates of the
    behaviors that are redirected. *)
Definition stopWrites (elevatorId : string) (master : Master)
    (cleaned : list Stop) (home homeLabel : string) (allowed : gset string)
    (stop : Stop) (d : RegionDocument) : list Write :=
  let desiredName := desiredNameOf elevatorId cleaned stop d in
  UpdateRegion (uuid stop)
    (nextFlagsOf elevatorId master cleaned home homeLabel stop
       (getElevatorFlags d))
    (if negb (String.eqb (r_name d) desiredName) then Some desiredName else None)
  :: behaviorWrites (uuid stop) allowed (fallbackOf allowed home)
       (r_behaviors d).

(** The writes of the round of [stop] when the documents are [ds]. *)
Definition roundWrites (elevatorId : string) (master : Master)
    (cleaned : list Stop) (home homeLabel : string) (allowed : gset string)
    (ds : gmap string Document) (stop : Stop) : list Write :=
  match ds !! uuid stop with
  | Some (IsRegion d) =>
      stopWrites elevatorId master cleaned home homeLabel allowed stop d
  | _ => []
  end.

(** The body of the second loop, for one resolved stop; [stop.doc] is the
    document the world holds under the stop's uuid. *)
Definition syncStop (elevatorId : string) (master : Master)
    (cleaned : list Stop) (home homeLabel : string) (allowed : gset string)
    (w : World) (stop : Stop) : World :=
  match docs w !! uuid stop with
  | Some (IsRegion d) =>
      mkWorld (userIsGM w) (links w)
        (<[uuid stop :=
             IsRegion (syncedRegion elevatorId master cleaned home homeLabel
                         allowed stop d)]> (docs w))
        (writes w
           ++ stopWrites elevatorId master cleaned home homeLabel allowed
                stop d)
  | _ => w
  end.

(** [homeUuid || master.homeUuid || cleanedStops[0]?.uuid]. *)
Definition homeOf (homeUuid : string) (master : Master) (cleaned : list Stop)
    : string :=
  orElse homeUuid
    (orElse (m_homeUuid master)
       (match cleaned with s :: _ => uuid s | [] => "" end)).

(** [cleanedStops.find(s => s.uuid === home)?.label || "Return"]. *)
Definition homeLabelOf (home : string) (cleaned : list Stop) : string :=
  orElse (match findStop home cleaned with
          | Some s => label s
          | None => ""
          end) "Return".

(** The registry with the stops of [elevatorId] replaced by the resolved
    ones, [mergeObject(master, { stops: cleanedStops }, { inplace: false })]. *)
Definition prunedLinks (elevatorId : string) (master : Master)
    (cleaned : list Stop) (l : gmap string Master) : gmap string Master :=
  <[elevatorId :=
      mkMaster (m_homeUuid master) (m_theme master) (m_iconSrc master)
        (m_iconSize master) (m_iconAlwaysOn master) cleaned]> l.

(** The registry after the pruning step, which writes only when a stop
    failed to resolve. *)
Definition linksAfter (elevatorId : string) (master : Master)
    (stops cleaned : list Stop) (l : gmap string Master) : gmap string Master :=
  if bool_decide (length cleaned ≠ length stops)
  then prunedLinks elevatorId master cleaned l else l.

(** [syncElevatorNetwork(elevatorId, { homeUuid })]; an absent [homeUuid]
    option is the empty string. *)
Definition syncElevatorNetwork (elevatorId : string) (homeUuid : string)
    (w : World) : World :=
  if negb (userIsGM w) then w
  else if negb (truthy elevatorId) then w
  else
    match links w !! elevatorId with
    | None => w
    | Some master =>
        let stops := normalizeStops (m_stops master) in
        if bool_decide (length stops = 0%nat) then w
        else
          let cleaned := resolveStops w stops in
          if bool_decide (length cleaned = 0%nat) then w
          else
            let w1 :=
              if bool_decide (length cleaned ≠ length stops) then
                let next := prunedLinks elevatorId master cleaned (links w) in
                mkWorld (userIsGM w) next (docs w) (writes w ++ [SetLinks next])
              else w in
            let home := homeOf homeUuid master cleaned in
            let homeLabel := homeLabelOf home cleaned in
            let allowed : gset string := list_to_set (map uuid cleaned) in
            foldl (syncStop elevatorId master cleaned home homeLabel allowed)
              w1 cleaned
    end.

End Sync.

(** ** Current-level state and the socket protocol *)
Module Net.
Import JS.

Definition SOCKET_CHANNEL : string := "module.elevator".
Definition LEGACY_setCurrentLevel : string := "module.elevator.setCurrentLevel".
Definition LEGACY_getCurrentLevel : string := "module.elevator.getCurrentLevel".
Definition LEGACY_currentLevelChanged : string :=
  "module.elevator.currentLevelChanged".

(** A socket payload; a field the sender left out is [None]. *)
Record Message := mkMessage {
  msg_type : option string;
  msg_requestId : option string;
  msg_elevatorId : option string;
  msg_regionUuid : option string;
  msg_requester : option string;
  msg_toUserId : option string;
  msg_fromUserId : option string
}.

(** The state of one client.  [optimistic] holds the own properties of
    [CLIENT_STATE.currentLevelByElevatorId]; [persisted] those of the world
    setting [currentLevelByElevatorId] as this client reads it (a copy by
    [foundry.utils.duplicate] has the same ones); [rerenderTimers] is
    the key set of [_rerenderTimersByElevId]; [emitted] lists the
    [game.socket.emit] calls, oldest first. *)
Record Client := mkClient {
  isGM : bool;
  userId : string;
  optimistic : gmap string string;
  persisted : gmap string string;
  rerenderTimers : gset string;
  seenSocketIds : gmap string Z;
  emitted : list (string * Message);
  infos : list string
}.

Definition setOptimistic (f : gmap string string -> gmap string string)
    (st : Client) : Client :=
  mkClient (isGM st) (userId st) (f (optimistic st)) (persisted st)
    (rerenderTimers st) (seenSocketIds st) (emitted st) (infos st).

Definition setPersisted (f : gmap string string -> gmap string string)
    (st : Client) : Client :=
  mkClient (isGM st) (userId st) (optimistic st) (f (persisted st))
    (rerenderTimers st) (seenSocketIds st) (emitted st) (infos st).

Definition setTimers (f : gset string -> gset string) (st : Client) : Client :=
  mkClient (isGM st) (userId st) (optimistic st) (persisted st)
    (f (rerenderTimers st)) (seenSocketIds st) (emitted st) (infos st).

Definition setSeen (f : gmap string Z -> gmap string Z) (st : Client) : Client :=
  mkClient (isGM st) (userId st) (optimistic st) (persisted st)
    (rerenderTimers st) (f (seenSocketIds st)) (emitted st) (infos st).

(** [game.socket.emit(channel, payload)]. *)
Definition emit (channel : string) (m : Message) (st : Client) : Client :=
  mkClient (isGM st) (userId st) (optimistic st) (persisted st)
    (rerenderTimers st) (seenSocketIds st) (emitted st ++ [(channel, m)])
    (infos st).

Definition notifyInfo (text : string) (st : Client) : Client :=
  mkClient (isGM st) (userId st) (optimistic st) (persisted st)
    (rerenderTimers st) (seenSocketIds st) (emitted st) (infos st ++ [text]).

(** Replacing a pending timer by a new one leaves one timer for the key. *)
Definition queueRerenderOpenElevatorPanels (elevatorId : string) (st : Client)
    : Client :=
  let elevId := trim elevatorId in
  if negb (truthy elevId) then st
  else setTimers (fun t => {[elevId]} ∪ t) st.

(** The timer of [elevId] fires: the key is removed (the rerender itself is
    presentation). *)
Definition fireRerenderTimer (elevId : string) (st : Client) : Client :=
  setTimers (fun t => t ∖ {[elevId]}) st.

Definition getKnownCurrentLevelUuid (elevatorId : string) (st : Client) : string :=
  let elevId := trim elevatorId in
  if negb (truthy elevId) then ""
  else
    let cached := trim (default "" (readKey (optimistic st) elevId)) in
    if truthy cached then cached
    else trim (default "" (readKey (persisted st) elevId)).

Definition changedUnified (requestId elevId uuid : string) : Message :=
  mkMessage (Some "currentLevelChanged") (Some requestId) (Some elevId)
    (Some uuid) None None None.

Definition changedLegacy (requestId elevId uuid : string) : Message :=
  mkMessage None (Some requestId) (Some elevId) (Some uuid) None None None.

(** The two emits every broadcast of a level change makes. *)
Definition broadcastChanged (requestId elevId uuid : string) (st : Client)
    : Client :=
  emit LEGACY_currentLevelChanged (changedLegacy requestId elevId uuid)
    (emit SOCKET_CHANNEL (changedUnified requestId elevId uuid) st).

(** [requestId] is the value [makeRequestId()] returns in this call. *)
Definition requestSyncCurrentLevel (requestId : string) (elevatorId : string)
    (st : Client) : Client :=
  let elevId := trim elevatorId in
  if negb (truthy elevId) then st
  else if isGM st then st
  else
    emit LEGACY_getCurrentLevel
      (mkMessage None (Some requestId) (Some elevId) None (Some (userId st))
         None None)
      (emit SOCKET_CHANNEL
         (mkMessage (Some "getCurrentLevel") (Some requestId) (Some elevId)
            None (Some (userId st)) None None) st).

(** [requestId] is the value [makeRequestId()] returns in this call. *)
Definition requestSetCurrentLevel (requestId : string)
    (elevatorId regionUuid : string) (st : Client) : Client :=
  let elevId := trim elevatorId in
  let uuid := trim regionUuid in
  if negb (truthy elevId) || negb (truthy uuid) then st
  else
    let st1 := setOptimistic (assignKey elevId uuid) st in
    let st2 := queueRerenderOpenElevatorPanels elevId st1 in
    if isGM st2 then
      let st3 := setPersisted (assignKey elevId uuid) st2 in
      broadcastChanged requestId elevId uuid st3
    else
      emit LEGACY_setCurrentLevel
        (mkMessage None (Some requestId) (Some elevId) (Some uuid)
           (Some (userId st2)) None None)
        (emit SOCKET_CHANNEL
           (mkMessage (Some "setCurrentLevel") (Some requestId) (Some elevId)
              (Some uuid) (Some (userId st2)) None None) st2).

Definition DEDUP_WINDOW_MS : Z := 8000.

(** [wasSocketRequestSeen(requestId, windowMs)] with [now = Date.now()]:
    the answer and the state of [_SEEN_SOCKET_IDS] afterwards. *)
Definition wasSocketRequestSeen (requestId : option string) (windowMs : Z)
    (now : Z) (st : Client) : bool * Client :=
  let id := trim (str requestId) in
  if negb (truthy id) then (false, st)
  else
    let live :=
      filter (fun kv : string * Z => ¬ (now - kv.2 > windowMs)%Z)
        (seenSocketIds st) in
    match live !! id with
    | Some _ => (true, setSeen (fun _ => live) st)
    | None => (false, setSeen (fun _ => <[id := now]> live) st)
    end.

(** The branch of [handleSocketMessage] for ["currentLevelChanged"]. *)
Definition onCurrentLevelChanged (data : Message) (st : Client) : Client :=
  let elevId := trim (str (msg_elevatorId data)) in
  let uuid := trim (str (msg_regionUuid data)) in
  if negb (truthy elevId) || negb (truthy uuid) then st
  else
    queueRerenderOpenElevatorPanels elevId
      (setOptimistic (assignKey elevId uuid) st).

(** The branch for ["setCurrentLevel"]; [fresh] is what [makeRequestId()]
    returns if it is called. *)
Definition onSetCurrentLevel (fresh : string) (data : Message) (st : Client)
    : Client :=
  if negb (isGM st) then st
  else
    let elevId := trim (str (msg_elevatorId data)) in
    let uuid := trim (str (msg_regionUuid data)) in
    if negb (truthy elevId) || negb (truthy uuid) then st
    else
      let st1 := setPersisted (assignKey elevId uuid) st in
      let requestId := orElse (trim (str (msg_requestId data))) fresh in
      broadcastChanged requestId elevId uuid st1.

(** The branch for ["getCurrentLevel"]. *)
Definition onGetCurrentLevel (fresh : string) (data : Message) (st : Client)
    : Client :=
  if negb (isGM st) then st
  else
    let elevId := trim (str (msg_elevatorId data)) in
    if negb (truthy elevId) then st
    else
      let uuid := trim (default "" (readKey (persisted st) elevId)) in
      if negb (truthy uuid) then st
      else
        let requestId := orElse (trim (str (msg_requestId data))) fresh in
        broadcastChanged requestId elevId uuid st.

Definition onSocketPing (data : Message) (st : Client) : Client :=
  if negb (isGM st) then st
  else
    emit SOCKET_CHANNEL
      (mkMessage (Some "socketPong") (msg_requestId data) None None None
         (msg_fromUserId data) (Some (userId st))) st.

Definition onSocketPong (data : Message) (st : Client) : Client :=
  if negb (String.eqb (str (msg_toUserId data)) (userId st)) then st
  else notifyInfo "Elevator: GM socket response received (debug)" st.

(** What the handler does once a message is past the de-duplication. *)
Definition dispatch (fresh : string) (type : string) (data : Message)
    (st : Client) : Client :=
  if String.eqb type "socketPing" then onSocketPing data st
  else if String.eqb type "socketPong" then onSocketPong data st
  else if String.eqb type "setCurrentLevel" then onSetCurrentLevel fresh data st
  else if String.eqb type "getCurrentLevel" then onGetCurrentLevel fresh data st
  else if String.eqb type "currentLevelChanged" then onCurrentLevelChanged data st
  else st.

(** [handleSocketMessage(data)] at time [now]. *)
Definition handleSocketMessage (now : Z) (fresh : string) (data : Message)
    (st : Client) : Client :=
  let type := trim (str (msg_type data)) in
  if negb (truthy type) then st
  else
    let '(seen, st1) :=
      wasSocketRequestSeen (msg_requestId data) DEDUP_WINDOW_MS now st in
    if seen then st1 else dispatch fresh type data st1.

Definition withType (type : string) (payload : Message) : Message :=
  mkMessage (Some type) (msg_requestId payload) (msg_elevatorId payload)
    (msg_regionUuid payload) (msg_requester payload) (msg_toUserId payload)
    (msg_fromUserId payload).

(** The four listeners [registerSocket] installs: the unified channel hands
    the payload over as it is, a legacy channel sets its [type]. *)
Definition deliver (now : Z) (fresh : string) (channel : string)
    (payload : Message) (st : Client) : Client :=
  if String.eqb channel SOCKET_CHANNEL then
    handleSocketMessage now fresh payload st
  else if String.eqb channel LEGACY_setCurrentLevel then
    handleSocketMessage now fresh (withType "setCurrentLevel" payload) st
  else if String.eqb channel LEGACY_getCurrentLevel then
    handleSocketMessage now fresh (withType "getCurrentLevel" payload) st
  else if String.eqb channel LEGACY_currentLevelChanged then
    handleSocketMessage now fresh (withType "currentLevelChanged" payload) st
  else st.

(** A run of deliveries: the time, the id [makeRequestId()] would return and
    the payload of each, in order of arrival. *)
Definition handleAll (events : list (Z * string * Message)) (st : Client)
    : Client :=
  foldl (fun acc ev => handleSocketMessage ev.1.1 ev.1.2 ev.2 acc) st events.

End Net.

(** ** Approval routing and the approve button of an approval card *)
Module Approval.
Import JS.

(** [CONST.DOCUMENT_OWNERSHIP_LEVELS.OWNER]. *)
Definition OWNER : Z := 3.

Record User := mkUser {
  u_id : string;
  u_isGM : bool;
  u_active : bool;
  u_name : string
}.

(** An actor: its [ownership] object (levels by user id and the [default]
    entry) and, when the host provides it, its [testUserPermission] method. *)
Record Actor := mkActor {
  a_ownership : gmap string Z;
  a_default : option Z;
  a_testUserPermission : option (User -> Z -> bool)
}.

Record TokenDocument := mkToken {
  t_uuid : string;
  t_name : string;
  t_actor : option Actor
}.

(** [game.users.get(uid)]. *)
Definition getUser (users : list User) (uid : string) : option User :=
  List.find (fun u => String.eqb (u_id u) uid) users.

(** [Number(ownership?.[uid] ?? ownership?.default ?? 0)]. *)
Definition ownershipLevel (a : Actor) (uid : string) : Z :=
  match a_ownership a !! uid with
  | Some l => l
  | None => default 0%Z (a_default a)
  end.

Definition getActorOwnerUserIds (users : list User) (actor : option Actor)
    : list string :=
  match actor with
  | None => []
  | Some a =>
      map u_id
        (List.filter (fun u => (OWNER <=? ownershipLevel a (u_id u))%Z) users)
  end.

Definition getGMUserIds (users : list User) (onlineOnly : bool) : list string :=
  map u_id
    (List.filter (fun u => u_isGM u && (negb onlineOnly || u_active u)) users).

Definition userActive (users : list User) (uid : string) : bool :=
  match getUser users uid with Some u => u_active u | None => false end.

Definition userIsGM (users : list User) (uid : string) : bool :=
  match getUser users uid with Some u => u_isGM u | None => false end.

(** The result [{ recipientIds, routedTo }]. *)
Definition computeApprovalRecipientsForToken (users : list User)
    (token : TokenDocument) : list string * string :=
  let ownerIds := getActorOwnerUserIds users (t_actor token) in
  let onlineOwnerIds := List.filter (userActive users) ownerIds in
  let onlineNonGmOwners :=
    List.filter (fun uid => negb (userIsGM users uid)) onlineOwnerIds in
  if negb (bool_decide (length onlineNonGmOwners = 0%nat))
  then (onlineNonGmOwners, "owner")
  else
    let onlineGms := getGMUserIds users true in
    if negb (bool_decide (length onlineGms = 0%nat)) then (onlineGms, "gm")
    else (getGMUserIds users false, "gm").

Definition isTokenOwnedByUser (users : list User) (token : TokenDocument)
    (userId : string) : bool :=
  let uid := trim userId in
  match (if truthy uid then getUser users uid else None) with
  | None => false
  | Some user =>
      match t_actor token with
      | Some a =>
          match a_testUserPermission a with
          | Some test => test user OWNER
          | None => (OWNER <=? ownershipLevel a uid)%Z
          end
      | None => false
      end
  end.

(** *** The recipients in terms of the users

    The three sets the routing chooses from, read off the users directly;
    the routing is compared with them below. *)

(** A user is an owner of the actor, is online and is not a GM. *)
Definition isOnlineNonGmOwner (a : Actor) (u : User) : bool :=
  (OWNER <=? ownershipLevel a (u_id u))%Z && u_active u && negb (u_isGM u).

Definition onlineNonGmOwnerIds (users : list User) (token : TokenDocument)
    : list string :=
  match t_actor token with
  | Some a => map u_id (List.filter (isOnlineNonGmOwner a) users)
  | None => []
  end.

Definition onlineGmIds (users : list User) : list string :=
  map u_id (List.filter (fun u => u_isGM u && u_active u) users).

Definition allGmIds (users : list User) : list string :=
  map u_id (List.filter u_isGM users).

(** The [teleportRequest] payload of a card.  [p_tokenUUIDs] is the array
    after [filter(Boolean)], empty when the payload has none. *)
Record Payload := mkPayload {
  p_requestId : string;
  p_requester : string;
  p_elevatorId : string;
  p_destUUID : string;
  p_tokenUUIDs : list string;
  p_sourceRegionUuid : string;
  p_sceneFromId : string
}.

(** A chat message the handler creates: its text and its whisper list. *)
Record Whisper := mkWhisper { w_content : string; w_to : list string }.

(** What the host answers during one click: which uuids are Regions, the
    token documents by uuid, the tokens of each scene, the containment test
    of [isPointInRegion] at a token's centre, and whether
    [gmTeleportTokenToRegion] throws for a token. *)
Record Host := mkHost {
  h_users : list User;
  h_regions : gset string;
  h_tokens : gmap string TokenDocument;
  h_scenes : gmap string (list TokenDocument);
  h_inside : TokenDocument -> string -> bool;
  h_teleportThrows : string -> bool
}.

(** The state a click can change: the client of the approver, the chat
    messages that exist, the whispers created, the tokens moved (with their
    destination) and the warnings shown. *)
Record Table := mkTable {
  client : Net.Client;
  liveMessages : gset string;
  whispers : list Whisper;
  moved : list (string * string);
  warnings : list string
}.

(** [fromUuid(u)] answers with some document. *)
Definition resolves (h : Host) (u : string) : bool :=
  bool_decide (u ∈ h_regions h) || bool_decide (is_Some (h_tokens h !! u)).

(** The token list of the request: the explicit one, otherwise the tokens of
    the origin scene inside the source Region that the requester does not
    own. *)
Definition requestTokenUUIDs (h : Host) (p : Payload) : list string :=
  if negb (bool_decide (length (p_tokenUUIDs p) = 0%nat)) then p_tokenUUIDs p
  else if truthy (p_sourceRegionUuid p) && truthy (p_sceneFromId p) then
    match h_scenes h !! p_sceneFromId p with
    | Some sceneTokens =>
        if resolves h (p_sourceRegionUuid p) then
          map t_uuid
            (List.filter
               (fun td => negb (isTokenOwnedByUser (h_users h) td (p_requester p)))
               (List.filter (fun td => h_inside h td (p_sourceRegionUuid p))
                  sceneTokens))
        else []
    | None => []
    end
  else [].

(** The test one round of the approval loop makes before it pushes the
    uuid on [approvedTokenUUIDs]. *)
Definition tokenApproved (h : Host) (approverIsGM : bool) (approverId : string)
    (tUUID : string) : bool :=
  match h_tokens h !! tUUID with
  | None => false
  | Some tokenDoc =>
      if negb approverIsGM
         && negb (isTokenOwnedByUser (h_users h) tokenDoc approverId)
      then false
      else negb (h_teleportThrows h tUUID)
  end.

Definition approvedTokenUUIDs (h : Host) (approverIsGM : bool)
    (approverId : string) (tokenUUIDs : list string) : list string :=
  List.filter (tokenApproved h approverIsGM approverId) tokenUUIDs.

Definition WARN_noTokensApprovable : string := "elevator.warn.noTokensApprovable".
Definition INFO_approvalGranted : string := "elevator.info.approvalGranted".

(** The approve handler from the approval loop on, for the token list
    [tokenUUIDs] and a destination that resolved to a Region; [fresh] is
    what [makeRequestId()] returns inside [requestSetCurrentLevel]. *)
Definition approveTokens (h : Host) (fresh : string) (messageId : string)
    (p : Payload) (tokenUUIDs : list string) (t : Table) : Table :=
  let approverId := Net.userId (client t) in
  let approverIsGM := Net.isGM (client t) in
  let approved := approvedTokenUUIDs h approverIsGM approverId tokenUUIDs in
  let t1 :=
    mkTable (client t) (liveMessages t) (whispers t)
      (moved t ++ map (fun u => (u, p_destUUID p)) approved) (warnings t) in
  if bool_decide (length approved = 0%nat) then
    mkTable (client t1) (liveMessages t1) (whispers t1) (moved t1)
      (warnings t1 ++ [WARN_noTokensApprovable])
  else
    let elevId := trim (p_elevatorId p) in
    let client1 :=
      if truthy elevId
      then Net.requestSetCurrentLevel fresh elevId (p_destUUID p) (client t1)
      else client t1 in
    let requesterId := trim (p_requester p) in
    let whispers1 :=
      if truthy requesterId
      then (whispers t1 ++ [mkWhisper INFO_approvalGranted [requesterId]])%list
      else whispers t1 in
    mkTable client1 (liveMessages t1 ∖ {[messageId]}) whispers1 (moved t1)
      (warnings t1).

(** The click handler of the approve button of the card [messageId]. *)
Definition approveClick (h : Host) (fresh : string) (messageId : string)
    (p : Payload) (t : Table) : Table :=
  if negb (bool_decide (p_destUUID p ∈ h_regions h)) then t
  else approveTokens h fresh messageId p (requestTokenUUIDs h p) t.

(** The click handler of the deny button. *)
Definition denyClick (messageId : string) (t : Table) : Table :=
  mkTable (client t) (liveMessages t ∖ {[messageId]}) (whispers t) (moved t)
    (warnings t).

End Approval.

(** ** Themes *)
Module Theme.
Import JS.

(** [String.prototype.toLowerCase] on a code unit below 256: the letters
    A to Z and the capitals from U+00C0 to U+00DE, the multiplication sign
    U+00D7 apart, move up by 32. *)
Definition toLowerChar (c : ascii) : ascii :=
  let n := code c in
  if ((65 <=? n)%nat && (n <=? 90)%nat)
     || ((192 <=? n)%nat && (n <=? 222)%nat && negb (n =? 215)%nat)
  then ascii_of_nat (n + 32) else c.

Fixpoint toLowerCase (s : string) : string :=
  match s with
  | "" => ""
  | String c s' => String (toLowerChar c) (toLowerCase s')
  end.

(** [normalizeThemeValue(theme)]; [None] is [undefined] or [null]. *)
Definition normalizeThemeValue (theme : option string) : string :=
  let t := toLowerCase (trim (str theme)) in
  if String.eqb t "default" || String.eqb t "scifi" || String.eqb t "horror"
     || String.eqb t "rustic"
  then t
  else if String.eqb t "light" || String.eqb t "dark" then "default"
  else if String.eqb t "fantasy" then "rustic"
  else "default".

End Theme.

(** ** The panel of a stop *)
Module Panel.
Import JS Sync Net Approval Theme.

(** An open [ElevatorPanel]: the uuid and the name of the document of
    [this.region], the flags in [this.flags], and
    [this._elevatorState.isHere]. *)
Record ElevatorPanel := mkPanel {
  pn_regionUuid : string;
  pn_regionName : string;
  pn_flags : Flags;
  pn_isHere : bool
}.

Definition setIsHere (b : bool) (p : ElevatorPanel) : ElevatorPanel :=
  mkPanel (pn_regionUuid p) (pn_regionName p) (pn_flags p) b.

(** [_deriveState()], the value of [isHere]. *)
Definition _deriveState (st : Client) (p : ElevatorPanel) : bool :=
  let currentUUID := getKnownCurrentLevelUuid (f_elevatorId (pn_flags p)) st in
  if truthy currentUUID then String.eqb currentUUID (pn_regionUuid p)
  else f_isElevatorHere (pn_flags p).

(** [rerenderOpenElevatorPanels(elevatorId)] on the panels among
    [ui.windows]. *)
Definition rerenderOpenElevatorPanels (elevatorId : string) (st : Client)
    (windows : list ElevatorPanel) : list ElevatorPanel :=
  let elevId := trim elevatorId in
  if negb (truthy elevId) then windows
  else
    map (fun app =>
           if negb (String.eqb (trim (f_elevatorId (pn_flags app))) elevId)
           then app
           else setIsHere (_deriveState st app) app)
      windows.

(** The callback of the timer [queueRerenderOpenElevatorPanels] sets. *)
Definition onRerenderTimer (elevId : string) (st : Client)
    (windows : list ElevatorPanel) : Client * list ElevatorPanel :=
  (fireRerenderTimer elevId st, rerenderOpenElevatorPanels elevId st windows).

Definition WARN_noElevatorId : string := "elevator.warn.noElevatorId".

(** [_handleCall()]: the panel, the client and the warnings shown.  [st] is
    the client when the wait for the arrival (the delay or the next combat
    round) is over; [fresh] is what [makeRequestId()] returns. *)
Definition _handleCall (fresh : string) (p : ElevatorPanel) (st : Client)
    : ElevatorPanel * Client * list string :=
  let elevId := f_elevatorId (pn_flags p) in
  if negb (truthy elevId) then (p, st, [WARN_noElevatorId])
  else
    let st1 := requestSetCurrentLevel fresh elevId (pn_regionUuid p) st in
    (setIsHere (_deriveState st1 p) p, st1, []).

(** *** The level list of [getData] *)

(** One entry of [levels]. *)
Record Level := mkLevel {
  lv_uuid : string;
  lv_uuidLabel : string;
  lv_label : string;
  lv_isCurrent : bool
}.

(** [getKnownCurrentLevelUuid(elevId)
     || (this.flags.isElevatorHere ? hereUUID : "")]. *)
Definition currentCabUUID (st : Client) (p : ElevatorPanel) : string :=
  orElse (getKnownCurrentLevelUuid (f_elevatorId (pn_flags p)) st)
    (if f_isElevatorHere (pn_flags p) then pn_regionUuid p else "").

(** [rawStops]: the stops of the registry entry (an entry the module wrote
    carries its stop list), else the panel's Region and its ["levels"]; the
    Region of the panel is added when it is missing. *)
Definition rawStops (masterLinks : gmap string Master) (p : ElevatorPanel)
    : list Stop :=
  let hereUUID := pn_regionUuid p in
  let elevIdForLinks := f_elevatorId (pn_flags p) in
  let master :=
    if truthy elevIdForLinks then masterLinks !! elevIdForLinks else None in
  let stops :=
    match master with
    | Some m => normalizeStops (m_stops m)
    | None =>
        normalizeStops
          (mkStop hereUUID (pn_regionName p) :: f_levels (pn_flags p))
    end in
  if existsb (fun s => String.eqb (uuid s) hereUUID) stops then stops
  else stops ++ [mkStop hereUUID (pn_regionName p)].

(** [uuidToLabel.get(uuid) || uuid]. *)
Definition uuidLabelOf (uuidToLabel : gmap string string) (u : string)
    : string :=
  orElse (default "" (uuidToLabel !! u)) u.

Definition baseLevel (uuidToLabel : gmap string string)
    (currentCab hereUUID : string) (i : nat) (lvl : Stop) : Level :=
  mkLevel (uuid lvl) (uuidLabelOf uuidToLabel (uuid lvl))
    (orElse (label lvl) ("Level " ++ numberToString (Z.of_nat (i + 1))))
    ((truthy currentCab && String.eqb (uuid lvl) currentCab)
     || (negb (truthy currentCab) && String.eqb (uuid lvl) hereUUID)).

(** The [levels] field of the object [getData] returns.  [uuidToLabel] is
    the index of [buildRegionUuidIndex] when the GM edits and empty
    otherwise; a ["returnTo"] flag is a stop, so its label is
    [returnTo.label || "Return"]. *)
Definition getData_levels (uuidToLabel : gmap string string)
    (masterLinks : gmap string Master) (st : Client) (p : ElevatorPanel)
    : list Level :=
  let hereUUID := pn_regionUuid p in
  let currentCab := currentCabUUID st p in
  let baseLevels :=
    imap (baseLevel uuidToLabel currentCab hereUUID) (rawStops masterLinks p) in
  match f_returnTo (pn_flags p) with
  | Some returnTo =>
      if truthy (uuid returnTo)
         && negb (existsb (fun l => String.eqb (lv_uuid l) (uuid returnTo))
                    baseLevels)
      then
        mkLevel (uuid returnTo) (uuidLabelOf uuidToLabel (uuid returnTo))
          (orElse (label returnTo) "Return")
          (truthy currentCab && String.eqb (uuid returnTo) currentCab)
        :: baseLevels
      else baseLevels
  | None => baseLevels
  end.

(** *** Saving the configuration form *)

(** The values the save handler reads from the form: the inputs as strings
    (empty when missing), the select of the theme, the rows of the level
    list in order, and the icon size in pixels it computes from the scale
    inputs and the grid. *)
Record ConfigForm := mkConfigForm {
  cf_enabled : bool;
  cf_elevatorId : string;
  cf_isElevatorHere : bool;
  cf_theme : option string;
  cf_iconSrc : string;
  cf_iconSize : Z;
  cf_iconAlwaysOn : bool;
  cf_rows : list Stop
}.

(** The [stops] the handler collects from the rows. *)
Definition formStops (rows : list Stop) : list Stop :=
  omap (fun row =>
          let u := trim (uuid row) in
          if negb (truthy u) then None else Some (mkStop u (trim (label row))))
    rows.

(** [normalizedStops], with the Region of the panel pushed when missing. *)
Definition savedStops (currentUuid currentName : string) (rows : list Stop)
    : list Stop :=
  let normalizedStops := normalizeStops (formStops rows) in
  if existsb (fun s => String.eqb (uuid s) currentUuid) normalizedStops
  then normalizedStops
  else normalizedStops ++ [mkStop currentUuid currentName].

(** The flags the handler writes on the Region of the panel:
    [mergeObject(current, { enabled, ..., levels }, { inplace: false })]. *)
Definition savedFlags (form : ConfigForm) (currentUuid : string)
    (d : RegionDocument) : Flags :=
  let current := getElevatorFlags d in
  {| f_enabled := cf_enabled form;
     f_elevatorId := trim (cf_elevatorId form);
     f_isElevatorHere := cf_isElevatorHere form;
     f_theme := normalizeThemeValue (Some (default "default" (cf_theme form)));
     f_iconSrc := trim (cf_iconSrc form);
     f_iconSize := cf_iconSize form;
     f_iconAlwaysOn := cf_iconAlwaysOn form;
     f_levels :=
       filter (fun s => uuid s ≠ currentUuid)
         (savedStops currentUuid (r_name d) (cf_rows form));
     f_returnTo := f_returnTo current;
     f_other := f_other current |}.

(** The registry entry the handler stores for the elevator. *)
Definition savedMaster (form : ConfigForm) (currentUuid : string)
    (d : RegionDocument) : Master :=
  mkMaster currentUuid
    (normalizeThemeValue (Some (default "default" (cf_theme form))))
    (trim (cf_iconSrc form)) (cf_iconSize form) (cf_iconAlwaysOn form)
    (savedStops currentUuid (r_name d) (cf_rows form)).

(** The world after the update of the Region of the panel. *)
Definition withSavedFlags (form : ConfigForm) (currentUuid : string)
    (d : RegionDocument) (w : World) : World :=
  let nextFlags := savedFlags form currentUuid d in
  mkWorld (Sync.userIsGM w) (links w)
    (<[currentUuid := IsRegion (mkRegion (r_name d) (Some nextFlags)
                                  (r_behaviors d))]> (docs w))
    (writes w ++ [UpdateRegion currentUuid nextFlags None]).

(** The world after [linksById[elevatorId] = {...}] on the copy of the
    registry and [setElevatorLinksById(linksById)]. *)
Definition withSavedMaster (form : ConfigForm) (currentUuid : string)
    (d : RegionDocument) (w : World) : World :=
  let next :=
    assignKey (trim (cf_elevatorId form)) (savedMaster form currentUuid d)
      (links w) in
  mkWorld (Sync.userIsGM w) next (docs w) (writes w ++ [SetLinks next]).

(** The click handler of the save button, for a form that is there: the
    world and the panel afterwards.  The document of the panel's Region is
    the one the world holds under its uuid; without it the update is
    rejected and the handler ends. *)
Definition saveConfig (form : ConfigForm) (st : Client) (p : ElevatorPanel)
    (w : World) : World * ElevatorPanel :=
  if negb (Sync.userIsGM w) then (w, p)
  else
    let currentUuid := pn_regionUuid p in
    match docs w !! currentUuid with
    | Some (IsRegion d) =>
        let elevatorId := trim (cf_elevatorId form) in
        let nextFlags := savedFlags form currentUuid d in
        let w1 := withSavedFlags form currentUuid d w in
        let w2 :=
          if cf_enabled form && truthy elevatorId
          then syncElevatorNetwork elevatorId currentUuid
                 (withSavedMaster form currentUuid d w1)
          else w1 in
        let p1 :=
          mkPanel currentUuid (pn_regionName p) nextFlags (pn_isHere p) in
        (w2, setIsHere (_deriveState st p1) p1)
    | _ => (w, p)
    end.

(** *** Selecting a destination *)

(** A chat card as [ChatMessage.create] receives it: the whisper list and
    the request in its flags (the content is markup around localised
    text). *)
Record Card := mkCard { c_whisper : list string; c_request : Payload }.

(** [createApprovalChatCard(payload, { whisperIds })]: the cards created,
    none without a recipient. *)
Definition createApprovalChatCard (payload : Payload) (whisperIds : list string)
    : list Card :=
  let recipients := List.filter truthy whisperIds in
  if bool_decide (length recipients = 0%nat) then []
  else [mkCard recipients payload].

(** The counters of the loop over the tokens that are not owned, the cards
    it has created and the number of ids [makeRequestId()] has handed out. *)
Record Sent := mkSent {
  s_cards : list Card;
  s_sentToOwner : nat;
  s_sentToGM : nat;
  s_ids : nat
}.

(** One round of the loop; the request of the card is the payload with an
    id of its own and the token as its only token. *)
Definition requestApproval (users : list User) (fresh : nat -> string)
    (payload : Payload) (acc : Sent) (t : TokenDocument) : Sent :=
  let '(recipientIds, routedTo) := computeApprovalRecipientsForToken users t in
  if bool_decide (length recipientIds = 0%nat) then acc
  else
    let oneTokenPayload :=
      mkPayload (fresh (s_ids acc)) (p_requester payload) (p_elevatorId payload)
        (p_destUUID payload) [t_uuid t] (p_sourceRegionUuid payload)
        (p_sceneFromId payload) in
    let cards :=
      (s_cards acc
       ++ createApprovalChatCard oneTokenPayload recipientIds)%list in
    if String.eqb routedTo "owner"
    then mkSent cards (S (s_sentToOwner acc)) (s_sentToGM acc) (S (s_ids acc))
    else mkSent cards (s_sentToOwner acc) (S (s_sentToGM acc)) (S (s_ids acc)).

(** What the host answers during one selection: the users, the documents
    [fromUuid] resolves, the tokens inside the Region of the panel with the
    [isOwner] of each, whether [dest.teleportToken] fails for a token, the
    setting [requireGMForAll], the id of the scene of the panel's Region,
    whether the destination has an object on the canvas afterwards, and the
    ids [makeRequestId()] returns, in the order of the calls. *)
Record SelectHost := mkSelectHost {
  sh_users : list User;
  sh_docs : gmap string Document;
  sh_tokens : list (TokenDocument * bool);
  sh_teleportFails : string -> bool;
  sh_requireAllGM : bool;
  sh_sceneFromId : string;
  sh_destObject : bool;
  sh_fresh : nat -> string
}.

(** What a selection can change: the panel, the client, the approval cards
    created, the tokens moved (with their destination) and the warnings and
    errors shown. *)
Record Desk := mkDesk {
  dk_panel : ElevatorPanel;
  dk_client : Client;
  dk_cards : list Card;
  dk_moved : list (string * string);
  dk_notices : list string
}.

Definition WARN_noDestination : string := "elevator.warn.noDestination".
Definition ERROR_invalidDestination : string :=
  "elevator.error.invalidDestination".
Definition WARN_noTokensInRegion : string := "elevator.warn.noTokensInRegion".
Definition WARN_teleportUnavailable : string :=
  "elevator.warn.teleportUnavailable".
Definition INFO_sentOwnerRequest : string := "elevator.info.sentOwnerRequest".
Definition INFO_sentGMRequest : string := "elevator.info.sentGMRequest".

Definition notice (text : string) (k : Desk) : Desk :=
  mkDesk (dk_panel k) (dk_client k) (dk_cards k) (dk_moved k)
    (dk_notices k ++ [text]).

(** The teleport of one owned token. *)
Definition teleportOwned (h : SelectHost) (destUUID : string) (k : Desk)
    (t : TokenDocument) : Desk :=
  if sh_teleportFails h (t_uuid t) then notice WARN_teleportUnavailable k
  else
    mkDesk (dk_panel k) (dk_client k) (dk_cards k)
      (dk_moved k ++ [(t_uuid t, destUUID)]) (dk_notices k).

(** The notifications after the loop. *)
Definition notifySent (requireAllGM : bool) (sent : Sent) (st : Client)
    : Client :=
  let st1 :=
    if negb (s_sentToOwner sent =? 0)%nat
    then notifyInfo INFO_sentOwnerRequest st else st in
  let st2 :=
    if negb (s_sentToGM sent =? 0)%nat
    then notifyInfo INFO_sentGMRequest st1 else st1 in
  if requireAllGM && (s_sentToGM sent =? 0)%nat
  then notifyInfo INFO_sentGMRequest st2 else st2.

(** [_handleSelect(destUUID)]; a missing [destUUID] is the empty string. *)
Definition _handleSelect (h : SelectHost) (destUUID : string) (k : Desk)
    : Desk :=
  let p := dk_panel k in
  if negb (truthy destUUID) then notice WARN_noDestination k
  else
    match sh_docs h !! destUUID with
    | Some (IsRegion dest) =>
        if String.eqb destUUID (pn_regionUuid p) then
          mkDesk (setIsHere (_deriveState (dk_client k) p) p) (dk_client k)
            (dk_cards k) (dk_moved k) (dk_notices k)
        else
          let tokens := sh_tokens h in
          if bool_decide (length tokens = 0%nat)
          then notice WARN_noTokensInRegion k
          else
            let owned := map fst (List.filter snd tokens) in
            let notOwned :=
              map fst (List.filter (fun t => negb (snd t)) tokens) in
            let k1 := foldl (teleportOwned h destUUID) k owned in
            let payload :=
              mkPayload (sh_fresh h 0%nat) (userId (dk_client k1))
                (f_elevatorId (pn_flags p)) destUUID (map t_uuid notOwned)
                (pn_regionUuid p) (sh_sceneFromId h) in
            let sent :=
              if negb (isGM (dk_client k1))
                 && negb (bool_decide (length notOwned = 0%nat))
              then foldl (requestApproval (sh_users h) (sh_fresh h) payload)
                     (mkSent [] 0 0 1) notOwned
              else mkSent [] 0 0 1 in
            let client2 :=
              if negb (isGM (dk_client k1))
                 && negb (bool_decide (length notOwned = 0%nat))
              then notifySent (sh_requireAllGM h) sent (dk_client k1)
              else dk_client k1 in
            let client3 :=
              requestSetCurrentLevel (sh_fresh h (s_ids sent))
                (f_elevatorId (pn_flags p)) destUUID client2 in
            let panel3 :=
              if sh_destObject h then
                let bound :=
                  mkPanel destUUID (r_name dest) (getElevatorFlags dest)
                    (pn_isHere p) in
                setIsHere (_deriveState client3 bound) bound
              else p in
            mkDesk panel3 client3 (dk_cards k1 ++ s_cards sent)%list
              (dk_moved k1) (dk_notices k1)
    | _ => notice ERROR_invalidDestination k
    end.

End Panel.

(** ** Sample worlds *)
Module Samples.
Import JS Sync.

Definition plainRegion (name : string) : Document :=
  IsRegion (mkRegion name None []).

(** Stops [A], [B], [C] with their labels stored, all three resolving. *)
Definition threeStops : World :=
  mkWorld true
    {[ "E" := mkMaster "A" "default" "icons/lift.svg" 48 false
                [mkStop "A" "Roof"; mkStop "B" "Hall"; mkStop "C" "Cellar"] ]}
    {[ "A" := plainRegion "Roof"; "B" := plainRegion "Hall";
       "C" := plainRegion "Cellar" ]}
    [].

(** Two stops saved with blank labels, as the configuration form stores
    them when the label inputs are left empty. *)
Definition blankLabels : World :=
  mkWorld true
    {[ "E" := mkMaster "A" "default" "icons/lift.svg" 48 false
                [mkStop "A" ""; mkStop "B" ""] ]}
    {[ "A" := plainRegion "Lobby"; "B" := plainRegion "Roof" ]}
    [].

(** A network of [n] stops [S0], [S1], ... labelled "Deck", all resolving. *)
Definition towerStops (n : nat) : list Stop :=
  map (fun k => mkStop ("S" ++ numberToString (Z.of_nat k)) "Deck") (seq 0 n).

Definition tower (n : nat) : World :=
  mkWorld true
    {[ "T" := mkMaster "" "default" "icons/lift.svg" 48 false (towerStops n) ]}
    (list_to_map (map (fun s => (uuid s, plainRegion "Deck")) (towerStops n)))
    [].

(** The name and the ["levels"] flag of the Region under a uuid. *)
Definition nameAt (w : World) (u : string) : option string :=
  match docs w !! u with
  | Some (IsRegion d) => Some (r_name d)
  | _ => None
  end.

Definition levelsAt (w : World) (u : string) : option (list Stop) :=
  match docs w !! u with
  | Some (IsRegion d) => Some (f_levels (getElevatorFlags d))
  | _ => None
  end.

End Samples.

(** * Properties *)

(** ** Strings *)
Section StringFacts.
Import JS.

Lemma truthy_true s : truthy s = true <-> s <> "".
Proof. destruct s; simpl; split; congruence. Qed.

Lemma truthy_false s : truthy s = false <-> s = "".
Proof. destruct s; simpl; split; congruence. Qed.

Lemma orElse_truthy a b : a <> "" -> orElse a b = a.
Proof. intros H. unfold orElse. apply truthy_true in H. now rewrite H. Qed.

Lemma trimStart_shape s :
  trimStart s = "" \/
  exists c r, trimStart s = String c r /\ isWhiteSpace c = false.
Proof.
  induction s as [|c s IH]; simpl; [now left|].
  destruct (isWhiteSpace c) eqn:E; [exact IH|].
  right. now exists c, s.
Qed.

Lemma trimEnd_idem s : trimEnd (trimEnd s) = trimEnd s.
Proof.
  induction s as [|c s IH]; simpl; [reflexivity|].
  destruct (trimEnd s) as [|c' r] eqn:E.
  - destruct (isWhiteSpace c) eqn:W; simpl; [reflexivity|now rewrite W].
  - change (trimEnd (String c (String c' r))) with
      (match trimEnd (String c' r) with
       | "" => if isWhiteSpace c then "" else String c ""
       | x => String c x
       end).
    now rewrite IH.
Qed.

Lemma trimEnd_head c s :
  isWhiteSpace c = false -> exists r, trimEnd (String c s) = String c r.
Proof.
  intros W. simpl. destruct (trimEnd s); [rewrite W|]; eauto.
Qed.

Lemma trimStart_head c s :
  isWhiteSpace c = false -> trimStart (String c s) = String c s.
Proof. intros W. simpl. now rewrite W. Qed.

Lemma trim_idem s : trim (trim s) = trim s.
Proof.
  unfold trim.
  destruct (trimStart_shape s) as [E|(c & r & E & W)]; rewrite E.
  - reflexivity.
  - destruct (trimEnd_head c r W) as [r' Er]. rewrite Er.
    rewrite (trimStart_head c r' W), <- Er. apply trimEnd_idem.
Qed.

(** A trimmed, non-empty string starts with a character that is not white
    space. *)
Lemma trim_head s :
  trim s <> "" -> exists c r, trim s = String c r /\ isWhiteSpace c = false.
Proof.
  unfold trim. intros Hne.
  destruct (trimStart_shape s) as [E|(c & r & E & W)]; rewrite E in *.
  - now elim Hne.
  - destruct (trimEnd_head c r W) as [r' Er]. rewrite Er. eauto.
Qed.

Lemma decimalGo_length fuel n acc :
  (String.length acc <= String.length (decimalGo fuel n acc))%nat.
Proof.
  revert n acc. induction fuel as [|fuel IH]; intros n acc; cbn; [lia|].
  destruct (n / 10 =? 0)%Z; cbn; [lia|].
  etransitivity; [|apply IH]. cbn. lia.
Qed.

Lemma floorField_positive f :
  (1 <= f)%Z -> Naming.floorField f = padStart 2 "0" (numberToString f).
Proof.
  intros Hf. unfold Naming.floorField.
  destruct (Z.eqb_spec f 0); [lia|]. now rewrite Z.max_r by lia.
Qed.

(** Floors 1 to 99 are shown with exactly two digits. *)
Lemma floorField_two_digits f :
  (1 <= f <= 99)%Z ->
  exists a b, isDigit a = true /\ isDigit b = true
              /\ Naming.floorField f = String a (String b "").
Proof.
  intros Hf.
  assert (E : exists k, f = Z.of_nat k /\ (1 <= k <= 99)%nat)
    by (exists (Z.to_nat f); lia).
  destruct E as (k & -> & Hk). clear Hf.
  assert (T : match Naming.floorField (Z.of_nat k) with
              | String a (String b "") => isDigit a && isDigit b
              | _ => false
              end = true).
  { do 100 (destruct k as [|k]; [first [lia | vm_compute; reflexivity]|]).
    lia. }
  destruct (Naming.floorField (Z.of_nat k)) as [|a [|b [|c r]]]; try discriminate.
  apply andb_true_iff in T as [Ta Tb]. now exists a, b.
Qed.

(** From floor 100 on the field has three digits or more. *)
Lemma floorField_three_digits f :
  (100 <= f)%Z -> (3 <= String.length (Naming.floorField f))%nat.
Proof.
  intros Hf. rewrite floorField_positive by lia.
  assert (L : (3 <= String.length (numberToString f))%nat).
  { unfold numberToString.
    destruct (Z.to_nat f) as [|[|k]] eqn:E; [lia|lia|].
    assert (B1 : (10 <= f / 10)%Z) by (apply Z.div_le_lower_bound; lia).
    assert (B2 : (1 <= f / 10 / 10)%Z) by (apply Z.div_le_lower_bound; lia).
    assert (H1 : (f / 10 =? 0)%Z = false) by (apply Z.eqb_neq; lia).
    assert (H2 : (f / 10 / 10 =? 0)%Z = false) by (apply Z.eqb_neq; lia).
    cbn [decimalGo]. rewrite H1, H2.
    destruct (f / 10 / 10 / 10 =? 0)%Z; cbn [String.length]; [lia|].
    etransitivity; [|apply decimalGo_length]. cbn. lia. }
  unfold padStart.
  replace (2 - String.length (numberToString f))%nat with 0%nat by lia.
  exact L.
Qed.

End StringFacts.

(** ** Region names *)
Section NamingFacts.
Import JS Naming.

Example segments_of_an_id :
  segments "  Tower 12  East " = ["Tower"; "12"; "East"].
Proof. reflexivity. Qed.

Lemma append_cons c s t : String c s ++ t = String c (s ++ t).
Proof. reflexivity. Qed.

Lemma append_nil_l t : "" ++ t = t.
Proof. reflexivity. Qed.

Lemma append_nil_r s : s ++ "" = s.
Proof. induction s as [|c s IH]; [reflexivity|]. now rewrite append_cons, IH. Qed.

Lemma append_assoc s t u : (s ++ t) ++ u = s ++ (t ++ u).
Proof.
  induction s as [|c s IH]; [reflexivity|]. now rewrite !append_cons, IH.
Qed.

Lemma isDigit_not_white c : isDigit c = true -> isWhiteSpace c = false.
Proof.
  destruct c as [[] [] [] [] [] [] [] []]; vm_compute; congruence.
Qed.

Lemma isWhiteSpace_space : isWhiteSpace " " = true.
Proof. reflexivity. Qed.

(** *** Trimming at the end *)

Lemma trimEnd_nil_head c s : trimEnd (String c s) = "" -> isWhiteSpace c = true.
Proof.
  cbn. destruct (trimEnd s); [|discriminate].
  now destruct (isWhiteSpace c).
Qed.

(** A string that [trimEnd] leaves alone keeps that property in each of its
    non-empty suffixes. *)
Lemma trimEnd_fixed_suffix p s :
  trimEnd (p ++ s) = p ++ s -> s <> "" -> trimEnd s = s.
Proof.
  intros H Hs. induction p as [|c p IH]; [exact H|].
  apply IH. rewrite append_cons in H. cbn in H.
  destruct (trimEnd (p ++ s)) as [|c' r] eqn:E.
  - destruct (isWhiteSpace c); [discriminate|].
    injection H as H. destruct p; [now elim Hs|discriminate].
  - now injection H.
Qed.

Lemma trimEnd_fixed_app x y :
  trimEnd y = y -> y <> "" -> trimEnd (x ++ y) = x ++ y.
Proof.
  intros Hy Hne. induction x as [|c x IH]; [exact Hy|].
  rewrite append_cons. cbn. rewrite IH.
  destruct (x ++ y) eqn:E; [|reflexivity].
  destruct x; [now elim Hne|discriminate].
Qed.

Lemma trim_fixed s : trimEnd (trim s) = trim s.
Proof. unfold trim. apply trimEnd_idem. Qed.

(** *** Segments *)

Lemma segments_head c s : isWhiteSpace c = false -> segments (String c s) <> [].
Proof.
  intros W. cbn. rewrite W.
  destruct s as [|c' s']; [discriminate|].
  destruct (isWhiteSpace c'); [discriminate|].
  destruct (segments (String c' s')); discriminate.
Qed.

(** Cutting a string at a white space cuts its list of segments. *)
Lemma segments_app_ws x w y :
  isWhiteSpace w = true ->
  segments (x ++ String w y) = (segments x ++ segments y)%list.
Proof.
  intros W. induction x as [|c x IH].
  - rewrite append_nil_l. cbn. now rewrite W.
  - rewrite append_cons.
    change (segments (String c (x ++ String w y)))
      with (if isWhiteSpace c then segments (x ++ String w y)
            else match x ++ String w y with
                 | "" => [String c ""]
                 | String c' _ =>
                     if isWhiteSpace c' then String c "" :: segments (x ++ String w y)
                     else match segments (x ++ String w y) with
                          | v :: vs => String c v :: vs
                          | [] => [String c ""]
                          end
                 end).
    change (segments (String c x))
      with (if isWhiteSpace c then segments x
            else match x with
                 | "" => [String c ""]
                 | String c' _ =>
                     if isWhiteSpace c' then String c "" :: segments x
                     else match segments x with
                          | v :: vs => String c v :: vs
                          | [] => [String c ""]
                          end
                 end).
    rewrite IH. destruct (isWhiteSpace c); [reflexivity|].
    destruct x as [|c' x'].
    + rewrite append_nil_l, W. reflexivity.
    + rewrite append_cons. destruct (isWhiteSpace c') eqn:W'; [reflexivity|].
      pose proof (segments_head c' x' W') as Hne.
      destruct (segments (String c' x')); [congruence|reflexivity].
Qed.

(** Two digits followed by white space or by the end are a segment. *)
Lemma segments_two_digits a b post :
  isDigit a = true -> isDigit b = true ->
  (post = "" \/ exists c t, post = String c t /\ isWhiteSpace c = true) ->
  segments (String a (String b post))
  = String a (String b "") :: segments post.
Proof.
  intros Da%isDigit_not_white Db%isDigit_not_white Hpost.
  cbn [segments]. rewrite Da, Db.
  destruct Hpost as [->|(c & t & -> & W)]; [reflexivity|].
  now rewrite W.
Qed.

Lemma segments_trimStart s : segments (trimStart s) = segments s.
Proof.
  induction s as [|c s IH]; [reflexivity|].
  cbn [trimStart]. destruct (isWhiteSpace c) eqn:W; [|reflexivity].
  rewrite IH. cbn. now rewrite W.
Qed.

Lemma trimEnd_nil_segments s : trimEnd s = "" -> segments s = [].
Proof.
  induction s as [|c s IH]; [reflexivity|].
  intros H. pose proof (trimEnd_nil_head c s H) as W.
  cbn in H. destruct (trimEnd s); [|discriminate].
  cbn. rewrite W. now apply IH.
Qed.

Lemma trimEnd_keeps_head c s c' r :
  trimEnd (String c s) = String c' r -> c' = c.
Proof.
  cbn. destruct (trimEnd s); [destruct (isWhiteSpace c)|]; congruence.
Qed.

Lemma segments_trimEnd s : segments (trimEnd s) = segments s.
Proof.
  induction s as [|c s IH]; [reflexivity|].
  cbn [trimEnd]. destruct (trimEnd s) as [|c1 r] eqn:E.
  - pose proof (trimEnd_nil_segments s E) as Hs.
    destruct (isWhiteSpace c) eqn:W.
    + cbn. now rewrite W.
    + cbn [segments]. rewrite W.
      destruct s as [|c' s']; [reflexivity|].
      rewrite (trimEnd_nil_head c' s' E). now rewrite Hs.
  - destruct s as [|c' s']; [discriminate|].
    pose proof (trimEnd_keeps_head _ _ _ _ E) as ->.
    change (segments (String c (String c' r)))
      with (if isWhiteSpace c then segments (String c' r)
            else if isWhiteSpace c' then String c "" :: segments (String c' r)
                 else match segments (String c' r) with
                      | v :: vs => String c v :: vs
                      | [] => [String c ""]
                      end).
    change (segments (String c (String c' s')))
      with (if isWhiteSpace c then segments (String c' s')
            else if isWhiteSpace c' then String c "" :: segments (String c' s')
                 else match segments (String c' s') with
                      | v :: vs => String c v :: vs
                      | [] => [String c ""]
                      end).
    now rewrite IH.
Qed.

Lemma segments_trim s : segments (trim s) = segments s.
Proof. unfold trim. now rewrite segments_trimEnd, segments_trimStart. Qed.

(** *** The pattern on a formatted name *)

Lemma floorTail_cons c t :
  floorTail (String c t)
  = if isWhiteSpace c then
      match floorTail t with
      | Some r => Some r
      | None => digitsThenSpace t
      end
    else None.
Proof. reflexivity. Qed.

Lemma plusGreedy_Some_head p s k r :
  plusGreedy p s k = Some r -> exists c t, s = String c t /\ p c = true.
Proof.
  destruct s as [|c t]; [discriminate|]. cbn.
  destruct (p c) eqn:E; [|discriminate]. eauto.
Qed.

Lemma digitsThenSpace_Some s r :
  digitsThenSpace s = Some r ->
  exists a b c t,
    s = String a (String b (String c t))
    /\ isDigit a = true /\ isDigit b = true /\ isWhiteSpace c = true.
Proof.
  unfold digitsThenSpace, twoDigits.
  destruct s as [|a [|b s2]]; try discriminate.
  destruct (isDigit a) eqn:Da; [|discriminate].
  destruct (isDigit b) eqn:Db; [|discriminate]. cbn.
  intros (c & t & -> & W)%plusGreedy_Some_head. now exists a, b, c, t.
Qed.

(** Where [floorTail] matches, the input is a run of white space, two
    digits and a white space. *)
Lemma floorTail_Some t r :
  floorTail t = Some r ->
  exists pre w a b c t3,
    t = pre ++ String w (String a (String b (String c t3)))
    /\ allChars isWhiteSpace pre = true /\ isWhiteSpace w = true
    /\ isDigit a = true /\ isDigit b = true /\ isWhiteSpace c = true.
Proof.
  revert r. induction t as [|c0 t IH]; intros r; [discriminate|].
  rewrite floorTail_cons. destruct (isWhiteSpace c0) eqn:W0; [|discriminate].
  destruct (floorTail t) as [r'|] eqn:E.
  - intros _. destruct (IH r' eq_refl) as (pre & w & a & b & c & t3 & -> & H).
    exists (String c0 pre), w, a, b, c, t3. rewrite append_cons.
    split; [reflexivity|]. cbn. now rewrite W0.
  - intros (a & b & c & t3 & -> & H)%digitsThenSpace_Some.
    exists "", c0, a, b, c, t3. now rewrite append_nil_l.
Qed.

(** A run of white space at the head of [s ++ rest] lies inside [s] when
    [s] ends in a character that is not white space. *)
Lemma white_prefix_inside run : forall s rest y,
  s ++ rest = run ++ y ->
  allChars isWhiteSpace run = true ->
  trimEnd s = s -> s <> "" ->
  exists s', s = run ++ s' /\ s' ++ rest = y /\ s' <> "" /\ trimEnd s' = s'.
Proof.
  induction run as [|l run IH]; intros s rest y E Hall Hfix Hne.
  - exists s. now rewrite append_nil_l in *.
  - destruct s as [|c s1]; [now elim Hne|].
    rewrite !append_cons in E. injection E as -> E.
    cbn in Hall. apply andb_true_iff in Hall as [Wl Hall].
    assert (Hne1 : s1 <> "").
    { intros ->. cbn in Hfix. rewrite Wl in Hfix. discriminate. }
    assert (Hfix1 : trimEnd s1 = s1).
    { apply (trimEnd_fixed_suffix (String l "") s1); [exact Hfix|exact Hne1]. }
    destruct (IH s1 rest y E Hall Hfix1 Hne1) as (s' & -> & H).
    exists s'. now rewrite append_cons.
Qed.

(** Inside an id without a two-digit segment the tail of the pattern finds
    no match before the id ends. *)
Lemma floorTail_inside_id id p s rest :
  existsb isTwoDigitNumber (segments id) = false ->
  trimEnd id = id ->
  id = p ++ s -> s <> "" ->
  (exists t, rest = String " " t) ->
  floorTail (s ++ rest) = None.
Proof.
  intros Hseg Hfix -> Hs (t & ->).
  destruct (floorTail (s ++ String " " t)) as [r|] eqn:E; [|reflexivity].
  exfalso.
  destruct (floorTail_Some _ _ E)
    as (pre & w & a & b & c & t3 & E' & Hpre & Ww & Da & Db & Wc).
  assert (Hfix_s : trimEnd s = s) by now apply (trimEnd_fixed_suffix p s).
  replace (pre ++ String w (String a (String b (String c t3))))
    with ((pre ++ String w "") ++ String a (String b (String c t3))) in E'
    by now rewrite append_assoc.
  assert (Hrun : allChars isWhiteSpace (pre ++ String w "") = true).
  { clear -Hpre Ww. induction pre as [|x pre IH].
    - rewrite append_nil_l. cbn. now rewrite Ww.
    - rewrite append_cons. cbn in *.
      apply andb_true_iff in Hpre as [-> Hpre]. now apply IH. }
  destruct (white_prefix_inside _ _ _ _ E' Hrun Hfix_s Hs)
    as (s1 & -> & E1 & Hs1 & _).
  (* the two digits lie inside the id *)
  destruct s1 as [|a' s2]; [now elim Hs1|].
  rewrite append_cons in E1. injection E1 as -> E1.
  destruct s2 as [|b' s3].
  { rewrite append_nil_l in E1. injection E1 as <- _.
    apply isDigit_not_white in Db. discriminate. }
  rewrite append_cons in E1. injection E1 as -> E1.
  assert (Hpost : s3 = "" \/ exists c' t', s3 = String c' t'
                                       /\ isWhiteSpace c' = true).
  { destruct s3 as [|c' t']; [now left|right].
    rewrite append_cons in E1. injection E1 as -> _. eauto. }
  rewrite append_assoc, <- append_assoc, append_cons, append_nil_l in Hseg.
  rewrite (segments_app_ws _ _ _ Ww) in Hseg.
  rewrite (segments_two_digits a b s3 Da Db Hpost) in Hseg.
  rewrite existsb_app in Hseg. apply orb_false_iff in Hseg as [_ Hseg].
  cbn in Hseg. rewrite Da, Db in Hseg. discriminate.
Qed.

(** The lazy [.+?] stops at the end of the id. *)
Lemma plusLazy_skips_id rest r :
  floorTail rest = Some r ->
  forall id,
    id <> "" -> allChars isDot id = true ->
    (forall p s, id = p ++ s -> p <> "" -> s <> "" ->
                 floorTail (s ++ rest) = None) ->
    plusLazy isDot (id ++ rest) floorTail = Some r.
Proof.
  intros Hrest. induction id as [|c id IH]; intros Hne Hdot Hin; [now elim Hne|].
  cbn in Hdot. apply andb_true_iff in Hdot as [Dc Hdot].
  rewrite append_cons. cbn [plusLazy]. rewrite Dc.
  destruct id as [|c' id'].
  - rewrite append_nil_l, Hrest. reflexivity.
  - rewrite (Hin (String c "") (String c' id') eq_refl) by discriminate.
    apply IH; [discriminate|exact Hdot|].
    intros p s E Hp Hs. apply (Hin (String c p) s); [|discriminate|exact Hs].
    now rewrite append_cons, <- E.
Qed.

Lemma floorField_upto_99 f :
  (f <= 99)%Z ->
  exists a b, isDigit a = true /\ isDigit b = true
              /\ floorField f = String a (String b "").
Proof.
  intros Hf. destruct (Z_le_gt_dec 1 f) as [H1|H1].
  - apply floorField_two_digits. lia.
  - replace (floorField f) with (floorField 1).
    + apply floorField_two_digits. lia.
    + change (floorField 1) with (padStart 2 "0" (numberToString 1)).
      unfold floorField. destruct (Z.eqb_spec f 0); [reflexivity|].
      now rewrite (Z.max_l 1 f) by lia.
Qed.

(** The tail of the pattern on the floor and the label of a formatted
    name. *)
Lemma floorTail_floor_label a b lbl :
  isDigit a = true -> isDigit b = true ->
  trim lbl <> "" ->
  floorTail (String " " (String a (String b (String " " (trim lbl)))))
  = Some (trim lbl).
Proof.
  intros Da Db Hl.
  destruct (trim_head lbl Hl) as (c & r & E & Wc). rewrite E.
  rewrite floorTail_cons, isWhiteSpace_space, floorTail_cons.
  rewrite (isDigit_not_white a Da).
  unfold digitsThenSpace, twoDigits. rewrite Da, Db. cbn. now rewrite Wc.
Qed.

(** C9, amended.  For an elevator id that is not blank, has no line
    terminator inside and no segment that is a two-digit number on its own,
    a floor number of at most 99, and a label that after trimming is not
    empty and does not start with "ELV ": stripping the formatted name gives
    back the trimmed label. *)
Theorem strip_of_format
    (elevatorId : string) (floorNumber : Z) (label : string) :
  trim elevatorId <> "" ->
  allChars isDot (trim elevatorId) = true ->
  existsb isTwoDigitNumber (segments elevatorId) = false ->
  (floorNumber <= 99)%Z ->
  trim label <> "" ->
  startsWith "ELV " (trim label) = false ->
  stripElevatorNamePrefix
    (formatElevatorRegionName elevatorId floorNumber label)
  = trim label.
Proof.
  intros Hid Hdot Hseg Hfloor Hlbl Hnot.
  destruct (floorField_upto_99 floorNumber Hfloor) as (a & b & Da & Db & Ef).
  destruct (trim_head elevatorId Hid) as (c & idr & Eid & Wc).
  (* the label the name is built from *)
  assert (Elbl : stripElevatorNamePrefix (trim label) = trim label).
  { unfold stripElevatorNamePrefix. now rewrite trim_idem, Hnot. }
  unfold formatElevatorRegionName. rewrite Ef, Elbl.
  set (id := trim elevatorId) in *. set (lbl := trim label) in *.
  set (rest := String " " (String a (String b (String " " lbl)))).
  (* the name is already trimmed *)
  change ("ELV " ++ id ++ " " ++ String a (String b "") ++ " " ++ lbl)
    with (String "E" (String "L" (String "V" (String " " (id ++ rest))))).
  assert (Etrim : trim (String "E" (String "L" (String "V" (String " " (id ++ rest)))))
                  = String "E" (String "L" (String "V" (String " " (id ++ rest))))).
  { unfold trim. rewrite trimStart_head by reflexivity.
    change (String "E" (String "L" (String "V" (String " " (id ++ rest)))))
      with ("ELV " ++ id ++ (String " " (String a (String b " "))) ++ lbl).
    rewrite <- !append_assoc.
    apply trimEnd_fixed_app; [apply trim_fixed|exact Hlbl]. }
  rewrite Etrim.
  (* stripping it *)
  unfold stripElevatorNamePrefix.
  rewrite Etrim. cbn [startsWith Ascii.eqb Bool.eqb negb].
  assert (Hrest : floorTail rest = Some lbl)
    by (apply floorTail_floor_label; assumption).
  assert (Ematch : replacePrefix
                     (String "E" (String "L" (String "V" (String " " (id ++ rest)))))
                   = lbl).
  { unfold replacePrefix, matchPrefix.
    cbn [literal Ascii.eqb Bool.eqb plusGreedy]. rewrite isWhiteSpace_space.
    replace (plusGreedy isWhiteSpace (id ++ rest)
               (fun s2 => plusLazy isDot s2 floorTail)) with (@None string).
    2:{ rewrite Eid, append_cons. cbn. now rewrite Wc. }
    rewrite (plusLazy_skips_id rest lbl Hrest id Hid Hdot); [reflexivity|].
    intros p s E Hp Hs.
    apply (floorTail_inside_id id p s rest); try assumption.
    - subst id. now rewrite segments_trim.
    - apply trim_fixed.
    - now eexists. }
  rewrite Ematch. subst lbl. rewrite trim_idem.
  now apply orElse_truthy.
Qed.

(** The theorem at a name the sync builds. *)
Lemma strip_of_format_witness :
  stripElevatorNamePrefix
    (formatElevatorRegionName " Tower East " 3 " Lobby 12 ")
  = "Lobby 12".
Proof.
  refine (strip_of_format " Tower East " 3 " Lobby 12 " _ _ _ _ _ _).
  - vm_compute. discriminate.
  - vm_compute. reflexivity.
  - vm_compute. reflexivity.
  - vm_compute. discriminate.
  - vm_compute. discriminate.
  - vm_compute. reflexivity.
Defined.

(** With floor 100 the name is not stripped, for an id of one segment and a
    plain label. *)
Lemma floor_100_is_not_stripped :
  existsb isTwoDigitNumber (segments "A") = false
  /\ "Lobby" <> "" /\ startsWith "ELV " "Lobby" = false
  /\ stripElevatorNamePrefix (formatElevatorRegionName "A" 100 "Lobby")
     = "ELV A 100 Lobby"
  /\ stripElevatorNamePrefix (formatElevatorRegionName "A" 100 "Lobby")
     <> trim "Lobby".
Proof. vm_compute. repeat split; congruence. Qed.

(** Each of the other conditions is needed. *)
Example blank_id_is_not_stripped :
  stripElevatorNamePrefix (formatElevatorRegionName " " 3 "Lobby")
  = "ELV  03 Lobby".
Proof. reflexivity. Qed.

Example id_with_line_break_is_not_stripped :
  let id := "A" ++ String (ascii_of_nat 10) "B" in
  existsb isTwoDigitNumber (segments id) = false
  /\ stripElevatorNamePrefix (formatElevatorRegionName id 3 "Lobby")
     = formatElevatorRegionName id 3 "Lobby".
Proof. vm_compute. split; reflexivity. Qed.

Example two_digit_segment_ends_the_id :
  stripElevatorNamePrefix (formatElevatorRegionName "A 12 B" 3 "Lobby")
  = "B 03 Lobby".
Proof. reflexivity. Qed.

Example blank_label_leaves_the_prefix :
  stripElevatorNamePrefix (formatElevatorRegionName "A" 3 "  ") = "ELV A 03".
Proof. reflexivity. Qed.

Example label_is_stripped_after_trimming :
  startsWith "ELV " " ELV a 01 b" = false
  /\ stripElevatorNamePrefix (formatElevatorRegionName "A" 3 " ELV a 01 b")
     = "b".
Proof. split; reflexivity. Qed.

End NamingFacts.

(** ** Current-level state and messaging *)
Section NetFacts.
Import JS Net.

Lemma queueRerender_trimmed e st :
  trim e <> "" ->
  queueRerenderOpenElevatorPanels (trim e) st
  = setTimers (fun t => {[trim e]} ∪ t) st.
Proof.
  intros He. unfold queueRerenderOpenElevatorPanels. rewrite trim_idem.
  apply truthy_true in He. now rewrite He.
Qed.

Lemma assignKey_ordinary {A : Type} (k : string) (v : A) (o : gmap string A) :
  k <> "__proto__" -> assignKey k v o = <[k := v]> o.
Proof.
  intros Hk. unfold assignKey.
  destruct (String.eqb_spec k "__proto__") as [E|_];
    [contradiction|reflexivity].
Qed.

Lemma assignKey_other {A : Type} (k k' : string) (v : A) (o : gmap string A) :
  k' <> k -> assignKey k v o !! k' = o !! k'.
Proof.
  intros Hk. unfold assignKey.
  destruct (String.eqb k "__proto__"); [destruct (o !! k)|];
    try reflexivity; now apply lookup_insert_ne.
Qed.

(** C1. A call of [requestSetCurrentLevel] whose trimmed arguments are not
    empty, for an elevator id other than ["__proto__"], sets the caller's
    optimistic entry for the elevator to the uuid and queues a rerender for
    it.  On the GM it also sets the entry of the persisted store and emits
    [currentLevelChanged] with that elevator id and uuid (on the unified and
    on the legacy channel); on any other client the persisted store is left
    as it is and a [setCurrentLevel] request is emitted instead. *)
Theorem requestSetCurrentLevel_effect
    (requestId elevatorId regionUuid : string) (st : Client) :
  trim elevatorId <> "" -> trim elevatorId <> "__proto__" ->
  trim regionUuid <> "" ->
  let elevId := trim elevatorId in
  let uuid := trim regionUuid in
  let st' := requestSetCurrentLevel requestId elevatorId regionUuid st in
  optimistic st' = <[elevId := uuid]> (optimistic st)
  /\ rerenderTimers st' = {[elevId]} ∪ rerenderTimers st
  /\ (isGM st = true ->
        persisted st' = <[elevId := uuid]> (persisted st)
        /\ emitted st'
           = (emitted st
              ++ [(SOCKET_CHANNEL, changedUnified requestId elevId uuid);
                  (LEGACY_currentLevelChanged,
                   changedLegacy requestId elevId uuid)])%list)
  /\ (isGM st = false ->
        persisted st' = persisted st
        /\ emitted st'
           = (emitted st
              ++ [(SOCKET_CHANNEL,
                   mkMessage (Some "setCurrentLevel") (Some requestId)
                     (Some elevId) (Some uuid) (Some (userId st)) None None);
                  (LEGACY_setCurrentLevel,
                   mkMessage None (Some requestId) (Some elevId) (Some uuid)
                     (Some (userId st)) None None)])%list).
Proof.
  intros He Hp Hu elevId uuid st'. subst st' elevId uuid.
  unfold requestSetCurrentLevel.
  rewrite (proj2 (truthy_true _) He), (proj2 (truthy_true _) Hu).
  cbn [negb orb].
  rewrite (queueRerender_trimmed elevatorId _ He).
  cbn [isGM setTimers setOptimistic].
  destruct (isGM st) eqn:G; cbn; rewrite <- ?app_assoc; cbn;
    rewrite ?(assignKey_ordinary _ _ _ Hp);
    repeat split; try reflexivity; intros; try discriminate;
    repeat split; reflexivity.
Qed.

(** The theorem at a player's call and at the GM's call. *)
Lemma requestSetCurrentLevel_effect_witness :
  let player := mkClient false "player1" ∅ ∅ ∅ ∅ [] [] in
  let gm := mkClient true "gm" ∅ ∅ ∅ ∅ [] [] in
  let player' := requestSetCurrentLevel "r1" " elev1 " "stopB" player in
  let gm' := requestSetCurrentLevel "r2" "elev1" "stopB" gm in
  (optimistic player' = {["elev1" := "stopB"]}
   /\ persisted player' = ∅
   /\ emitted player'
      = [(SOCKET_CHANNEL,
          mkMessage (Some "setCurrentLevel") (Some "r1") (Some "elev1")
            (Some "stopB") (Some "player1") None None);
         (LEGACY_setCurrentLevel,
          mkMessage None (Some "r1") (Some "elev1") (Some "stopB")
            (Some "player1") None None)])
  /\ (optimistic gm' = {["elev1" := "stopB"]}
      /\ persisted gm' = {["elev1" := "stopB"]}
      /\ emitted gm'
         = [(SOCKET_CHANNEL, changedUnified "r2" "elev1" "stopB");
            (LEGACY_currentLevelChanged, changedLegacy "r2" "elev1" "stopB")]).
Proof.
  intros player gm player' gm'.
  destruct (requestSetCurrentLevel_effect "r1" " elev1 " "stopB" player
              ltac:(vm_compute; discriminate)
              ltac:(vm_compute; discriminate)
              ltac:(vm_compute; discriminate))
    as (O1 & _ & _ & P1).
  destruct (requestSetCurrentLevel_effect "r2" "elev1" "stopB" gm
              ltac:(vm_compute; discriminate)
              ltac:(vm_compute; discriminate)
              ltac:(vm_compute; discriminate))
    as (O2 & _ & G2 & _).
  destruct (P1 eq_refl) as [P1a P1b]. destruct (G2 eq_refl) as [G2a G2b].
  split; [split; [exact O1|split; [exact P1a|exact P1b]]|].
  split; [exact O2|split; [exact G2a|exact G2b]].
Defined.

(** The cache and the persisted store are plain objects.  For the elevator
    id ["__proto__"] the two assignments of [requestSetCurrentLevel] store
    nothing: after the GM's call neither holds an entry, the GM reads the
    text of [Object.prototype] and not the uuid as the known level, and the
    change is broadcast all the same. *)
Lemma proto_id_is_not_stored :
  let st := mkClient true "gm" ∅ ∅ ∅ ∅ [] [] in
  let st' := requestSetCurrentLevel "r1" "__proto__" "stopB" st in
  trim "__proto__" <> "" /\ trim "stopB" <> ""
  /\ optimistic st' !! "__proto__" = None
  /\ persisted st' !! "__proto__" = None
  /\ getKnownCurrentLevelUuid "__proto__" st' = "[object Object]"
  /\ emitted st'
     = [(SOCKET_CHANNEL, changedUnified "r1" "__proto__" "stopB");
        (LEGACY_currentLevelChanged, changedLegacy "r1" "__proto__" "stopB")].
Proof. vm_compute. repeat split; discriminate. Qed.

Lemma dispatch_seen fresh type data st :
  seenSocketIds (dispatch fresh type data st) = seenSocketIds st.
Proof.
  unfold dispatch, onSocketPing, onSocketPong, onSetCurrentLevel,
    onGetCurrentLevel, onCurrentLevelChanged, queueRerenderOpenElevatorPanels,
    broadcastChanged.
  repeat match goal with
         | |- context [if ?b then _ else _] => destruct b
         end; reflexivity.
Qed.

(** The value of the branch on a well-formed broadcast. *)
Lemma onCurrentLevelChanged_value data st :
  trim (str (msg_elevatorId data)) <> "" ->
  trim (str (msg_elevatorId data)) <> "__proto__" ->
  trim (str (msg_regionUuid data)) <> "" ->
  onCurrentLevelChanged data st
  = mkClient (isGM st) (userId st)
      (<[trim (str (msg_elevatorId data)) := trim (str (msg_regionUuid data))]>
         (optimistic st))
      (persisted st)
      ({[trim (str (msg_elevatorId data))]} ∪ rerenderTimers st)
      (seenSocketIds st) (emitted st) (infos st).
Proof.
  intros He Hp Hu. unfold onCurrentLevelChanged.
  rewrite (proj2 (truthy_true _) He), (proj2 (truthy_true _) Hu).
  cbn [negb orb]. rewrite (queueRerender_trimmed _ _ He).
  unfold setOptimistic. now rewrite (assignKey_ordinary _ _ _ Hp).
Qed.

Lemma wasSocketRequestSeen_frame requestId windowMs now st :
  let st' := (wasSocketRequestSeen requestId windowMs now st).2 in
  isGM st' = isGM st /\ userId st' = userId st
  /\ optimistic st' = optimistic st /\ persisted st' = persisted st
  /\ rerenderTimers st' = rerenderTimers st /\ emitted st' = emitted st
  /\ infos st' = infos st.
Proof.
  unfold wasSocketRequestSeen.
  destruct (negb (truthy (trim (str requestId)))); [now cbn|].
  match goal with |- context [match ?x with _ => _ end] => destruct x end;
    now cbn.
Qed.

(** C8. A [currentLevelChanged] message whose region uuid is not empty
    and whose elevator id is neither empty nor ["__proto__"].  The branch of
    the handler sets the optimistic entry of that elevator and queues its
    rerender, and leaves every other component of the client as it is.  The
    handler runs that branch after the de-duplication, which keeps its own
    record of request ids: a message it lets through has exactly that effect,
    a repeat changes neither the cache nor the timers.  Either way, on the GM
    as on any other client, the handler never changes the persisted store,
    emits nothing, changes no other optimistic entry, queues no other rerender
    and leaves the record of request ids as the de-duplication made it. *)
Theorem currentLevelChanged_updates_only_cache
    (now : Z) (fresh : string) (data : Message) (st : Client) :
  trim (str (msg_type data)) = "currentLevelChanged" ->
  trim (str (msg_elevatorId data)) <> "" ->
  trim (str (msg_elevatorId data)) <> "__proto__" ->
  trim (str (msg_regionUuid data)) <> "" ->
  let elevId := trim (str (msg_elevatorId data)) in
  let uuid := trim (str (msg_regionUuid data)) in
  let gate :=
    wasSocketRequestSeen (msg_requestId data) DEDUP_WINDOW_MS now st in
  let st' := handleSocketMessage now fresh data st in
  onCurrentLevelChanged data st
  = mkClient (isGM st) (userId st) (<[elevId := uuid]> (optimistic st))
      (persisted st) ({[elevId]} ∪ rerenderTimers st) (seenSocketIds st)
      (emitted st) (infos st)
  /\ st' = (if gate.1 then gate.2 else onCurrentLevelChanged data gate.2)
  /\ persisted st' = persisted st
  /\ emitted st' = emitted st
  /\ infos st' = infos st
  /\ isGM st' = isGM st
  /\ userId st' = userId st
  /\ seenSocketIds st' = seenSocketIds gate.2
  /\ (forall k, k <> elevId -> optimistic st' !! k = optimistic st !! k)
  /\ (forall k, k <> elevId -> k ∈ rerenderTimers st' <-> k ∈ rerenderTimers st)
  /\ (gate.1 = false ->
       optimistic st' = <[elevId := uuid]> (optimistic st)
       /\ rerenderTimers st' = {[elevId]} ∪ rerenderTimers st)
  /\ (gate.1 = true ->
       optimistic st' = optimistic st
       /\ rerenderTimers st' = rerenderTimers st).
Proof.
  intros Ht He Hp Hu elevId uuid gate st'.
  split; [exact (onCurrentLevelChanged_value data st He Hp Hu)|].
  subst st' gate. unfold handleSocketMessage. rewrite Ht. cbn [truthy negb].
  pose proof (wasSocketRequestSeen_frame (msg_requestId data)
                DEDUP_WINDOW_MS now st) as F.
  destruct (wasSocketRequestSeen (msg_requestId data) DEDUP_WINDOW_MS now st)
    as [seen st1].
  cbn [fst snd] in *. destruct F as (F1 & F2 & F3 & F4 & F5 & F6 & F7).
  destruct seen.
  - rewrite F1, F2, F3, F4, F5, F6, F7.
    repeat split; try reflexivity; try tauto; discriminate.
  - unfold dispatch. cbn [String.eqb Ascii.eqb Bool.eqb].
    split; [reflexivity|].
    rewrite (onCurrentLevelChanged_value data st1 He Hp Hu).
    fold elevId uuid. cbn. rewrite F1, F2, F3, F4, F5, F6, F7.
    repeat split; try reflexivity; try discriminate.
    + intros k Hk. now rewrite lookup_insert_ne.
    + intros [Hk'|Hk']%elem_of_union; [|exact Hk'].
      apply elem_of_singleton in Hk'. contradiction.
    + intros Hk'. apply elem_of_union. now right.
Qed.

(** The theorem at a broadcast the GM's own client receives. *)
Lemma currentLevelChanged_updates_only_cache_witness :
  let st := mkClient true "gm" ∅ {["elev1" := "stopA"]} ∅ ∅ [] [] in
  let data := changedUnified "r1" "elev1" "stopB" in
  persisted (handleSocketMessage 1000 "f" data st) = {["elev1" := "stopA"]}
  /\ optimistic (handleSocketMessage 1000 "f" data st) = {["elev1" := "stopB"]}.
Proof.
  intros st data.
  pose proof (currentLevelChanged_updates_only_cache 1000 "f" data st
                eq_refl
                ltac:(vm_compute; discriminate)
                ltac:(vm_compute; discriminate)
                ltac:(vm_compute; discriminate)) as H.
  cbv zeta in H.
  destruct H as (_ & _ & Hp & _ & _ & _ & _ & _ & _ & _ & Ho & _).
  split; [exact Hp|]. exact (proj1 (Ho eq_refl)).
Defined.

(** Four messages a player's client receives.  It has handled the
    [setCurrentLevel] request of another player, so the broadcast by which
    the GM answers, under the same request id, is dropped as a repeat: the
    entry of [elev1] is not set.  A broadcast under a new request id is
    handled: it sets the entry, and the handler records the request id, so a
    component other than the cache and the timers has changed.  A broadcast
    for the elevator id ["__proto__"] is handled as well, and stores nothing:
    the cache is what it was, and the level the client knows for that id is
    the text of [Object.prototype]. *)
Lemma currentLevelChanged_not_always_stored :
  let st := mkClient false "player2" ∅ ∅ ∅ ∅ [] [] in
  let request :=
    mkMessage (Some "setCurrentLevel") (Some "r1") (Some "elev1")
      (Some "stopB") (Some "player1") None None in
  let st1 := handleSocketMessage 1000 "f" request st in
  let st2 :=
    handleSocketMessage 1050 "g" (changedUnified "r1" "elev1" "stopB") st1 in
  let st3 :=
    handleSocketMessage 1100 "h" (changedUnified "r2" "elev1" "stopB") st2 in
  let st4 :=
    handleSocketMessage 1200 "i" (changedUnified "r3" "__proto__" "stopD")
      st3 in
  optimistic st2 !! "elev1" = None
  /\ optimistic st3 !! "elev1" = Some "stopB"
  /\ seenSocketIds st3 <> seenSocketIds st2
  /\ optimistic st4 = optimistic st3
  /\ optimistic st4 !! "__proto__" = None
  /\ getKnownCurrentLevelUuid "__proto__" st4 = "[object Object]"
  /\ "__proto__" ∈ rerenderTimers st4.
Proof.
  cbv zeta. repeat split; try (vm_compute; reflexivity).
  intros E.
  apply (f_equal (fun m : gmap string Z => m !! "r2")) in E.
  vm_compute in E. discriminate.
Qed.

(** C10. A message whose [requestId] is missing, empty or only white space
    is not recorded and not taken for a repeat: [wasSocketRequestSeen]
    answers [false] and leaves the state as it is, so the handler goes on to
    the branch of the message's type, on every delivery, the copy that a
    legacy channel hands over included. *)
Theorem blank_requestId_not_deduplicated
    (now now' : Z) (fresh fresh' : string) (data : Message) (st : Client) :
  trim (str (msg_requestId data)) = "" ->
  wasSocketRequestSeen (msg_requestId data) DEDUP_WINDOW_MS now st = (false, st)
  /\ seenSocketIds (handleSocketMessage now fresh data st) = seenSocketIds st
  /\ (trim (str (msg_type data)) <> "" ->
       handleSocketMessage now fresh data st
       = dispatch fresh (trim (str (msg_type data))) data st)
  /\ (trim (str (msg_type data)) <> "" ->
       handleSocketMessage now' fresh' data
         (handleSocketMessage now fresh data st)
       = dispatch fresh' (trim (str (msg_type data))) data
           (dispatch fresh (trim (str (msg_type data))) data st))
  /\ (forall type, trim type <> "" ->
       handleSocketMessage now' fresh' (withType type data) st
       = dispatch fresh' (trim type) (withType type data) st).
Proof.
  intros Hid.
  assert (W : forall t st0,
             wasSocketRequestSeen (msg_requestId data) DEDUP_WINDOW_MS t st0
             = (false, st0)).
  { intros t st0. unfold wasSocketRequestSeen. now rewrite Hid. }
  assert (H : forall t f st0, trim (str (msg_type data)) <> "" ->
             handleSocketMessage t f data st0
             = dispatch f (trim (str (msg_type data))) data st0).
  { intros t f st0 Ht. unfold handleSocketMessage.
    rewrite (proj2 (truthy_true _) Ht), W. reflexivity. }
  split; [apply W|]. split; [|split; [apply H|split]].
  - destruct (decide (trim (str (msg_type data)) = "")) as [E|E].
    + unfold handleSocketMessage. now rewrite E.
    + rewrite H by exact E. apply dispatch_seen.
  - intros Ht. now rewrite !H.
  - intros type Ht. unfold handleSocketMessage.
    change (str (msg_type (withType type data))) with type.
    rewrite (proj2 (truthy_true _) Ht). cbn [negb].
    change (msg_requestId (withType type data)) with (msg_requestId data).
    now rewrite W.
Qed.

(** The theorem at a broadcast that carries no request id. *)
Lemma blank_requestId_not_deduplicated_witness :
  let st := mkClient false "player1" ∅ ∅ ∅ ∅ [] [] in
  let data :=
    mkMessage (Some "currentLevelChanged") None (Some "elev1") (Some "stopB")
      None None None in
  wasSocketRequestSeen (msg_requestId data) DEDUP_WINDOW_MS 5 st = (false, st).
Proof.
  intros st data.
  exact (proj1 (blank_requestId_not_deduplicated 5 6 "f" "g" data st eq_refl)).
Defined.

(** *** De-duplication *)

(** The GM answers a player's [setCurrentLevel] with a broadcast under the
    request id of the player.  A third client has recorded that id when the
    request went by, so it drops the broadcast: its cache stays as it was. *)
Example relayed_broadcast_reuses_the_request_id :
  let gm := mkClient true "gm" ∅ ∅ ∅ ∅ [] [] in
  let other := mkClient false "player2" ∅ ∅ ∅ ∅ [] [] in
  let request :=
    mkMessage (Some "setCurrentLevel") (Some "r1") (Some "elev1")
      (Some "stopB") (Some "player1") None None in
  emitted (handleSocketMessage 1000 "f" request gm)
  = [(SOCKET_CHANNEL, changedUnified "r1" "elev1" "stopB");
     (LEGACY_currentLevelChanged, changedLegacy "r1" "elev1" "stopB")]
  /\ optimistic
       (handleSocketMessage 1050 "h" (changedUnified "r1" "elev1" "stopB")
          (handleSocketMessage 1000 "g" request other))
     = ∅.
Proof. vm_compute. split; reflexivity. Qed.

Lemma wasSocketRequestSeen_keeps id t0 requestId now st :
  seenSocketIds st !! id = Some t0 ->
  (now - t0 <= DEDUP_WINDOW_MS)%Z ->
  seenSocketIds (wasSocketRequestSeen requestId DEDUP_WINDOW_MS now st).2 !! id
  = Some t0.
Proof.
  intros Hs Hw. unfold wasSocketRequestSeen.
  destruct (negb (truthy (trim (str requestId)))); [exact Hs|].
  set (live := filter _ (seenSocketIds st)).
  assert (Hl : live !! id = Some t0).
  { apply map_lookup_filter_Some_2; [exact Hs|]. cbn. lia. }
  destruct (live !! trim (str requestId)) eqn:E; cbn; [exact Hl|].
  rewrite lookup_insert_ne; [exact Hl|]. congruence.
Qed.

Lemma handleSocketMessage_keeps id t0 now fresh data st :
  seenSocketIds st !! id = Some t0 ->
  (now - t0 <= DEDUP_WINDOW_MS)%Z ->
  seenSocketIds (handleSocketMessage now fresh data st) !! id = Some t0.
Proof.
  intros Hs Hw. unfold handleSocketMessage.
  destruct (negb (truthy (trim (str (msg_type data))))); [exact Hs|].
  pose proof (wasSocketRequestSeen_keeps id t0 (msg_requestId data) now st
                Hs Hw) as K.
  destruct (wasSocketRequestSeen (msg_requestId data) DEDUP_WINDOW_MS now st)
    as [seen st1].
  cbn [snd] in K. destruct seen; [exact K|]. now rewrite dispatch_seen.
Qed.

Lemma handleAll_keeps id t0 t2 events st :
  seenSocketIds st !! id = Some t0 ->
  (t2 - t0 <= DEDUP_WINDOW_MS)%Z ->
  Forall (fun ev : Z * string * Message => (ev.1.1 <= t2)%Z) events ->
  seenSocketIds (handleAll events st) !! id = Some t0.
Proof.
  intros Hs Hw Hall. revert st Hs.
  induction Hall as [|ev events Hev _ IH]; intros st Hs; [exact Hs|].
  cbn. apply IH. apply handleSocketMessage_keeps; [exact Hs|lia].
Qed.

(** C2. Two messages with the same non-empty request id, the second
    delivered no later than 8000 ms after the first (whatever is delivered in
    between): the first delivery passes the de-duplication and is handed to
    the branch of its type, the second is recognised as a repeat and dropped
    before any branch runs, so the caches, the persisted store, the timers
    and the emitted messages are what they were before it arrived. *)
Theorem duplicate_requestId_processed_once
    (t1 t2 : Z) (f1 f2 : string) (m1 m2 : Message)
    (between : list (Z * string * Message)) (st : Client) :
  let id := trim (str (msg_requestId m1)) in
  id <> "" ->
  trim (str (msg_requestId m2)) = id ->
  trim (str (msg_type m1)) <> "" ->
  (forall ts, seenSocketIds st !! id = Some ts -> (t1 - ts > DEDUP_WINDOW_MS)%Z) ->
  (t2 - t1 <= DEDUP_WINDOW_MS)%Z ->
  Forall (fun ev : Z * string * Message => (ev.1.1 <= t2)%Z) between ->
  let st1 := handleSocketMessage t1 f1 m1 st in
  let stm := handleAll between st1 in
  let st2 := handleSocketMessage t2 f2 m2 stm in
  (wasSocketRequestSeen (msg_requestId m1) DEDUP_WINDOW_MS t1 st).1 = false
  /\ st1 = dispatch f1 (trim (str (msg_type m1))) m1
             (wasSocketRequestSeen (msg_requestId m1) DEDUP_WINDOW_MS t1 st).2
  /\ (wasSocketRequestSeen (msg_requestId m2) DEDUP_WINDOW_MS t2 stm).1 = true
  /\ (st2 = stm
      \/ st2 = (wasSocketRequestSeen (msg_requestId m2) DEDUP_WINDOW_MS t2 stm).2)
  /\ optimistic st2 = optimistic stm
  /\ persisted st2 = persisted stm
  /\ rerenderTimers st2 = rerenderTimers stm
  /\ emitted st2 = emitted stm
  /\ infos st2 = infos stm.
Proof.
  intros id Hid Hsame Hty1 Hfresh Hwin Hbetween st1 stm st2.
  (* the first delivery *)
  assert (First : wasSocketRequestSeen (msg_requestId m1) DEDUP_WINDOW_MS t1 st
                  = (false,
                     setSeen (fun _ =>
                        <[id := t1]>
                          (filter (fun kv : string * Z =>
                                     ~ (t1 - kv.2 > DEDUP_WINDOW_MS)%Z)
                             (seenSocketIds st))) st)).
  { unfold wasSocketRequestSeen. fold id.
    rewrite (proj2 (truthy_true _) Hid). cbn [negb].
    destruct (filter _ (seenSocketIds st) !! id) as [ts|] eqn:E; [|reflexivity].
    apply map_lookup_filter_Some in E as [E1 E2]. cbn in E2.
    specialize (Hfresh ts E1). lia. }
  assert (S1 : st1 = dispatch f1 (trim (str (msg_type m1))) m1
                 (wasSocketRequestSeen (msg_requestId m1) DEDUP_WINDOW_MS t1 st).2).
  { subst st1. unfold handleSocketMessage.
    rewrite (proj2 (truthy_true _) Hty1), First. reflexivity. }
  assert (Seen1 : seenSocketIds st1 !! id = Some t1).
  { rewrite S1, dispatch_seen, First. cbn. apply lookup_insert_eq. }
  assert (Seenm : seenSocketIds stm !! id = Some t1).
  { subst stm. now apply (handleAll_keeps id t1 t2). }
  (* the second delivery *)
  assert (Second : (wasSocketRequestSeen (msg_requestId m2) DEDUP_WINDOW_MS
                      t2 stm).1 = true).
  { unfold wasSocketRequestSeen. rewrite Hsame.
    rewrite (proj2 (truthy_true _) Hid). cbn [negb].
    erewrite map_lookup_filter_Some_2; [reflexivity|exact Seenm|]. cbn. lia. }
  assert (S2 : st2 = stm
               \/ st2 = (wasSocketRequestSeen (msg_requestId m2)
                           DEDUP_WINDOW_MS t2 stm).2).
  { subst st2. unfold handleSocketMessage.
    destruct (negb (truthy (trim (str (msg_type m2))))); [now left|right].
    destruct (wasSocketRequestSeen (msg_requestId m2) DEDUP_WINDOW_MS t2 stm)
      as [seen x].
    cbn in Second. now rewrite Second. }
  rewrite First at 1. cbn [fst].
  split; [reflexivity|]. split; [exact S1|]. split; [exact Second|].
  split; [exact S2|].
  destruct S2 as [->| ->]; [now repeat split|].
  pose proof (wasSocketRequestSeen_frame (msg_requestId m2) DEDUP_WINDOW_MS
                t2 stm) as F.
  cbn zeta in F. tauto.
Qed.

(** The theorem at a broadcast that arrives on the unified channel and,
    100 ms later, on the legacy channel. *)
Lemma duplicate_requestId_processed_once_witness :
  let st := mkClient false "player1" ∅ ∅ ∅ ∅ [] [] in
  let m1 := changedUnified "r1" "elev1" "stopB" in
  let m2 := withType "currentLevelChanged" (changedLegacy "r1" "elev1" "stopB") in
  let st1 := handleSocketMessage 1000 "f" m1 st in
  optimistic st1 = {["elev1" := "stopB"]}
  /\ optimistic (handleSocketMessage 1100 "g" m2 st1) = optimistic st1
  /\ emitted (handleSocketMessage 1100 "g" m2 st1) = emitted st1.
Proof.
  intros st m1 m2 st1.
  split; [reflexivity|].
  pose proof (duplicate_requestId_processed_once 1000 1100 "f" "g" m1 m2 [] st)
    as H.
  cbn zeta in H.
  destruct H as (_ & _ & _ & _ & Ho & _ & _ & He & _).
  - vm_compute. discriminate.
  - reflexivity.
  - vm_compute. discriminate.
  - intros ts Hts. discriminate Hts.
  - vm_compute. discriminate.
  - constructor.
  - split; [exact Ho|exact He].
Defined.

End NetFacts.

(** ** Approval routing *)
Section ApprovalFacts.
Import JS Approval.

Lemma getUser_self users u :
  NoDup (map u_id users) -> In u users -> getUser users (u_id u) = Some u.
Proof.
  unfold getUser. induction users as [|v users IH]; intros Hnd Hin; [easy|].
  cbn in Hnd. apply NoDup_cons in Hnd as [Hv Hnd]. cbn.
  destruct (String.eqb_spec (u_id v) (u_id u)) as [E|E].
  - destruct Hin as [->|Hin]; [reflexivity|].
    exfalso. apply Hv. rewrite E. apply list_elem_of_In, in_map, Hin.
  - destruct Hin as [->|Hin]; [congruence|]. now apply IH.
Qed.

(** Filtering the ids of users by a test on ids is filtering the users. *)
Lemma filter_ids (R : string -> bool) (P Q : User -> bool) (l : list User) :
  (forall u, In u l -> R (u_id u) = Q u) ->
  List.filter R (map u_id (List.filter P l))
  = map u_id (List.filter (fun u => P u && Q u) l).
Proof.
  induction l as [|u l IH]; intros H; [reflexivity|].
  cbn. destruct (P u) eqn:EP; cbn.
  - rewrite (H u (or_introl eq_refl)).
    destruct (Q u); cbn; rewrite IH; auto using in_cons.
  - apply IH. auto using in_cons.
Qed.

Lemma getGMUserIds_online users : getGMUserIds users true = onlineGmIds users.
Proof. reflexivity. Qed.

Lemma getGMUserIds_all users : getGMUserIds users false = allGmIds users.
Proof.
  unfold getGMUserIds, allGmIds. f_equal. apply filter_ext.
  intros u. cbn. now rewrite andb_true_r.
Qed.

Lemma onlineNonGmOwners_computed users token :
  NoDup (map u_id users) ->
  List.filter (fun uid => negb (userIsGM users uid))
    (List.filter (userActive users)
       (getActorOwnerUserIds users (t_actor token)))
  = onlineNonGmOwnerIds users token.
Proof.
  intros Hnd. unfold getActorOwnerUserIds, onlineNonGmOwnerIds.
  destruct (t_actor token) as [a|]; [|reflexivity].
  rewrite (filter_ids (userActive users) _ u_active users).
  2:{ intros u Hu. unfold userActive. now rewrite getUser_self. }
  rewrite (filter_ids (fun uid => negb (userIsGM users uid)) _
             (fun u => negb (u_isGM u)) users).
  2:{ intros u Hu. unfold userIsGM. now rewrite getUser_self. }
  reflexivity.
Qed.

(** C3. Routing of an approval for a token: the online owners of its actor
    that are not GMs, routed as "owner", when there is one; otherwise the
    online GMs, routed as "gm"; otherwise every GM, online or not. *)
Theorem approval_routing (users : list User) (token : TokenDocument) :
  NoDup (map u_id users) ->
  let owners := onlineNonGmOwnerIds users token in
  let r := computeApprovalRecipientsForToken users token in
  (owners <> [] -> r = (owners, "owner"))
  /\ (owners = [] -> onlineGmIds users <> [] -> r = (onlineGmIds users, "gm"))
  /\ (owners = [] -> onlineGmIds users = [] -> r = (allGmIds users, "gm")).
Proof.
  intros Hnd owners r. subst r. unfold computeApprovalRecipientsForToken.
  rewrite (onlineNonGmOwners_computed users token Hnd).
  fold owners. rewrite getGMUserIds_online, getGMUserIds_all.
  repeat split.
  - intros Ho. destruct owners; [congruence|reflexivity].
  - intros -> Hg. cbn. destruct (onlineGmIds users); [congruence|reflexivity].
  - intros -> ->. reflexivity.
Qed.

(** The first scenario: one online owner who is not a GM and one offline
    GM; the request goes to the owner and not to the GM. *)
Lemma approval_routing_witness :
  let owner := mkUser "u1" false true "Ann" in
  let gm := mkUser "g1" true false "Gil" in
  let actor := mkActor {["u1" := 3%Z]} None None in
  computeApprovalRecipientsForToken [owner; gm]
    (mkToken "Scene.s.Token.t" "Knight" (Some actor))
  = (["u1"], "owner").
Proof.
  intros owner gm actor.
  refine (proj1 (approval_routing [owner; gm]
                   (mkToken "Scene.s.Token.t" "Knight" (Some actor)) _) _).
  - apply (bool_decide_unpack _). reflexivity.
  - vm_compute. discriminate.
Defined.

(** The second scenario: the owner is offline and one GM is online; the
    request goes to that GM. *)
Example routing_falls_back_to_online_gm :
  let owner := mkUser "u1" false false "Ann" in
  let gm := mkUser "g1" true true "Gil" in
  let actor := mkActor {["u1" := 3%Z]} None None in
  computeApprovalRecipientsForToken [owner; gm]
    (mkToken "Scene.s.Token.t" "Knight" (Some actor))
  = (["g1"], "gm").
Proof. reflexivity. Qed.




(** The same click through the whole handler. *)
Example approve_without_owned_tokens :
  let users := [mkUser "u1" false true "Ann"; mkUser "u2" false true "Bob"] in
  let actor := mkActor {["u1" := 3%Z]} None None in
  let h :=
    mkHost users {["Scene.s.Region.r"]}
      {["Scene.s.Token.t" := mkToken "Scene.s.Token.t" "Knight" (Some actor)]}
      ∅ (fun _ _ => false) (fun _ => false) in
  let p :=
    mkPayload "q1" "u3" "elev1" "Scene.s.Region.r" ["Scene.s.Token.t"] "" "" in
  let t :=
    mkTable (Net.mkClient false "u2" ∅ ∅ ∅ ∅ [] []) {["m1"]} [] [] [] in
  approveClick h "f" "m1" p t
  = mkTable (client t) {["m1"]} [] [] [WARN_noTokensApprovable].
Proof. vm_compute. reflexivity. Qed.

End ApprovalFacts.

(** ** The network sync *)
Section SyncFacts.
Import JS Naming Sync.

(** *** Normalised and resolved stop lists *)

Lemma normalizeFrom_uuid seen l u :
  u ∈ map uuid (normalizeFrom seen l) ->
  (u ∉ seen) /\ u <> "" /\ exists s, s ∈ l /\ trim (uuid s) = u.
Proof.
  revert seen. induction l as [|x l IH]; intros seen; cbn.
  - intros H. inversion H.
  - destruct (truthy (trim (uuid x))) eqn:T; cbn [negb orb].
    + destruct (bool_decide (trim (uuid x) ∈ seen)) eqn:B.
      * intros H. destruct (IH _ H) as (H1 & H2 & s & Hs & Es).
        repeat split; auto. exists s. split; [now right|exact Es].
      * cbn. intros [->|H]%elem_of_cons.
        -- apply bool_decide_eq_false in B. apply truthy_true in T.
           repeat split; auto. exists x. split; [now left|reflexivity].
        -- destruct (IH _ H) as (H1 & H2 & s & Hs & Es).
           repeat split; auto.
           ++ intros Hin. apply H1. apply elem_of_union. now right.
           ++ exists s. split; [now right|exact Es].
    + intros H. destruct (IH _ H) as (H1 & H2 & s & Hs & Es).
      repeat split; auto. exists s. split; [now right|exact Es].
Qed.

Lemma normalizeFrom_NoDup seen l : NoDup (map uuid (normalizeFrom seen l)).
Proof.
  revert seen. induction l as [|x l IH]; intros seen; cbn; [constructor|].
  destruct (negb (truthy (trim (uuid x))) || bool_decide (trim (uuid x) ∈ seen));
    [apply IH|].
  cbn. constructor; [|apply IH].
  intros H. apply normalizeFrom_uuid in H as [H _].
  apply H, elem_of_union. left. now apply elem_of_singleton.
Qed.

Lemma normalizeFrom_complete seen l s :
  s ∈ l -> trim (uuid s) <> "" -> trim (uuid s) ∉ seen ->
  trim (uuid s) ∈ map uuid (normalizeFrom seen l).
Proof.
  intros Hin Hne. revert seen.
  induction l as [|x l IH]; intros seen Hseen; [inversion Hin|].
  cbn. apply elem_of_cons in Hin as [->|Hin].
  - rewrite (proj2 (truthy_true _) Hne), (bool_decide_eq_false_2 _ Hseen).
    cbn. now left.
  - destruct (negb (truthy (trim (uuid x))) || bool_decide (trim (uuid x) ∈ seen));
      [now apply IH|].
    cbn. destruct (decide (trim (uuid s) = trim (uuid x))) as [E|E].
    + rewrite E. now left.
    + right. apply IH; [exact Hin|].
      intros [H|H]%elem_of_union; [|contradiction].
      apply elem_of_singleton in H. contradiction.
Qed.

Lemma resolveStop_Some w s s' :
  resolveStop w s = Some s' ->
  uuid s' = uuid s
  /\ exists d, docs w !! uuid s = Some (IsRegion d)
               /\ label s' = orElse (label s) (r_name d).
Proof.
  unfold resolveStop. destruct (docs w !! uuid s) as [[d|]|]; try easy.
  intros [= <-]. cbn. eauto.
Qed.

Lemma resolveStops_elem w l s' :
  s' ∈ resolveStops w l ->
  exists s, s ∈ l /\ resolveStop w s = Some s'.
Proof. unfold resolveStops. intros H. now apply list_elem_of_omap in H. Qed.

Lemma resolveStops_uuid w l u :
  u ∈ map uuid (resolveStops w l) ->
  u ∈ map uuid l /\ exists d, docs w !! u = Some (IsRegion d).
Proof.
  intros (s' & -> & H)%list_elem_of_fmap.
  apply resolveStops_elem in H as (s & Hs & R).
  apply resolveStop_Some in R as (E & d & Hd & _). rewrite E.
  split; [|eauto]. apply list_elem_of_fmap. eauto.
Qed.

Lemma resolveStops_NoDup w l :
  NoDup (map uuid l) -> NoDup (map uuid (resolveStops w l)).
Proof.
  induction l as [|x l IH]; cbn; [constructor|].
  intros [Hx Hl]%NoDup_cons. fold (resolveStops w l).
  destruct (resolveStop w x) as [x'|] eqn:R; [|now apply IH].
  cbn. constructor; [|now apply IH].
  apply resolveStop_Some in R as [-> _].
  intros H. apply resolveStops_uuid in H as [H _]. contradiction.
Qed.

Lemma resolveStops_length w l : (length (resolveStops w l) <= length l)%nat.
Proof.
  induction l as [|x l IH]; cbn; [lia|]. fold (resolveStops w l).
  destruct (resolveStop w x); cbn; lia.
Qed.

(** A stop that does not resolve makes the resolved list shorter. *)
Lemma resolveStops_shorter w l s :
  s ∈ l -> resolveStop w s = None ->
  (length (resolveStops w l) < length l)%nat.
Proof.
  induction l as [|x l IH]; [intros H; inversion H|].
  cbn. fold (resolveStops w l). pose proof (resolveStops_length w l).
  intros [->|Hin]%elem_of_cons Hs.
  - rewrite Hs. lia.
  - specialize (IH Hin Hs). destruct (resolveStop w x); cbn; lia.
Qed.

Lemma cleaned_NoDup w stops :
  NoDup (map uuid (resolveStops w (normalizeStops stops))).
Proof. apply resolveStops_NoDup, normalizeFrom_NoDup. Qed.

Lemma findIndex_lookup l i stop :
  NoDup (map uuid l) -> l !! i = Some stop ->
  findIndex (uuid stop) l = Some i.
Proof.
  revert i. induction l as [|x l IH]; intros i Hnd Hi; [easy|].
  cbn in Hnd. apply NoDup_cons in Hnd as [Hx Hl]. cbn.
  destruct i as [|i]; cbn in Hi.
  - injection Hi as ->. now rewrite String.eqb_refl.
  - destruct (String.eqb_spec (uuid x) (uuid stop)) as [E|E].
    + exfalso. apply Hx. rewrite E. apply list_elem_of_fmap.
      exists stop. split; [reflexivity|]. eapply list_elem_of_lookup_2, Hi.
    + now rewrite (IH i Hl Hi).
Qed.

(** *** The second loop *)

Section Loop.
Variables (elevatorId : string) (master : Master) (cleaned : list Stop)
  (home homeLabel : string) (allowed : gset string).

Local Abbreviation step :=
  (syncStop elevatorId master cleaned home homeLabel allowed).
Local Abbreviation synced :=
  (syncedRegion elevatorId master cleaned home homeLabel allowed).

Lemma syncStop_other w stop u :
  u <> uuid stop -> docs (step w stop) !! u = docs w !! u.
Proof.
  intros Hu. unfold syncStop.
  destruct (docs w !! uuid stop) as [[d|]|]; try reflexivity.
  cbn. now rewrite lookup_insert_ne.
Qed.

Lemma syncStop_self w stop d :
  docs w !! uuid stop = Some (IsRegion d) ->
  docs (step w stop) !! uuid stop = Some (IsRegion (synced stop d)).
Proof.
  intros Hd. unfold syncStop. rewrite Hd. cbn. apply lookup_insert_eq.
Qed.

Lemma syncStop_links w stop :
  links (step w stop) = links w /\ userIsGM (step w stop) = userIsGM w.
Proof.
  unfold syncStop. now destruct (docs w !! uuid stop) as [[d|]|].
Qed.

Lemma loop_result l : forall w,
  NoDup (map uuid l) ->
  let w' := foldl step w l in
  links w' = links w
  /\ userIsGM w' = userIsGM w
  /\ (forall u, u ∉ map uuid l -> docs w' !! u = docs w !! u)
  /\ (forall stop d, stop ∈ l -> docs w !! uuid stop = Some (IsRegion d) ->
        docs w' !! uuid stop = Some (IsRegion (synced stop d))).
Proof.
  induction l as [|x l IH]; intros w Hnd; cbn.
  - repeat split; try reflexivity. intros stop d H. inversion H.
  - cbn in Hnd. apply NoDup_cons in Hnd as [Hx Hl].
    destruct (IH (step w x) Hl) as (L & G & O & S). cbn zeta in *.
    destruct (syncStop_links w x) as [L0 G0].
    split; [congruence|]. split; [congruence|]. split.
    + intros u Hu. rewrite O.
      * apply syncStop_other. intros ->. apply Hu. now left.
      * intros H. apply Hu. now right.
    + intros stop d [->|Hin]%elem_of_cons Hd.
      * rewrite O by exact Hx. now apply syncStop_self.
      * apply S; [exact Hin|]. rewrite syncStop_other; [exact Hd|].
        intros E. apply Hx. rewrite <- E. apply list_elem_of_fmap. eauto.
Qed.

Local Abbreviation round :=
  (roundWrites elevatorId master cleaned home homeLabel allowed).

Lemma syncStop_writes w stop :
  writes (step w stop) = (writes w ++ round (docs w) stop)%list.
Proof.
  unfold syncStop, roundWrites.
  destruct (docs w !! uuid stop) as [[d|]|]; cbn; now rewrite ?app_nil_r.
Qed.

Lemma loop_writes l : forall w,
  NoDup (map uuid l) ->
  writes (foldl step w l) = (writes w ++ flat_map (round (docs w)) l)%list.
Proof.
  induction l as [|x l IH]; intros w Hnd; cbn [foldl flat_map].
  - now rewrite app_nil_r.
  - cbn in Hnd. apply NoDup_cons in Hnd as [Hx Hl].
    rewrite (IH _ Hl), syncStop_writes, <- app_assoc. do 2 f_equal.
    clear IH Hl. induction l as [|y l IHl]; [reflexivity|].
    cbn [flat_map]. rewrite IHl.
    + f_equal. unfold roundWrites. rewrite syncStop_other; [reflexivity|].
      intros E. apply Hx. rewrite <- E. cbn. now left.
    + intros H. apply Hx. cbn. now right.
Qed.

End Loop.

Lemma syncedRegion_name elevatorId master cleaned home homeLabel allowed stop d :
  r_name (syncedRegion elevatorId master cleaned home homeLabel allowed stop d)
  = desiredNameOf elevatorId cleaned stop d.
Proof.
  unfold syncedRegion. cbn.
  destruct (String.eqb_spec (r_name d) (desiredNameOf elevatorId cleaned stop d));
    cbn; congruence.
Qed.

(** What a sync that reaches its second loop leaves behind. *)
Lemma sync_result elevatorId homeUuid w master :
  userIsGM w = true -> elevatorId <> "" ->
  links w !! elevatorId = Some master ->
  let stops := normalizeStops (m_stops master) in
  let cleaned := resolveStops w stops in
  cleaned <> [] ->
  let w' := syncElevatorNetwork elevatorId homeUuid w in
  let home := homeOf homeUuid master cleaned in
  let allowed : gset string := list_to_set (map uuid cleaned) in
  links w' = linksAfter elevatorId master stops cleaned (links w)
  /\ (forall u, u ∉ map uuid cleaned -> docs w' !! u = docs w !! u)
  /\ (forall stop, stop ∈ cleaned ->
        exists d, docs w !! uuid stop = Some (IsRegion d)
          /\ docs w' !! uuid stop
             = Some (IsRegion
                       (syncedRegion elevatorId master cleaned home
                          (homeLabelOf home cleaned) allowed stop d))).
Proof.
  intros Hgm Hid Hm stops cleaned Hne w' home allowed.
  assert (Hlen : length cleaned <> 0%nat) by (destruct cleaned; cbn; congruence).
  assert (Hlen' : length stops <> 0%nat).
  { pose proof (resolveStops_length w stops). fold cleaned in H. lia. }
  subst w'. unfold syncElevatorNetwork.
  rewrite Hgm, (proj2 (truthy_true _) Hid), Hm. cbn [negb].
  fold stops. rewrite (bool_decide_eq_false_2 _ Hlen'). fold cleaned.
  rewrite (bool_decide_eq_false_2 _ Hlen).
  fold home allowed.
  match goal with
  | |- context [foldl ?f ?w1 cleaned] =>
      pose proof (loop_result elevatorId master cleaned home
                    (homeLabelOf home cleaned) allowed cleaned w1
                    (cleaned_NoDup w (m_stops master))) as R;
      assert (D1 : docs w1 = docs w) by (now destruct (bool_decide _));
      assert (L1 : links w1
                   = linksAfter elevatorId master stops cleaned (links w))
        by (unfold linksAfter; now destruct (bool_decide _))
  end.
  cbn zeta in R. destruct R as (L & _ & O & S).
  rewrite D1 in *. split; [congruence|]. split; [exact O|].
  intros stop Hin.
  destruct (resolveStops_elem _ _ _ Hin) as (s & _ & Rs).
  apply resolveStop_Some in Rs as (E & d & Hd & _). rewrite <- E in Hd.
  exists d. split; [exact Hd|]. now apply S.
Qed.

(** The writes of a sync that runs without pruning: one round for each
    stop. *)
Lemma sync_writes_unpruned elevatorId homeUuid w master :
  userIsGM w = true -> elevatorId <> "" ->
  links w !! elevatorId = Some master ->
  let stops := normalizeStops (m_stops master) in
  stops <> [] ->
  resolveStops w stops = stops ->
  let home := homeOf homeUuid master stops in
  writes (syncElevatorNetwork elevatorId homeUuid w)
  = (writes w
     ++ flat_map
          (roundWrites elevatorId master stops home (homeLabelOf home stops)
             (list_to_set (map uuid stops)) (docs w))
          stops)%list.
Proof.
  intros Hgm Hid Hm stops Hne Hres home.
  assert (Hlen : length stops <> 0%nat) by (destruct stops; cbn; congruence).
  unfold syncElevatorNetwork.
  rewrite Hgm, (proj2 (truthy_true _) Hid), Hm. cbn [negb].
  fold stops. rewrite Hres, (bool_decide_eq_false_2 _ Hlen).
  rewrite bool_decide_eq_false_2 by tauto.
  apply loop_writes, normalizeFrom_NoDup.
Qed.

(** *** Floor numbers *)

(** C4, amended.  In a sync that reaches its second loop, the stop at index
    [i] of the cleaned list of [n] stops gets floor number [n - i], and its
    Region is left with the name [formatElevatorRegionName] builds from that
    floor: "ELV", the trimmed elevator id, the floor in decimal padded with
    a zero to two digits, and the label.  The floor takes exactly two digits
    up to floor 99 and three or more from floor 100 on. *)
Theorem floor_numbering
    (elevatorId homeUuid : string) (w : World) (master : Master)
    (i : nat) (stop : Stop) :
  userIsGM w = true -> elevatorId <> "" ->
  links w !! elevatorId = Some master ->
  let cleaned := resolveStops w (normalizeStops (m_stops master)) in
  cleaned !! i = Some stop ->
  let floor := (Z.of_nat (length cleaned) - Z.of_nat i)%Z in
  floorNumberOf cleaned stop = floor
  /\ (exists d d',
        docs w !! uuid stop = Some (IsRegion d)
        /\ docs (syncElevatorNetwork elevatorId homeUuid w) !! uuid stop
           = Some (IsRegion d')
        /\ r_name d'
           = formatElevatorRegionName elevatorId floor
               (orElse (label stop) (r_name d)))
  /\ (forall lbl,
        formatElevatorRegionName elevatorId floor lbl
        = trim ("ELV " ++ trim elevatorId ++ " " ++ floorField floor ++ " "
                ++ stripElevatorNamePrefix (trim lbl)))
  /\ floorField floor = padStart 2 "0" (numberToString floor)
  /\ ((floor <= 99)%Z ->
        exists a b, isDigit a = true /\ isDigit b = true
                    /\ floorField floor = String a (String b ""))
  /\ ((100 <= floor)%Z -> (3 <= String.length (floorField floor))%nat).
Proof.
  intros Hgm Hid Hm cleaned Hi floor.
  assert (Hnd : NoDup (map uuid cleaned)) by apply cleaned_NoDup.
  assert (Hidx : findIndex (uuid stop) cleaned = Some i)
    by now apply findIndex_lookup.
  assert (Hlt : (i < length cleaned)%nat) by (eapply lookup_lt_Some, Hi).
  assert (Hfl : (1 <= floor)%Z) by (subst floor; lia).
  assert (Hin : stop ∈ cleaned) by (eapply list_elem_of_lookup_2, Hi).
  assert (Hne : cleaned <> []) by (intros E; rewrite E in Hin; inversion Hin).
  split; [unfold floorNumberOf; now rewrite Hidx|]. split.
  - destruct (sync_result elevatorId homeUuid w master Hgm Hid Hm Hne)
      as (_ & _ & S).
    destruct (S stop Hin) as (d & Hd & Hd').
    eexists d, _. split; [exact Hd|]. split; [exact Hd'|].
    rewrite syncedRegion_name. unfold desiredNameOf, stopLabelOf, floorNumberOf.
    fold cleaned. rewrite Hidx, Hi. cbn [default]. fold floor.
    f_equal. unfold orElse. now destruct (truthy (label stop)).
  - split; [reflexivity|]. split; [now apply floorField_positive|].
    split; [intros; apply floorField_two_digits; lia|].
    apply floorField_three_digits.
Qed.

(** The registry with stops [A, B, C]: [A] gets floor 3. *)
Lemma floor_numbering_witness :
  floorNumberOf
    (resolveStops Samples.threeStops
       (normalizeStops
          [mkStop "A" "Roof"; mkStop "B" "Hall"; mkStop "C" "Cellar"]))
    (mkStop "A" "Roof")
  = 3%Z.
Proof.
  exact (proj1 (floor_numbering "E" "" Samples.threeStops
                  (mkMaster "A" "default" "icons/lift.svg" 48 false
                     [mkStop "A" "Roof"; mkStop "B" "Hall"; mkStop "C" "Cellar"])
                  0 (mkStop "A" "Roof") eq_refl
                  ltac:(discriminate) ltac:(vm_compute; reflexivity)
                  ltac:(vm_compute; reflexivity))).
Defined.

(** The three floors and the three names of that registry. *)
Example floors_of_three_stops :
  let w' := syncElevatorNetwork "E" "" Samples.threeStops in
  Samples.nameAt w' "A" = Some "ELV E 03 Roof"
  /\ Samples.nameAt w' "B" = Some "ELV E 02 Hall"
  /\ Samples.nameAt w' "C" = Some "ELV E 01 Cellar".
Proof. vm_compute. repeat split; reflexivity. Qed.

(** With a hundred stops the top floor is 100 and the name of its Region
    carries three digits, not two. *)
Lemma floor_100_has_three_digits :
  let w := Samples.tower 100 in
  let cleaned := resolveStops w (normalizeStops (Samples.towerStops 100)) in
  length cleaned = 100%nat
  /\ cleaned !! 0%nat = Some (mkStop "S0" "Deck")
  /\ floorNumberOf cleaned (mkStop "S0" "Deck") = 100%Z
  /\ Samples.nameAt (syncElevatorNetwork "T" "" w) "S0" = Some "ELV T 100 Deck"
  /\ ~ (exists a b, floorField 100 = String a (String b "")).
Proof.
  vm_compute. repeat split; try reflexivity.
  intros (a & b & H). discriminate H.
Qed.

(** *** Levels and pruning *)

(** C7.  After a sync that reaches its second loop (the caller is the GM,
    the registry has the entry and a stop resolves), the ["levels"] flag of
    every resolved stop is the cleaned stop list without that stop; and a
    stored stop whose uuid does not resolve to a Region is neither in the
    stop list the registry holds afterwards nor in the ["levels"] of any
    resolved stop. *)
Theorem levels_and_pruning
    (elevatorId homeUuid : string) (w : World) (master : Master) :
  userIsGM w = true -> elevatorId <> "" ->
  links w !! elevatorId = Some master ->
  let cleaned := resolveStops w (normalizeStops (m_stops master)) in
  cleaned <> [] ->
  let w' := syncElevatorNetwork elevatorId homeUuid w in
  (forall stop, stop ∈ cleaned ->
     exists d', docs w' !! uuid stop = Some (IsRegion d')
       /\ f_levels (getElevatorFlags d')
          = filter (fun s => uuid s ≠ uuid stop) cleaned)
  /\ (forall s, s ∈ m_stops master ->
        let u := trim (uuid s) in
        u <> "" ->
        (forall d, docs w !! u <> Some (IsRegion d)) ->
        (exists master',
           links w' !! elevatorId = Some master'
           /\ m_stops master' = cleaned
           /\ u ∉ map uuid (m_stops master'))
        /\ (forall stop d', stop ∈ cleaned ->
              docs w' !! uuid stop = Some (IsRegion d') ->
              u ∉ map uuid (f_levels (getElevatorFlags d')))).
Proof.
  intros Hgm Hid Hm cleaned Hne w'.
  destruct (sync_result elevatorId homeUuid w master Hgm Hid Hm Hne)
    as (L & _ & S).
  fold cleaned w' in L, S.
  assert (Lv : forall stop d', stop ∈ cleaned ->
            docs w' !! uuid stop = Some (IsRegion d') ->
            f_levels (getElevatorFlags d')
            = filter (fun s => uuid s ≠ uuid stop) cleaned).
  { intros stop d' Hin Hd'. destruct (S stop Hin) as (d & _ & Hd).
    rewrite Hd in Hd'. injection Hd' as <-. reflexivity. }
  split.
  - intros stop Hin. destruct (S stop Hin) as (d & _ & Hd).
    eexists. split; [exact Hd|]. now apply (Lv stop).
  - intros s Hs u Hu Hgone.
    assert (Hclean : u ∉ map uuid cleaned).
    { intros H. apply resolveStops_uuid in H as (_ & d & Hd).
      exact (Hgone d Hd). }
    assert (Hnorm : u ∈ map uuid (normalizeStops (m_stops master))).
    { apply normalizeFrom_complete; [exact Hs|exact Hu|].
      apply not_elem_of_empty. }
    apply list_elem_of_fmap in Hnorm as (s0 & Es0 & Hs0).
    assert (Hres : resolveStop w s0 = None).
    { unfold resolveStop. rewrite <- Es0.
      destruct (docs w !! u) as [[d|]|] eqn:E; try reflexivity.
      now elim (Hgone d). }
    pose proof (resolveStops_shorter w _ s0 Hs0 Hres) as Hshort.
    fold cleaned in Hshort.
    split.
    + eexists. split; [|split].
      * rewrite L. unfold linksAfter.
        rewrite bool_decide_eq_true_2 by lia.
        unfold prunedLinks. apply lookup_insert_eq.
      * reflexivity.
      * exact Hclean.
    + intros stop d' Hin Hd' Hu'. rewrite (Lv stop d' Hin Hd') in Hu'.
      apply Hclean.
      apply list_elem_of_fmap in Hu' as (x & Ex & Hx).
      apply list_elem_of_filter in Hx as [_ Hx].
      apply list_elem_of_fmap. eauto.
Qed.

(** A registry of two stops of which [B] is gone: after the sync the
    registry holds [A] alone and [A] has no levels. *)
Lemma levels_and_pruning_witness :
  let master :=
    mkMaster "A" "default" "icons/lift.svg" 48 false
      [mkStop "A" "Roof"; mkStop "B" "Hall"] in
  let w :=
    mkWorld true {[ "E" := master ]} {[ "A" := Samples.plainRegion "Roof" ]} [] in
  let w' := syncElevatorNetwork "E" "" w in
  exists master',
    links w' !! "E" = Some master'
    /\ m_stops master' = [mkStop "A" "Roof"]
    /\ "B" ∉ map uuid (m_stops master').
Proof.
  intros master w w'.
  refine (proj1 (proj2 (levels_and_pruning "E" "" w master eq_refl _ _ _)
                   (mkStop "B" "Hall") _ _ _)).
  - discriminate.
  - vm_compute. reflexivity.
  - vm_compute. discriminate.
  - apply list_elem_of_further, list_elem_of_here.
  - vm_compute. discriminate.
  - intros d. vm_compute. discriminate.
Defined.

(** *** Running the sync again *)

(** The update of a Region carries a name exactly when the current name is
    not the desired one. *)
Lemma update_names_only_when_different
    elevatorId master cleaned home homeLabel allowed stop d :
  exists flags rest,
    stopWrites elevatorId master cleaned home homeLabel allowed stop d
    = UpdateRegion (uuid stop) flags
        (if String.eqb (r_name d) (desiredNameOf elevatorId cleaned stop d)
         then None else Some (desiredNameOf elevatorId cleaned stop d))
      :: rest.
Proof.
  unfold stopWrites. eexists _, _.
  destruct (String.eqb (r_name d) (desiredNameOf elevatorId cleaned stop d));
    reflexivity.
Qed.

Lemma restrictBehavior_settled allowed fallbackUUID b :
  let fallback := fallbackOf allowed fallbackUUID in
  fallback <> None ->
  needsRedirect allowed (restrictBehavior allowed fallback b) = false.
Proof.
  cbn zeta. unfold fallbackOf.
  destruct (truthy fallbackUUID) eqn:T; cbn [andb]; [|congruence].
  destruct (bool_decide (fallbackUUID ∈ allowed)) eqn:A; [|congruence].
  intros _. cbn. destruct (needsRedirect allowed b) eqn:N; [|exact N].
  unfold needsRedirect. cbn. rewrite T, A. now rewrite !andb_false_r.
Qed.

Lemma restrictBehavior_idem allowed fallbackUUID b :
  let fallback := fallbackOf allowed fallbackUUID in
  restrictBehavior allowed fallback (restrictBehavior allowed fallback b)
  = restrictBehavior allowed fallback b.
Proof.
  cbn zeta.
  pose proof (restrictBehavior_settled allowed fallbackUUID b) as H.
  cbn zeta in H. destruct (fallbackOf allowed fallbackUUID) as [f|] eqn:F;
    [|reflexivity].
  unfold restrictBehavior at 1. now rewrite H.
Qed.

Lemma restricted_behaviors_settled allowed fallbackUUID bs :
  fallbackOf allowed fallbackUUID <> None ->
  List.filter (needsRedirect allowed)
    (restrictTeleportBehaviorsToNetwork allowed fallbackUUID bs)
  = [].
Proof.
  intros F. unfold restrictTeleportBehaviorsToNetwork.
  induction bs as [|b bs IH]; [reflexivity|].
  cbn [map List.filter].
  now rewrite (restrictBehavior_settled allowed fallbackUUID b F).
Qed.

(** A Region the sync has just updated, updated again with a desired name
    that does not depend on the document: nothing changes, and the update
    sent carries the flags already stored and no name. *)
Lemma synced_again elevatorId master cleaned home homeLabel allowed stop d0 :
  (forall d, desiredNameOf elevatorId cleaned stop d
             = desiredNameOf elevatorId cleaned stop d0) ->
  let d1 :=
    syncedRegion elevatorId master cleaned home homeLabel allowed stop d0 in
  syncedRegion elevatorId master cleaned home homeLabel allowed stop d1 = d1
  /\ stopWrites elevatorId master cleaned home homeLabel allowed stop d1
     = [UpdateRegion (uuid stop) (getElevatorFlags d1) None].
Proof.
  intros Hname d1.
  assert (N1 : r_name d1 = desiredNameOf elevatorId cleaned stop d0)
    by apply syncedRegion_name.
  assert (B1 : r_behaviors d1
               = restrictTeleportBehaviorsToNetwork allowed home (r_behaviors d0))
    by reflexivity.
  assert (F1 : nextFlagsOf elevatorId master cleaned home homeLabel stop
                 (getElevatorFlags d1) = getElevatorFlags d1) by reflexivity.
  assert (R1 : r_flags d1 = Some (getElevatorFlags d1)) by reflexivity.
  assert (E1 : String.eqb (r_name d1)
                 (desiredNameOf elevatorId cleaned stop d1) = true).
  { rewrite (Hname d1), N1. apply String.eqb_refl. }
  assert (Bidem : restrictTeleportBehaviorsToNetwork allowed home (r_behaviors d1)
                  = r_behaviors d1).
  { rewrite B1. unfold restrictTeleportBehaviorsToNetwork. rewrite map_map.
    apply map_ext. intros b. apply restrictBehavior_idem. }
  assert (Bnone : behaviorWrites (uuid stop) allowed (fallbackOf allowed home)
                    (r_behaviors d1) = []).
  { rewrite B1. unfold behaviorWrites.
    destruct (fallbackOf allowed home) as [f|] eqn:F; [|reflexivity].
    rewrite restricted_behaviors_settled by (rewrite F; congruence).
    reflexivity. }
  clearbody d1. split.
  - unfold syncedRegion. rewrite E1, F1, Bidem, <- R1. cbn [negb].
    now destruct d1.
  - unfold stopWrites. rewrite E1, F1, Bnone. reflexivity.
Qed.

(** A stop list whose stops all resolve and carry a label is its own
    resolved list. *)
Lemma resolveStops_stored w l :
  (forall s, s ∈ l ->
     label s <> "" /\ exists d, docs w !! uuid s = Some (IsRegion d)) ->
  resolveStops w l = l.
Proof.
  induction l as [|x l IH]; intros H; [reflexivity|].
  cbn. fold (resolveStops w l).
  destruct (H x ltac:(left)) as (Hl & d & Hd).
  unfold resolveStop. rewrite Hd, (orElse_truthy _ _ Hl).
  rewrite IH by (intros s Hs; apply H; now right).
  now destruct x.
Qed.

Lemma rounds_of_one_write {A B} (f : A -> list B) (P : A -> B -> Prop) l :
  (forall x, x ∈ l -> exists y, f x = [y] /\ P x y) ->
  exists ys, flat_map f l = ys /\ Forall2 P l ys.
Proof.
  induction l as [|x l IH]; intros H.
  - exists []. split; [reflexivity|constructor].
  - destruct (H x ltac:(left)) as (y & Ey & Py).
    destruct IH as (ys & Eys & Pys); [intros z Hz; apply H; now right|].
    exists (y :: ys). cbn [flat_map]. rewrite Ey, Eys.
    split; [reflexivity|now constructor].
Qed.

(** C6, amended.  On a registry entry whose stops all resolve and carry a
    stored label, the sync leaves the registry as it is, and a second sync
    leaves the registry and every document as the first left them: it still
    sends one update for each stop, with the flags the stop already has and
    without a name.  In every sync the update of a stop carries a name
    exactly when the name of its Region differs from the desired one. *)
Theorem second_sync_changes_nothing
    (elevatorId homeUuid : string) (w : World) (master : Master) :
  userIsGM w = true -> elevatorId <> "" ->
  links w !! elevatorId = Some master ->
  let stops := normalizeStops (m_stops master) in
  stops <> [] ->
  (forall s, s ∈ stops ->
     label s <> "" /\ exists d, docs w !! uuid s = Some (IsRegion d)) ->
  let w1 := syncElevatorNetwork elevatorId homeUuid w in
  let w2 := syncElevatorNetwork elevatorId homeUuid w1 in
  links w1 = links w
  /\ links w2 = links w1
  /\ docs w2 = docs w1
  /\ (exists updates,
        writes w2 = (writes w1 ++ updates)%list
        /\ Forall2
             (fun stop update =>
                exists d1,
                  docs w1 !! uuid stop = Some (IsRegion d1)
                  /\ update
                     = UpdateRegion (uuid stop) (getElevatorFlags d1) None)
             stops updates)
  /\ (forall cleaned home homeLabel allowed stop d,
        exists flags rest,
          stopWrites elevatorId master cleaned home homeLabel allowed stop d
          = UpdateRegion (uuid stop) flags
              (if String.eqb (r_name d)
                    (desiredNameOf elevatorId cleaned stop d)
               then None
               else Some (desiredNameOf elevatorId cleaned stop d))
            :: rest).
Proof.
  intros Hgm Hid Hm stops Hne Hstored w1 w2.
  set (home := homeOf homeUuid master stops).
  set (homeLabel := homeLabelOf home stops).
  set (allowed := list_to_set (map uuid stops) : gset string).
  assert (Hnd : NoDup (map uuid stops)) by apply normalizeFrom_NoDup.
  (* the first sync *)
  assert (C0 : resolveStops w stops = stops) by now apply resolveStops_stored.
  assert (Hne0 : resolveStops w (normalizeStops (m_stops master)) <> [])
    by (fold stops; now rewrite C0).
  destruct (sync_result elevatorId homeUuid w master Hgm Hid Hm Hne0)
    as (L1 & O1 & S1).
  fold stops w1 in L1, O1, S1. rewrite C0 in L1, O1, S1.
  fold home homeLabel allowed in S1.
  assert (L1' : links w1 = links w).
  { rewrite L1. unfold linksAfter. now rewrite bool_decide_eq_false_2 by tauto. }
  assert (G1 : userIsGM w1 = true).
  { subst w1. unfold syncElevatorNetwork.
    rewrite Hgm, (proj2 (truthy_true _) Hid), Hm. cbn [negb]. fold stops.
    rewrite C0.
    destruct (bool_decide (length stops = 0%nat)); [exact Hgm|].
    rewrite bool_decide_eq_false_2 by tauto.
    destruct (loop_result elevatorId master stops home homeLabel allowed
                stops w Hnd) as (_ & G & _).
    exact (eq_trans G Hgm). }
  assert (Hm1 : links w1 !! elevatorId = Some master) by now rewrite L1'.
  (* the desired name of a stop does not depend on its document *)
  assert (Hdesired : forall stop, stop ∈ stops -> forall d d',
            desiredNameOf elevatorId stops stop d
            = desiredNameOf elevatorId stops stop d').
  { intros stop Hstop d d'.
    destruct (Hstored stop Hstop) as [Hlabel _].
    destruct (list_elem_of_lookup_1 _ _ Hstop) as [i Hi].
    pose proof (findIndex_lookup stops i stop Hnd Hi) as Hidx.
    unfold desiredNameOf, stopLabelOf.
    now rewrite Hidx, Hi, !(orElse_truthy _ _ Hlabel). }
  (* the second sync *)
  assert (Hstored1 : forall s, s ∈ stops ->
            label s <> "" /\ exists d, docs w1 !! uuid s = Some (IsRegion d)).
  { intros s Hs. destruct (Hstored s Hs) as [Hl _]. split; [exact Hl|].
    destruct (S1 s Hs) as (d & _ & Hd). eauto. }
  assert (C1 : resolveStops w1 stops = stops) by now apply resolveStops_stored.
  assert (Hne1 : resolveStops w1 (normalizeStops (m_stops master)) <> [])
    by (fold stops; now rewrite C1).
  destruct (sync_result elevatorId homeUuid w1 master G1 Hid Hm1 Hne1)
    as (L2 & O2 & S2).
  fold stops w2 in L2, O2, S2. rewrite C1 in L2, O2, S2.
  fold home homeLabel allowed in S2.
  split; [exact L1'|]. split.
  { rewrite L2. unfold linksAfter. now rewrite bool_decide_eq_false_2 by tauto. }
  split; [|split].
  - apply map_eq. intros u.
    destruct (decide (u ∈ map uuid stops)) as [Hu|Hu]; [|now apply O2].
    apply list_elem_of_fmap in Hu as (stop & -> & Hstop).
    destruct (S1 stop Hstop) as (d0 & _ & Hd1).
    destruct (S2 stop Hstop) as (d1 & Hd1' & Hd2).
    rewrite Hd1 in Hd1'. injection Hd1' as <-.
    rewrite Hd2, Hd1. do 2 f_equal.
    apply synced_again. intros d. now apply Hdesired.
  - pose proof (sync_writes_unpruned elevatorId homeUuid w1 master G1 Hid Hm1)
      as W.
    cbn zeta in W. fold stops in W. specialize (W Hne C1).
    fold w2 home homeLabel allowed in W. rewrite W.
    destruct (rounds_of_one_write
                (roundWrites elevatorId master stops home homeLabel allowed
                   (docs w1))
                (fun stop update =>
                   exists d1,
                     docs w1 !! uuid stop = Some (IsRegion d1)
                     /\ update
                        = UpdateRegion (uuid stop) (getElevatorFlags d1) None)
                stops) as (ups & -> & Hups).
    + intros stop Hstop. destruct (S1 stop Hstop) as (d0 & _ & Hd1).
      eexists. split; [|eexists; split; [exact Hd1|reflexivity]].
      unfold roundWrites. rewrite Hd1.
      apply synced_again. intros d. now apply Hdesired.
    + now exists ups.
  - intros. apply update_names_only_when_different.
Qed.

(** The theorem on the registry with the stops [A], [B] and [C]. *)
Lemma second_sync_changes_nothing_witness :
  let w1 := syncElevatorNetwork "E" "A" Samples.threeStops in
  docs (syncElevatorNetwork "E" "A" w1) = docs w1.
Proof.
  intros w1.
  refine (proj1 (proj2 (proj2
            (second_sync_changes_nothing "E" "A" Samples.threeStops
               (mkMaster "A" "default" "icons/lift.svg" 48 false
                  [mkStop "A" "Roof"; mkStop "B" "Hall"; mkStop "C" "Cellar"])
               eq_refl _ _ _ _)))).
  - discriminate.
  - vm_compute. reflexivity.
  - vm_compute. discriminate.
  - intros s Hs.
    assert (E : s = mkStop "A" "Roof" \/ s = mkStop "B" "Hall"
                \/ s = mkStop "C" "Cellar").
    { vm_compute in Hs. repeat (apply elem_of_cons in Hs as [Hs|Hs]; [tauto|]).
      inversion Hs. }
    destruct E as [->|[->| ->]]; (split; [discriminate|]);
      vm_compute; eexists; reflexivity.
Defined.

(** The second sync does write.  On the registry with the stops [A], [B]
    and [C] it sends an update for each stop, although no document changes.
    On the registry of two stops saved with blank labels it also changes
    documents: the first sync names the Regions and gives [B] the level [A]
    under the label "Lobby"; the second, on the registry as it was, reads
    the label of [A] from the name the first sync wrote and rewrites the
    ["levels"] of [B] (and its ["returnTo"]). *)
Lemma second_sync_writes_again :
  (let w1 := syncElevatorNetwork "E" "A" Samples.threeStops in
   let w2 := syncElevatorNetwork "E" "A" w1 in
   links w1 = links Samples.threeStops
   /\ docs w2 = docs w1
   /\ drop (length (writes w1)) (writes w2)
      = [UpdateRegion "A"
           (mkFlags true "E" true "default" "icons/lift.svg" 48 false
              [mkStop "B" "Hall"; mkStop "C" "Cellar"] None [])
           None;
         UpdateRegion "B"
           (mkFlags true "E" false "default" "icons/lift.svg" 48 false
              [mkStop "A" "Roof"; mkStop "C" "Cellar"]
              (Some (mkStop "A" "Roof")) [])
           None;
         UpdateRegion "C"
           (mkFlags true "E" false "default" "icons/lift.svg" 48 false
              [mkStop "A" "Roof"; mkStop "B" "Hall"]
              (Some (mkStop "A" "Roof")) [])
           None])
  /\ (let w0 := Samples.blankLabels in
      let w1 := syncElevatorNetwork "E" "A" w0 in
      let w2 := syncElevatorNetwork "E" "A" w1 in
      links w1 = links w0
      /\ links w2 = links w0
      /\ Samples.nameAt w1 "A" = Some "ELV E 02 Lobby"
      /\ Samples.nameAt w2 "A" = Some "ELV E 02 Lobby"
      /\ Samples.levelsAt w1 "B" = Some [mkStop "A" "Lobby"]
      /\ Samples.levelsAt w2 "B" = Some [mkStop "A" "ELV E 02 Lobby"]
      /\ docs w2 <> docs w1
      /\ drop (length (writes w1)) (writes w2)
         = [UpdateRegion "A"
              (mkFlags true "E" true "default" "icons/lift.svg" 48 false
                 [mkStop "B" "ELV E 01 Roof"] None [])
              None;
            UpdateRegion "B"
              (mkFlags true "E" false "default" "icons/lift.svg" 48 false
                 [mkStop "A" "ELV E 02 Lobby"]
                 (Some (mkStop "A" "ELV E 02 Lobby")) [])
              None]).
Proof.
  split.
  - vm_compute. repeat split; reflexivity.
  - intros w0 w1 w2.
    assert (L1 : Samples.levelsAt w1 "B" = Some [mkStop "A" "Lobby"])
      by (vm_compute; reflexivity).
    assert (L2 : Samples.levelsAt w2 "B" = Some [mkStop "A" "ELV E 02 Lobby"])
      by (vm_compute; reflexivity).
    repeat split; try (vm_compute; reflexivity); try assumption.
    intros E. unfold Samples.levelsAt in L1, L2. rewrite E, L1 in L2.
    discriminate L2.
Qed.

End SyncFacts.

(** ** Labels and names across repeated formatting *)
Section NameStability.
Import JS Naming.

Lemma startsWith_ELV_head s :
  startsWith "ELV " s = true -> exists r, s = "ELV " ++ r.
Proof.
  destruct s as [|a [|b [|c [|d r]]]]; cbn [startsWith];
    repeat match goal with
           | |- context [Ascii.eqb ?x ?y] => destruct (Ascii.eqb_spec x y)
           end; try discriminate.
  subst. intros _. now exists r.
Qed.

Lemma strip_trimmed name :
  trim (stripElevatorNamePrefix name) = stripElevatorNamePrefix name.
Proof.
  unfold stripElevatorNamePrefix, orElse.
  destruct (startsWith "ELV " (trim name)); cbn [negb];
    [destruct (truthy (trim (replacePrefix (trim name))))|]; apply trim_idem.
Qed.

Lemma strip_empty name : stripElevatorNamePrefix name = "" <-> trim name = "".
Proof.
  unfold stripElevatorNamePrefix.
  destruct (startsWith "ELV " (trim name)) eqn:S; cbn [negb]; [|tauto].
  apply startsWith_ELV_head in S as [r0 E].
  assert (Hne : trim name <> "") by (rewrite E; discriminate).
  unfold orElse.
  destruct (truthy (trim (replacePrefix (trim name)))) eqn:T; [|tauto].
  apply truthy_true in T. tauto.
Qed.

(** X1.  [stripElevatorNamePrefix] always answers with a trimmed string, with
    the empty string only for a blank name (a name that is nothing but a
    prefix is kept whole), and with the trimmed name itself when that does
    not start with "ELV ". *)
Theorem strip_result_is_a_label (name : string) :
  let r := stripElevatorNamePrefix name in
  trim r = r
  /\ (r = "" <-> trim name = "")
  /\ (startsWith "ELV " (trim name) = false -> r = trim name).
Proof.
  cbn zeta. split; [apply strip_trimmed|]. split; [apply strip_empty|].
  intros S. unfold stripElevatorNamePrefix. now rewrite S.
Qed.

(** A name of the scheme is its own trimmed form. *)
Lemma formatted_name_trimmed id a b lbl :
  trim lbl = lbl -> lbl <> "" ->
  trim ("ELV " ++ id ++ " " ++ String a (String b "") ++ " " ++ lbl)
  = "ELV " ++ id ++ " " ++ String a (String b "") ++ " " ++ lbl.
Proof.
  intros Hfix Hne. unfold trim at 1.
  set (floor := String a (String b "")).
  change ("ELV " ++ id ++ " " ++ floor ++ " " ++ lbl)
    with (String "E" ("LV " ++ id ++ " " ++ floor ++ " " ++ lbl)).
  rewrite trimStart_head by reflexivity.
  change (String "E" ("LV " ++ id ++ " " ++ floor ++ " " ++ lbl))
    with ("ELV " ++ id ++ (String " " (String a (String b " "))) ++ lbl).
  rewrite <- !append_assoc.
  apply trimEnd_fixed_app; [|exact Hne].
  rewrite <- Hfix. apply trim_fixed.
Qed.

(** The pattern on a name of the scheme cuts it down to the label. *)
Lemma replacePrefix_formatted_name id a b lbl :
  trim id = id -> id <> "" ->
  allChars isDot id = true ->
  existsb isTwoDigitNumber (segments id) = false ->
  isDigit a = true -> isDigit b = true ->
  trim lbl = lbl -> lbl <> "" ->
  replacePrefix ("ELV " ++ id ++ " " ++ String a (String b "") ++ " " ++ lbl)
  = lbl.
Proof.
  intros Hid Hne Hdot Hseg Da Db Hfix Hlbl.
  set (rest := String " " (String a (String b (String " " lbl)))).
  change ("ELV " ++ id ++ " " ++ String a (String b "") ++ " " ++ lbl)
    with (String "E" (String "L" (String "V" (String " " (id ++ rest))))).
  assert (Hrest : floorTail rest = Some lbl).
  { subst rest. rewrite <- Hfix. apply floorTail_floor_label; try assumption.
    now rewrite Hfix. }
  assert (Hid' : trim id <> "") by now rewrite Hid.
  destruct (trim_head id Hid') as (c & idr & Eid & Wc). rewrite Hid in Eid.
  unfold replacePrefix, matchPrefix.
  cbn [literal Ascii.eqb Bool.eqb plusGreedy]. rewrite isWhiteSpace_space.
  replace (plusGreedy isWhiteSpace (id ++ rest)
             (fun s2 => plusLazy isDot s2 floorTail)) with (@None string).
  2:{ rewrite Eid, append_cons. cbn. now rewrite Wc. }
  rewrite (plusLazy_skips_id rest lbl Hrest id Hne Hdot); [reflexivity|].
  intros p s E Hp Hs.
  apply (floorTail_inside_id id p s rest); try assumption.
  - rewrite <- Hid. apply trim_fixed.
  - now eexists.
Qed.

(** Stripping a formatted name gives the label the name was built from. *)
Lemma strip_of_formatted_name innerId innerFloor name :
  trim innerId <> "" ->
  allChars isDot (trim innerId) = true ->
  existsb isTwoDigitNumber (segments innerId) = false ->
  (innerFloor <= 99)%Z ->
  trim name <> "" ->
  stripElevatorNamePrefix
    (trim (formatElevatorRegionName innerId innerFloor name))
  = stripElevatorNamePrefix (trim name).
Proof.
  intros Hid Hdot Hseg Hfloor Hname.
  destruct (floorField_upto_99 innerFloor Hfloor) as (a & b & Da & Db & Ef).
  set (lbl := stripElevatorNamePrefix (trim name)).
  assert (Hfix : trim lbl = lbl) by apply strip_trimmed.
  assert (Hlbl : lbl <> "").
  { intros E. apply strip_empty in E. rewrite trim_idem in E. contradiction. }
  assert (Einner : formatElevatorRegionName innerId innerFloor name
                   = "ELV " ++ trim innerId ++ " " ++ String a (String b "")
                     ++ " " ++ lbl).
  { unfold formatElevatorRegionName. rewrite Ef. fold lbl.
    now apply formatted_name_trimmed. }
  rewrite Einner, formatted_name_trimmed by assumption.
  unfold stripElevatorNamePrefix at 1.
  rewrite formatted_name_trimmed by assumption.
  cbn [startsWith append Ascii.eqb Bool.eqb negb].
  change (String "E" (String "L" (String "V" (String " "
            (trim innerId ++ " " ++ String a (String b "") ++ " " ++ lbl)))))
    with ("ELV " ++ trim innerId ++ " " ++ String a (String b "") ++ " "
          ++ lbl).
  rewrite replacePrefix_formatted_name; try assumption.
  - rewrite Hfix. now apply orElse_truthy.
  - apply trim_idem.
  - now rewrite segments_trim.
Qed.

(** X2.  Formatting a name that is already of the scheme does not nest the
    prefixes: the name built from a formatted name is the name built from the
    original one.  The inner name is any the scheme makes with an id that is
    not blank, has no line terminator and no two-digit segment, and a floor
    of at most 99, from a name that is not blank. *)
Theorem format_does_not_nest
    (elevatorId : string) (floorNumber : Z)
    (innerId : string) (innerFloor : Z) (name : string) :
  trim innerId <> "" ->
  allChars isDot (trim innerId) = true ->
  existsb isTwoDigitNumber (segments innerId) = false ->
  (innerFloor <= 99)%Z ->
  trim name <> "" ->
  formatElevatorRegionName elevatorId floorNumber
    (formatElevatorRegionName innerId innerFloor name)
  = formatElevatorRegionName elevatorId floorNumber name.
Proof.
  intros Hid Hdot Hseg Hfloor Hname.
  unfold formatElevatorRegionName at 1 3.
  now rewrite strip_of_formatted_name.
Qed.

(** The theorem at a Region that was named by an earlier sync and is
    numbered anew. *)
Lemma format_does_not_nest_witness :
  formatElevatorRegionName "Tower" 5
    (formatElevatorRegionName "Tower" 2 "Lobby")
  = formatElevatorRegionName "Tower" 5 "Lobby".
Proof.
  refine (format_does_not_nest "Tower" 5 "Tower" 2 "Lobby" _ _ _ _ _).
  - vm_compute. discriminate.
  - vm_compute. reflexivity.
  - vm_compute. reflexivity.
  - vm_compute. discriminate.
  - vm_compute. discriminate.
Defined.

End NameStability.

(** ** Requests, relays and the known level *)
Section Messaging.
Import JS Net.

Local Abbreviation live now seen :=
  (filter (fun kv : string * Z => ~ (now - kv.2 > DEDUP_WINDOW_MS)%Z) seen).

(** A message with a type whose request id is blank, new or expired goes on
    to the branch of its type. *)
Lemma handleSocketMessage_passes now fresh data st :
  trim (str (msg_type data)) <> "" ->
  (forall ts, seenSocketIds st !! trim (str (msg_requestId data)) = Some ts ->
              (now - ts > DEDUP_WINDOW_MS)%Z) ->
  (wasSocketRequestSeen (msg_requestId data) DEDUP_WINDOW_MS now st).1 = false
  /\ handleSocketMessage now fresh data st
     = dispatch fresh (trim (str (msg_type data))) data
         (wasSocketRequestSeen (msg_requestId data) DEDUP_WINDOW_MS now st).2.
Proof.
  intros Ht Hnew.
  assert (E : (wasSocketRequestSeen (msg_requestId data) DEDUP_WINDOW_MS now
                 st).1 = false).
  { unfold wasSocketRequestSeen.
    destruct (negb (truthy (trim (str (msg_requestId data))))); [reflexivity|].
    destruct (live now (seenSocketIds st) !! trim (str (msg_requestId data)))
      as [ts|] eqn:L; [|reflexivity].
    apply map_lookup_filter_Some in L as [L1 L2]. cbn in L2.
    specialize (Hnew ts L1). lia. }
  split; [exact E|]. unfold handleSocketMessage.
  rewrite (proj2 (truthy_true _) Ht). cbn [negb].
  destruct (wasSocketRequestSeen (msg_requestId data) DEDUP_WINDOW_MS now st)
    as [seen st1].
  cbn [fst snd] in *. now rewrite E.
Qed.

Lemma getKnown_of_cache e st u :
  trim e <> "" -> optimistic st !! trim e = Some u -> trim u <> "" ->
  getKnownCurrentLevelUuid e st = trim u.
Proof.
  intros He Hc Hu. unfold getKnownCurrentLevelUuid, readKey.
  rewrite (proj2 (truthy_true _) He), Hc.
  cbn [negb default from_option id]. cbv zeta.
  now rewrite (proj2 (truthy_true _) Hu).
Qed.

Lemma getKnown_same_stores e st st' :
  optimistic st' !! trim e = optimistic st !! trim e ->
  persisted st' !! trim e = persisted st !! trim e ->
  getKnownCurrentLevelUuid e st' = getKnownCurrentLevelUuid e st.
Proof.
  intros Ho Hp. unfold getKnownCurrentLevelUuid, readKey. now rewrite Ho, Hp.
Qed.

Lemma requestSetCurrentLevel_stores requestId elevatorId regionUuid st :
  trim elevatorId <> "" -> trim regionUuid <> "" ->
  let st' := requestSetCurrentLevel requestId elevatorId regionUuid st in
  optimistic st'
  = assignKey (trim elevatorId) (trim regionUuid) (optimistic st)
  /\ (forall k, k <> trim elevatorId ->
        optimistic st' !! k = optimistic st !! k
        /\ persisted st' !! k = persisted st !! k).
Proof.
  intros He Hu. cbn zeta. unfold requestSetCurrentLevel.
  rewrite (proj2 (truthy_true _) He), (proj2 (truthy_true _) Hu).
  cbn [negb orb]. rewrite (queueRerender_trimmed elevatorId _ He).
  cbn [isGM setTimers setOptimistic].
  destruct (isGM st); cbn; (split; [reflexivity|]); intros k Hk;
    rewrite ?assignKey_other by exact Hk; now split.
Qed.

Lemma known_after_request requestId elevatorId regionUuid st :
  trim elevatorId <> "" -> trim elevatorId <> "__proto__" ->
  trim regionUuid <> "" ->
  getKnownCurrentLevelUuid elevatorId
    (requestSetCurrentLevel requestId elevatorId regionUuid st)
  = trim regionUuid.
Proof.
  intros He Hp Hu.
  destruct (requestSetCurrentLevel_stores requestId elevatorId regionUuid st
              He Hu) as [Ho _].
  rewrite (getKnown_of_cache elevatorId _ (trim regionUuid) He).
  - apply trim_idem.
  - rewrite Ho, (assignKey_ordinary _ _ _ Hp). apply lookup_insert_eq.
  - now rewrite trim_idem.
Qed.

Lemma getKnown_trimmed e st :
  getKnownCurrentLevelUuid (trim e) st = getKnownCurrentLevelUuid e st.
Proof. unfold getKnownCurrentLevelUuid. now rewrite trim_idem. Qed.

(** X9.  After [requestSetCurrentLevel] with arguments that are not blank,
    for an elevator id other than ["__proto__"], the caller, GM or player,
    knows the elevator to be at the requested Region, whatever its cache and
    the persisted store said before; what it knows of any other elevator is
    unchanged. *)
Theorem requested_level_is_known
    (requestId elevatorId regionUuid : string) (st : Client) :
  trim elevatorId <> "" -> trim elevatorId <> "__proto__" ->
  trim regionUuid <> "" ->
  let st' := requestSetCurrentLevel requestId elevatorId regionUuid st in
  getKnownCurrentLevelUuid elevatorId st' = trim regionUuid
  /\ (forall other, trim other <> trim elevatorId ->
        getKnownCurrentLevelUuid other st' = getKnownCurrentLevelUuid other st).
Proof.
  intros He Hp Hu st'. subst st'.
  destruct (requestSetCurrentLevel_stores requestId elevatorId regionUuid st
              He Hu) as [_ Ho].
  split; [now apply known_after_request|].
  intros other Hother. apply getKnown_same_stores; now apply Ho.
Qed.

Lemma requested_level_is_known_witness :
  let st := mkClient false "player1" {["elev1" := "stopA"]}
              {["elev1" := "stopC"]} ∅ ∅ [] [] in
  getKnownCurrentLevelUuid "elev1"
    (requestSetCurrentLevel "r1" " elev1" "stopB " st) = "stopB".
Proof.
  intros st.
  exact (proj1 (requested_level_is_known "r1" " elev1" "stopB " st
                  ltac:(vm_compute; discriminate)
                  ltac:(vm_compute; discriminate)
                  ltac:(vm_compute; discriminate))).
Defined.

(** *** A player's client only listens *)

Lemma dispatch_player fresh type data st :
  isGM st = false ->
  let st' := dispatch fresh type data st in
  isGM st' = false /\ persisted st' = persisted st /\ emitted st' = emitted st.
Proof.
  intros G. cbn zeta.
  unfold dispatch, onSocketPing, onSocketPong, onSetCurrentLevel,
    onGetCurrentLevel, onCurrentLevelChanged, queueRerenderOpenElevatorPanels.
  rewrite G. cbn [negb].
  repeat match goal with
         | |- context [if ?b then _ else _] => destruct b
         end; cbn; auto.
Qed.

Lemma handleSocketMessage_player now fresh data st :
  isGM st = false ->
  let st' := handleSocketMessage now fresh data st in
  isGM st' = false /\ persisted st' = persisted st /\ emitted st' = emitted st.
Proof.
  intros G. cbn zeta. unfold handleSocketMessage.
  destruct (negb (truthy (trim (str (msg_type data))))); [auto|].
  pose proof (wasSocketRequestSeen_frame (msg_requestId data) DEDUP_WINDOW_MS
                now st) as F.
  destruct (wasSocketRequestSeen (msg_requestId data) DEDUP_WINDOW_MS now st)
    as [seen st1].
  cbn [fst snd] in F. destruct F as (F1 & _ & _ & F4 & _ & F6 & _).
  destruct seen; [rewrite F1, F4, F6; auto|].
  destruct (dispatch_player fresh (trim (str (msg_type data))) data st1)
    as (D1 & D4 & D6); [congruence|].
  rewrite D4, D6. auto.
Qed.

(** X10.  Whatever messages a client that is not the GM is handed, in
    whatever order and at whatever times, it never writes the persisted store
    and never emits a message: only the GM persists levels, broadcasts them
    and answers a ping. *)
Theorem player_only_listens
    (events : list (Z * string * Message)) (st : Client) :
  isGM st = false ->
  let st' := handleAll events st in
  persisted st' = persisted st /\ emitted st' = emitted st
  /\ isGM st' = false.
Proof.
  revert st. induction events as [|ev events IH]; intros st G; [now cbn|].
  cbn zeta. cbn [handleAll foldl].
  destruct (handleSocketMessage_player ev.1.1 ev.1.2 ev.2 st G)
    as (G1 & P1 & E1).
  destruct (IH _ G1) as (P & E & G').
  cbn zeta in *. unfold handleAll in *. rewrite P, E. auto.
Qed.

Lemma player_only_listens_witness :
  let st := mkClient false "player1" ∅ {["elev1" := "stopA"]} ∅ ∅ [] [] in
  let events :=
    [(10%Z, "f",
      mkMessage (Some "setCurrentLevel") (Some "r1") (Some "elev1")
        (Some "stopB") (Some "player2") None None);
     (20%Z, "g",
      mkMessage (Some "socketPing") (Some "r2") None None None None
        (Some "player2"));
     (30%Z, "h", changedUnified "r1" "elev1" "stopB")] in
  persisted (handleAll events st) = {["elev1" := "stopA"]}
  /\ emitted (handleAll events st) = [].
Proof.
  intros st events.
  destruct (player_only_listens events st eq_refl) as (P & E & _).
  split; [exact P|exact E].
Defined.

(** *** The window of the de-duplication *)

(** X11.  The window runs from the first delivery of a request id.  Repeats
    that arrive inside it are dropped without renewing the record, so a
    message with that id delivered more than 8000 ms after the first one is
    handled again by the branch of its type, and recorded anew. *)
Theorem dedup_window_runs_from_first_delivery
    (t1 t2 : Z) (f1 f2 : string) (m1 m2 : Message)
    (between : list (Z * string * Message)) (st : Client) :
  let id := trim (str (msg_requestId m1)) in
  id <> "" ->
  trim (str (msg_requestId m2)) = id ->
  trim (str (msg_type m1)) <> "" ->
  trim (str (msg_type m2)) <> "" ->
  (forall ts, seenSocketIds st !! id = Some ts ->
              (t1 - ts > DEDUP_WINDOW_MS)%Z) ->
  Forall (fun ev : Z * string * Message => (ev.1.1 - t1 <= DEDUP_WINDOW_MS)%Z)
    between ->
  (t2 - t1 > DEDUP_WINDOW_MS)%Z ->
  let stm := handleAll between (handleSocketMessage t1 f1 m1 st) in
  let st2 := handleSocketMessage t2 f2 m2 stm in
  seenSocketIds stm !! id = Some t1
  /\ (wasSocketRequestSeen (msg_requestId m2) DEDUP_WINDOW_MS t2 stm).1 = false
  /\ st2 = dispatch f2 (trim (str (msg_type m2))) m2
             (wasSocketRequestSeen (msg_requestId m2) DEDUP_WINDOW_MS t2 stm).2
  /\ seenSocketIds st2 !! id = Some t2.
Proof.
  intros id Hid Hsame Hty1 Hty2 Hnew Hbetween Hlate stm st2.
  destruct (handleSocketMessage_passes t1 f1 m1 st Hty1 Hnew) as [F1 S1].
  assert (Seen1 : seenSocketIds (handleSocketMessage t1 f1 m1 st) !! id
                  = Some t1).
  { rewrite S1, dispatch_seen. unfold wasSocketRequestSeen in *.
    fold id in F1 |- *.
    rewrite (proj2 (truthy_true _) Hid) in *. cbn [negb] in *.
    destruct (live t1 (seenSocketIds st) !! id); [discriminate F1|].
    cbn. apply lookup_insert_eq. }
  assert (Seenm : seenSocketIds stm !! id = Some t1).
  { subst stm. apply (handleAll_keeps id t1 (t1 + DEDUP_WINDOW_MS)).
    - exact Seen1.
    - lia.
    - eapply Forall_impl; [exact Hbetween|]. cbn. intros ev H. lia. }
  assert (Hexp : forall ts, seenSocketIds stm !! trim (str (msg_requestId m2))
                            = Some ts -> (t2 - ts > DEDUP_WINDOW_MS)%Z).
  { rewrite Hsame, Seenm. intros ts [= <-]. exact Hlate. }
  destruct (handleSocketMessage_passes t2 f2 m2 stm Hty2 Hexp) as [F2 S2].
  split; [exact Seenm|]. split; [exact F2|]. split; [exact S2|].
  subst st2. rewrite S2, dispatch_seen.
  unfold wasSocketRequestSeen in *. rewrite Hsame in *.
  rewrite (proj2 (truthy_true _) Hid) in *. cbn [negb] in *.
  destruct (live t2 (seenSocketIds stm) !! id); [discriminate F2|].
  cbn. apply lookup_insert_eq.
Qed.

Lemma dedup_window_runs_from_first_delivery_witness :
  let st := mkClient false "player1" ∅ ∅ ∅ ∅ [] [] in
  let m := changedUnified "r1" "elev1" "stopB" in
  let repeat := (7000%Z, "g", changedUnified "r1" "elev1" "stopC") in
  let stm := handleAll [repeat] (handleSocketMessage 0 "f" m st) in
  optimistic stm = {["elev1" := "stopB"]}
  /\ seenSocketIds stm !! "r1" = Some 0%Z
  /\ seenSocketIds
       (handleSocketMessage 8001 "h" (changedUnified "r1" "elev1" "stopC") stm)
     !! "r1" = Some 8001%Z.
Proof.
  intros st m repeat stm.
  split; [reflexivity|].
  pose proof (dedup_window_runs_from_first_delivery 0 8001 "f" "h" m
                (changedUnified "r1" "elev1" "stopC") [repeat] st) as H.
  cbn zeta in H.
  destruct H as (H1 & _ & _ & H4).
  - vm_compute. discriminate.
  - reflexivity.
  - vm_compute. discriminate.
  - vm_compute. discriminate.
  - intros ts Hts. discriminate Hts.
  - repeat constructor. vm_compute. discriminate.
  - reflexivity.
  - split; [exact H1|exact H4].
Defined.

(** X12.  Every call of [wasSocketRequestSeen] with a request id that is not
    blank leaves in [_SEEN_SOCKET_IDS] only ids inside the window: the id
    asked about, and the ids recorded at most [windowMs] ago, each with the
    time of its first recording. *)
Theorem seen_ids_stay_inside_the_window
    (requestId : option string) (windowMs now : Z) (st : Client) :
  trim (str requestId) <> "" -> (0 <= windowMs)%Z ->
  let id := trim (str requestId) in
  let st' := (wasSocketRequestSeen requestId windowMs now st).2 in
  (forall k ts, seenSocketIds st' !! k = Some ts -> (now - ts <= windowMs)%Z)
  /\ is_Some (seenSocketIds st' !! id)
  /\ (forall k ts, k <> id ->
        seenSocketIds st' !! k = Some ts <->
        seenSocketIds st !! k = Some ts /\ (now - ts <= windowMs)%Z)
  /\ (forall ts, seenSocketIds st !! id = Some ts -> (now - ts <= windowMs)%Z ->
        seenSocketIds st' !! id = Some ts).
Proof.
  intros Hid Hw id st'. subst st'. unfold wasSocketRequestSeen.
  rewrite (proj2 (truthy_true _) Hid). cbn [negb]. fold id.
  set (lv := filter (fun kv : string * Z => ~ (now - kv.2 > windowMs)%Z)
               (seenSocketIds st)).
  assert (Hlv : forall k ts, lv !! k = Some ts <->
                  seenSocketIds st !! k = Some ts /\ (now - ts <= windowMs)%Z).
  { intros k ts. subst lv. rewrite map_lookup_filter_Some. cbn. split.
    - intros [H1 H2]. split; [exact H1|lia].
    - intros [H1 H2]. split; [exact H1|lia]. }
  destruct (lv !! id) as [t0|] eqn:L; cbn [snd setSeen seenSocketIds].
  - split; [intros k ts H; now apply Hlv in H|].
    split; [rewrite L; eauto|]. split; [intros k ts _; apply Hlv|].
    intros ts H1 H2. apply Hlv. auto.
  - split.
    { intros k ts. destruct (decide (k = id)) as [->|Hk].
      - rewrite lookup_insert_eq. intros [= <-]. lia.
      - rewrite lookup_insert_ne by congruence. intros H. now apply Hlv in H. }
    split; [rewrite lookup_insert_eq; eauto|]. split.
    { intros k ts Hk. rewrite lookup_insert_ne by congruence. apply Hlv. }
    intros ts H1 H2. assert (lv !! id = Some ts) by (apply Hlv; auto).
    congruence.
Qed.

Lemma seen_ids_stay_inside_the_window_witness :
  let st := mkClient false "player1" ∅ ∅ ∅
              {["old" := 100%Z; "recent" := 5000%Z]} [] [] in
  let st' := (wasSocketRequestSeen (Some "r1") 8000 9000 st).2 in
  seenSocketIds st' !! "old" = None
  /\ seenSocketIds st' !! "recent" = Some 5000%Z
  /\ is_Some (seenSocketIds st' !! "r1").
Proof.
  intros st st'.
  destruct (seen_ids_stay_inside_the_window (Some "r1") 8000 9000 st
              ltac:(vm_compute; discriminate) ltac:(lia))
    as (_ & H2 & _ & _).
  split; [reflexivity|]. split; [reflexivity|exact H2].
Defined.

(** *** Requests and the broadcasts that answer them *)

(** A message whose request id is on record inside the window changes
    nothing but that record. *)
Lemma repeat_is_dropped id t1 now fresh data st :
  id <> "" -> trim (str (msg_requestId data)) = id ->
  seenSocketIds st !! id = Some t1 -> (now - t1 <= DEDUP_WINDOW_MS)%Z ->
  let st' := handleSocketMessage now fresh data st in
  optimistic st' = optimistic st /\ persisted st' = persisted st
  /\ rerenderTimers st' = rerenderTimers st /\ emitted st' = emitted st
  /\ infos st' = infos st.
Proof.
  intros Hid Hsame Hseen Hwin. cbn zeta. unfold handleSocketMessage.
  destruct (negb (truthy (trim (str (msg_type data))))); [now repeat split|].
  pose proof (wasSocketRequestSeen_frame (msg_requestId data) DEDUP_WINDOW_MS
                now st) as F.
  assert (S : (wasSocketRequestSeen (msg_requestId data) DEDUP_WINDOW_MS now
                 st).1 = true).
  { unfold wasSocketRequestSeen. rewrite Hsame.
    rewrite (proj2 (truthy_true _) Hid). cbn [negb].
    erewrite map_lookup_filter_Some_2; [reflexivity|exact Hseen|]. cbn. lia. }
  destruct (wasSocketRequestSeen (msg_requestId data) DEDUP_WINDOW_MS now st)
    as [seen st1].
  cbn [fst snd] in *. rewrite S. tauto.
Qed.

Lemma passed_records_id requestId now st :
  trim (str requestId) <> "" ->
  (wasSocketRequestSeen requestId DEDUP_WINDOW_MS now st).1 = false ->
  seenSocketIds (wasSocketRequestSeen requestId DEDUP_WINDOW_MS now st).2
    !! trim (str requestId) = Some now.
Proof.
  intros Hid. unfold wasSocketRequestSeen.
  rewrite (proj2 (truthy_true _) Hid). cbn [negb].
  destruct (live now (seenSocketIds st) !! trim (str requestId));
    [discriminate|].
  intros _. cbn. apply lookup_insert_eq.
Qed.

(** X13.  The GM's answer to a [setCurrentLevel] request for an elevator id
    other than ["__proto__"].  The GM stores the uuid under the elevator in
    the persisted store and broadcasts [currentLevelChanged] on both channels
    under the request id of the request itself (a new id only if the request
    has none).  Its own optimistic cache and rerender timers are not touched:
    where the GM has a cached level for that elevator,
    [getKnownCurrentLevelUuid] on the GM still answers with the cached one. *)
Theorem gm_relays_a_set_request
    (now : Z) (fresh : string) (data : Message) (gm : Client) :
  isGM gm = true ->
  trim (str (msg_type data)) = "setCurrentLevel" ->
  let elevId := trim (str (msg_elevatorId data)) in
  let uuid := trim (str (msg_regionUuid data)) in
  let id := trim (str (msg_requestId data)) in
  elevId <> "" -> elevId <> "__proto__" -> uuid <> "" ->
  (forall ts, seenSocketIds gm !! id = Some ts ->
              (now - ts > DEDUP_WINDOW_MS)%Z) ->
  let gm' := handleSocketMessage now fresh data gm in
  persisted gm' = <[elevId := uuid]> (persisted gm)
  /\ emitted gm'
     = (emitted gm
        ++ [(SOCKET_CHANNEL, changedUnified (orElse id fresh) elevId uuid);
            (LEGACY_currentLevelChanged,
             changedLegacy (orElse id fresh) elevId uuid)])%list
  /\ optimistic gm' = optimistic gm
  /\ rerenderTimers gm' = rerenderTimers gm
  /\ (forall cached, optimistic gm !! elevId = Some cached ->
        trim cached <> "" ->
        getKnownCurrentLevelUuid elevId gm' = trim cached).
Proof.
  intros G Ht elevId uuid id He Hp Hu Hnew gm'.
  assert (Ht' : trim (str (msg_type data)) <> "") by (rewrite Ht; discriminate).
  destruct (handleSocketMessage_passes now fresh data gm Ht' Hnew) as [_ S].
  pose proof (wasSocketRequestSeen_frame (msg_requestId data) DEDUP_WINDOW_MS
                now gm) as F.
  cbn zeta in F. destruct F as (F1 & F2 & F3 & F4 & F5 & F6 & F7).
  set (st1 := (wasSocketRequestSeen (msg_requestId data) DEDUP_WINDOW_MS now
                 gm).2) in *.
  assert (E : gm' = broadcastChanged (orElse id fresh) elevId uuid
                      (setPersisted (assignKey elevId uuid) st1)).
  { subst gm'. rewrite S, Ht. unfold dispatch.
    cbn [String.eqb Ascii.eqb Bool.eqb]. unfold onSetCurrentLevel.
    rewrite F1, G. cbn [negb]. fold elevId uuid id.
    rewrite (proj2 (truthy_true _) He), (proj2 (truthy_true _) Hu).
    reflexivity. }
  assert (Ho : optimistic gm' = optimistic gm) by (rewrite E; exact F3).
  split; [rewrite E; cbn; now rewrite F4, (assignKey_ordinary _ _ _ Hp)|].
  split; [rewrite E; cbn; rewrite F6, <- app_assoc; reflexivity|].
  split; [exact Ho|]. split; [rewrite E; exact F5|].
  intros cached Hc Hcne.
  assert (Hee : trim elevId = elevId) by apply trim_idem.
  apply getKnown_of_cache; rewrite ?Hee; try assumption.
  now rewrite Ho.
Qed.

Lemma gm_relays_a_set_request_witness :
  let gm := mkClient true "gm" {["elev1" := "stopA"]} {["elev1" := "stopA"]}
              ∅ ∅ [] [] in
  let request :=
    mkMessage (Some "setCurrentLevel") (Some "r1") (Some "elev1")
      (Some "stopB") (Some "player1") None None in
  let gm' := handleSocketMessage 1000 "f" request gm in
  persisted gm' = {["elev1" := "stopB"]}
  /\ getKnownCurrentLevelUuid "elev1" gm' = "stopA".
Proof.
  intros gm request gm'.
  destruct (gm_relays_a_set_request 1000 "f" request gm eq_refl eq_refl)
    as (P & _ & _ & _ & K).
  - vm_compute. discriminate.
  - vm_compute. discriminate.
  - vm_compute. discriminate.
  - intros ts Hts. discriminate Hts.
  - split; [exact P|].
    exact (K "stopA" eq_refl ltac:(vm_compute; discriminate)).
Defined.

(** X14.  A client that is not the GM and has handled a player's
    [setCurrentLevel] request (for an elevator id other than ["__proto__"])
    has the request id on record; the GM broadcasts its answer under that
    same id, so the client drops the broadcast as a repeat when it arrives
    within 8000 ms, on the unified channel and on the legacy one: its cache
    is what it was before the request, while the GM's persisted store holds
    the new level. *)
Theorem relay_is_dropped_by_bystanders
    (tg t1 t2 : Z) (fg f1 f2 : string) (request : Message)
    (between : list (Z * string * Message)) (gm bystander : Client) :
  isGM gm = true -> isGM bystander = false ->
  trim (str (msg_type request)) = "setCurrentLevel" ->
  let elevId := trim (str (msg_elevatorId request)) in
  let uuid := trim (str (msg_regionUuid request)) in
  let id := trim (str (msg_requestId request)) in
  elevId <> "" -> elevId <> "__proto__" -> uuid <> "" -> id <> "" ->
  (forall ts, seenSocketIds gm !! id = Some ts ->
              (tg - ts > DEDUP_WINDOW_MS)%Z) ->
  (forall ts, seenSocketIds bystander !! id = Some ts ->
              (t1 - ts > DEDUP_WINDOW_MS)%Z) ->
  (t2 - t1 <= DEDUP_WINDOW_MS)%Z ->
  Forall (fun ev : Z * string * Message => (ev.1.1 <= t2)%Z) between ->
  let gm' := handleSocketMessage tg fg request gm in
  let relay := changedUnified id elevId uuid in
  let relayLegacy :=
    withType "currentLevelChanged" (changedLegacy id elevId uuid) in
  let st1 := handleSocketMessage t1 f1 request bystander in
  let stm := handleAll between st1 in
  persisted gm' !! elevId = Some uuid
  /\ emitted gm'
     = (emitted gm
        ++ [(SOCKET_CHANNEL, relay);
            (LEGACY_currentLevelChanged, changedLegacy id elevId uuid)])%list
  /\ optimistic st1 = optimistic bystander
  /\ (forall m, m = relay \/ m = relayLegacy ->
        optimistic (handleSocketMessage t2 f2 m stm) = optimistic stm
        /\ rerenderTimers (handleSocketMessage t2 f2 m stm)
           = rerenderTimers stm).
Proof.
  intros G B Ht elevId uuid id He Hp Hu Hid Hgm Hby Hwin Hbetween gm' relay
    relayLegacy st1 stm.
  assert (Ht' : trim (str (msg_type request)) <> "")
    by (rewrite Ht; discriminate).
  (* the GM *)
  destruct (handleSocketMessage_passes tg fg request gm Ht' Hgm) as [_ SG].
  pose proof (wasSocketRequestSeen_frame (msg_requestId request)
                DEDUP_WINDOW_MS tg gm) as FG.
  cbn zeta in FG. destruct FG as (G1 & _ & _ & G4 & _ & G6 & _).
  assert (EG : gm' = broadcastChanged id elevId uuid
                 (setPersisted (assignKey elevId uuid)
                    (wasSocketRequestSeen (msg_requestId request)
                       DEDUP_WINDOW_MS tg gm).2)).
  { subst gm'. rewrite SG, Ht. unfold dispatch.
    cbn [String.eqb Ascii.eqb Bool.eqb]. unfold onSetCurrentLevel.
    rewrite G1, G. cbn [negb]. fold elevId uuid id.
    rewrite (proj2 (truthy_true _) He), (proj2 (truthy_true _) Hu).
    cbn [negb orb]. now rewrite (orElse_truthy id fg Hid). }
  (* the bystander *)
  destruct (handleSocketMessage_passes t1 f1 request bystander Ht' Hby)
    as [P1 S1].
  pose proof (wasSocketRequestSeen_frame (msg_requestId request)
                DEDUP_WINDOW_MS t1 bystander) as FB.
  cbn zeta in FB. destruct FB as (B1 & _ & B3 & _).
  assert (E1 : st1 = (wasSocketRequestSeen (msg_requestId request)
                        DEDUP_WINDOW_MS t1 bystander).2).
  { subst st1. rewrite S1, Ht. unfold dispatch.
    cbn [String.eqb Ascii.eqb Bool.eqb]. unfold onSetCurrentLevel.
    now rewrite B1, B. }
  assert (Seen1 : seenSocketIds st1 !! id = Some t1).
  { rewrite E1. now apply passed_records_id. }
  assert (Seenm : seenSocketIds stm !! id = Some t1)
    by (subst stm; now apply (handleAll_keeps id t1 t2)).
  split.
  { rewrite EG. cbn. rewrite G4, (assignKey_ordinary _ _ _ Hp).
    apply lookup_insert_eq. }
  split; [rewrite EG; cbn; rewrite G6, <- app_assoc; reflexivity|].
  split; [rewrite E1; exact B3|].
  intros m Hm.
  assert (Hmid : trim (str (msg_requestId m)) = id).
  { destruct Hm as [->| ->]; cbn; apply trim_idem. }
  destruct (repeat_is_dropped id t1 t2 f2 m stm Hid Hmid Seenm Hwin)
    as (Ho & _ & Hr & _).
  split; [exact Ho|exact Hr].
Qed.

Lemma relay_is_dropped_by_bystanders_witness :
  let gm := mkClient true "gm" ∅ {["elev1" := "stopA"]} ∅ ∅ [] [] in
  let bystander :=
    mkClient false "player2" {["elev1" := "stopA"]} ∅ ∅ ∅ [] [] in
  let request :=
    mkMessage (Some "setCurrentLevel") (Some "r1") (Some "elev1")
      (Some "stopB") (Some "player1") None None in
  let st1 := handleSocketMessage 1000 "g" request bystander in
  persisted (handleSocketMessage 1001 "f" request gm) !! "elev1" = Some "stopB"
  /\ optimistic
       (handleSocketMessage 1050 "h" (changedUnified "r1" "elev1" "stopB") st1)
     = optimistic st1.
Proof.
  intros gm bystander request st1.
  destruct (relay_is_dropped_by_bystanders 1001 1000 1050 "f" "g" "h" request
              [] gm bystander eq_refl eq_refl eq_refl)
    as (P & _ & _ & D).
  - vm_compute. discriminate.
  - vm_compute. discriminate.
  - vm_compute. discriminate.
  - vm_compute. discriminate.
  - intros ts Hts. discriminate Hts.
  - intros ts Hts. discriminate Hts.
  - vm_compute. discriminate.
  - constructor.
  - split; [exact P|].
    exact (proj1 (D (changedUnified "r1" "elev1" "stopB") (or_introl eq_refl))).
Defined.

(** X15.  A player asks for the level of an elevator whose id is not
    ["__proto__"]: the request changes nothing on the player's client, and
    the GM's persisted store stays as it is.  When the GM reads a level under
    that id it answers with a [currentLevelChanged] under the id of the
    request, and once the player's client has handled the answer it knows the
    elevator to be at that level.  When the GM reads none it answers nothing.
    What the GM reads is the entry of the store or, the store being a plain
    object, the property of [Object.prototype] of that name when the store
    has no entry: the GM answers nothing for an id that is neither in the
    store nor a property name of [Object.prototype]. *)
Theorem level_sync_round_trip
    (requestId elevatorId : string) (tg tp : Z) (fg fp : string)
    (player gm : Client) :
  isGM player = false -> isGM gm = true ->
  trim elevatorId <> "" -> trim elevatorId <> "__proto__" ->
  trim requestId <> "" ->
  (forall ts, seenSocketIds gm !! trim requestId = Some ts ->
              (tg - ts > DEDUP_WINDOW_MS)%Z) ->
  (forall ts, seenSocketIds player !! trim requestId = Some ts ->
              (tp - ts > DEDUP_WINDOW_MS)%Z) ->
  let elevId := trim elevatorId in
  let player1 := requestSyncCurrentLevel requestId elevatorId player in
  let request :=
    mkMessage (Some "getCurrentLevel") (Some requestId) (Some elevId) None
      (Some (userId player)) None None in
  let gm1 := handleSocketMessage tg fg request gm in
  emitted player1
  = (emitted player
     ++ [(SOCKET_CHANNEL, request);
         (LEGACY_getCurrentLevel,
          mkMessage None (Some requestId) (Some elevId) None
            (Some (userId player)) None None)])%list
  /\ optimistic player1 = optimistic player
  /\ persisted gm1 = persisted gm
  /\ (trim (default "" (readKey (persisted gm) elevId)) = "" ->
        emitted gm1 = emitted gm)
  /\ (persisted gm !! elevId = None -> Object_prototype elevId = None ->
        emitted gm1 = emitted gm)
  /\ (forall stored, readKey (persisted gm) elevId = Some stored ->
        trim stored <> "" ->
        let reply := changedUnified (trim requestId) elevId (trim stored) in
        emitted gm1
        = (emitted gm
           ++ [(SOCKET_CHANNEL, reply);
               (LEGACY_currentLevelChanged,
                changedLegacy (trim requestId) elevId (trim stored))])%list
        /\ getKnownCurrentLevelUuid elevatorId
             (handleSocketMessage tp fp reply player1)
           = trim stored).
Proof.
  intros P G He Hproto Hr Hgm Hpl elevId player1 request gm1.
  assert (E1 : player1
               = emit LEGACY_getCurrentLevel
                   (mkMessage None (Some requestId) (Some elevId) None
                      (Some (userId player)) None None)
                   (emit SOCKET_CHANNEL request player)).
  { subst player1. unfold requestSyncCurrentLevel.
    now rewrite (proj2 (truthy_true _) He), P. }
  assert (Hee : trim elevId = elevId) by apply trim_idem.
  (* the GM *)
  assert (Ht : trim (str (msg_type request)) <> "")
    by (vm_compute; discriminate).
  destruct (handleSocketMessage_passes tg fg request gm Ht Hgm) as [_ SG].
  pose proof (wasSocketRequestSeen_frame (msg_requestId request)
                DEDUP_WINDOW_MS tg gm) as FG.
  cbn zeta in FG. destruct FG as (G1 & _ & _ & G4 & _ & G6 & _).
  set (g1 := (wasSocketRequestSeen (msg_requestId request) DEDUP_WINDOW_MS tg
                gm).2) in *.
  assert (EG : gm1 = onGetCurrentLevel fg request g1).
  { subst gm1. now rewrite SG. }
  set (read := trim (default "" (readKey (persisted gm) elevId))).
  assert (EG' : gm1
                = if negb (truthy read) then g1
                  else broadcastChanged (trim requestId) elevId read g1).
  { rewrite EG. unfold onGetCurrentLevel. rewrite G1, G. cbn [negb].
    change (str (msg_elevatorId request)) with elevId.
    change (str (msg_requestId request)) with requestId.
    rewrite Hee, (proj2 (truthy_true elevId) He), G4. cbn [negb].
    now rewrite (orElse_truthy (trim requestId) fg Hr). }
  assert (Hnone : read = "" -> emitted gm1 = emitted gm).
  { intros Hn. rewrite EG', Hn. cbn. exact G6. }
  split; [rewrite E1; cbn; rewrite <- app_assoc; reflexivity|].
  split; [now rewrite E1|].
  split; [rewrite EG'; destruct (negb _); [exact G4|cbn; exact G4]|].
  split; [exact Hnone|].
  split.
  { intros Hown Hinh. apply Hnone. subst read. unfold readKey.
    now rewrite Hown, Hinh. }
  intros stored Hs Hsne reply.
  assert (Hd : read = trim stored) by (subst read; now rewrite Hs).
  rewrite Hd, (proj2 (truthy_true _) Hsne) in EG'. cbn [negb] in EG'.
  split; [rewrite EG'; cbn; rewrite G6, <- app_assoc; reflexivity|].
  (* the player *)
  assert (Htr : trim (str (msg_type reply)) <> "")
    by (vm_compute; discriminate).
  assert (Hpl1 : forall ts,
             seenSocketIds player1 !! trim (str (msg_requestId reply))
             = Some ts ->
             (tp - ts > DEDUP_WINDOW_MS)%Z).
  { intros ts. rewrite E1.
    change (seenSocketIds player !! trim (trim requestId) = Some ts ->
            (tp - ts > DEDUP_WINDOW_MS)%Z).
    rewrite trim_idem. apply Hpl. }
  destruct (handleSocketMessage_passes tp fp reply player1 Htr Hpl1) as [_ SP].
  pose proof (wasSocketRequestSeen_frame (msg_requestId reply)
                DEDUP_WINDOW_MS tp player1) as FP.
  cbn zeta in FP. destruct FP as (_ & _ & P3 & _).
  rewrite SP. unfold dispatch.
  change (trim (str (msg_type reply))) with "currentLevelChanged".
  cbn [String.eqb Ascii.eqb Bool.eqb].
  assert (Hre : trim (str (msg_elevatorId reply)) <> "").
  { change (trim elevId <> ""). now rewrite Hee. }
  assert (Hrp : trim (str (msg_elevatorId reply)) <> "__proto__").
  { change (trim elevId <> "__proto__"). now rewrite Hee. }
  assert (Hru : trim (str (msg_regionUuid reply)) <> "").
  { change (trim (trim stored) <> ""). now rewrite trim_idem. }
  rewrite (onCurrentLevelChanged_value reply _ Hre Hrp Hru).
  rewrite (getKnown_of_cache elevatorId _ (trim (trim stored)) He).
  - now rewrite !trim_idem.
  - cbn [optimistic].
    change (str (msg_elevatorId reply)) with (trim elevatorId).
    change (str (msg_regionUuid reply)) with (trim stored).
    rewrite (trim_idem elevatorId). apply lookup_insert_eq.
  - now rewrite !trim_idem.
Qed.

Lemma level_sync_round_trip_witness :
  let player := mkClient false "player1" ∅ ∅ ∅ ∅ [] [] in
  let gm := mkClient true "gm" ∅ {["elev1" := "stopB"]} ∅ ∅ [] [] in
  getKnownCurrentLevelUuid "elev1"
    (handleSocketMessage 1100 "h" (changedUnified "r1" "elev1" "stopB")
       (requestSyncCurrentLevel "r1" "elev1" player))
  = "stopB".
Proof.
  intros player gm.
  destruct (level_sync_round_trip "r1" "elev1" 1000 1100 "g" "h" player gm
              eq_refl eq_refl)
    as (_ & _ & _ & _ & _ & R).
  - vm_compute. discriminate.
  - vm_compute. discriminate.
  - vm_compute. discriminate.
  - intros ts Hts. discriminate Hts.
  - intros ts Hts. discriminate Hts.
  - exact (proj2 (R "stopB" eq_refl ltac:(vm_compute; discriminate))).
Defined.

End Messaging.

(** ** The sync as a whole *)
Section Network.
Import JS Naming Sync.

(** *** Stop lists *)

Lemma normalizeFrom_first seen l s :
  s ∈ normalizeFrom seen l ->
  exists pre s0 post,
    l = (pre ++ s0 :: post)%list
    /\ uuid s = trim (uuid s0)
    /\ label s = stripElevatorNamePrefix (trim (label s0))
    /\ (forall x, x ∈ pre -> trim (uuid x) <> uuid s).
Proof.
  revert seen. induction l as [|x l IH]; intros seen H; [inversion H|].
  cbn in H.
  destruct (negb (truthy (trim (uuid x))) || bool_decide (trim (uuid x) ∈ seen))
    eqn:Skip.
  - assert (Hu : uuid s ∈ map uuid (normalizeFrom seen l))
      by (apply list_elem_of_fmap; eauto).
    apply normalizeFrom_uuid in Hu as (Hseen & Hne & _).
    destruct (IH _ H) as (pre & s0 & post & -> & E1 & E2 & Hpre).
    exists (x :: pre), s0, post. repeat split; try assumption.
    intros y [->|Hy]%elem_of_cons; [|now apply Hpre].
    apply orb_true_iff in Skip as [T|B].
    + apply negb_true_iff, truthy_false in T. congruence.
    + apply bool_decide_eq_true in B. congruence.
  - apply elem_of_cons in H as [->|H].
    + exists [], x, l. repeat split. intros y Hy. inversion Hy.
    + assert (Hu : uuid s
                   ∈ map uuid (normalizeFrom ({[trim (uuid x)]} ∪ seen) l))
        by (apply list_elem_of_fmap; eauto).
      apply normalizeFrom_uuid in Hu as (Hseen & _).
      destruct (IH _ H) as (pre & s0 & post & -> & E1 & E2 & Hpre).
      exists (x :: pre), s0, post. repeat split; try assumption.
      intros y [->|Hy]%elem_of_cons; [|now apply Hpre].
      intros E. apply Hseen, elem_of_union. left. now apply elem_of_singleton.
Qed.

Lemma normalizeFrom_again seen l :
  NoDup (map uuid l) ->
  (forall s, s ∈ l ->
     uuid s <> "" /\ trim (uuid s) = uuid s /\ uuid s ∉ seen) ->
  map uuid (normalizeFrom seen l) = map uuid l.
Proof.
  revert seen. induction l as [|x l IH]; intros seen Hnd H; [reflexivity|].
  cbn in Hnd. apply NoDup_cons in Hnd as [Hx Hnd].
  destruct (H x ltac:(left)) as (Hne & Ht & Hs).
  cbn. rewrite Ht, (proj2 (truthy_true _) Hne), (bool_decide_eq_false_2 _ Hs).
  cbn. f_equal. apply IH; [exact Hnd|].
  intros s Hin. destruct (H s ltac:(now right)) as (H1 & H2 & H3).
  repeat split; try assumption.
  intros [E|E]%elem_of_union; [|contradiction].
  apply elem_of_singleton in E. apply Hx. rewrite <- E.
  apply list_elem_of_fmap. eauto.
Qed.

(** X3.  [normalizeStops] gives a list whose uuids are trimmed, not empty and
    pairwise distinct, with trimmed labels.  It holds exactly the uuids of
    the input that are not blank; each comes from the first stop of the input
    with that uuid, whose label it keeps (trimmed and stripped of a name
    prefix).  Normalising again changes no uuid. *)
Theorem normalizeStops_canonical (stops : list Stop) :
  let out := normalizeStops stops in
  NoDup (map uuid out)
  /\ (forall s, s ∈ out ->
        uuid s <> "" /\ trim (uuid s) = uuid s /\ trim (label s) = label s)
  /\ (forall u, u ∈ map uuid out <->
        u <> "" /\ exists s, s ∈ stops /\ trim (uuid s) = u)
  /\ (forall s, s ∈ out ->
        exists pre s0 post,
          stops = (pre ++ s0 :: post)%list
          /\ uuid s = trim (uuid s0)
          /\ label s = stripElevatorNamePrefix (trim (label s0))
          /\ (forall x, x ∈ pre -> trim (uuid x) <> uuid s))
  /\ map uuid (normalizeStops out) = map uuid out.
Proof.
  cbn zeta. unfold normalizeStops.
  assert (Hshape : forall s, s ∈ normalizeFrom ∅ stops ->
            uuid s <> "" /\ trim (uuid s) = uuid s /\ trim (label s) = label s).
  { intros s Hs.
    assert (Hu : uuid s ∈ map uuid (normalizeFrom ∅ stops))
      by (apply list_elem_of_fmap; eauto).
    apply normalizeFrom_uuid in Hu as (_ & Hne & _).
    destruct (normalizeFrom_first _ _ _ Hs) as (_ & s0 & _ & _ & E1 & E2 & _).
    split; [exact Hne|]. split.
    - rewrite E1. apply trim_idem.
    - rewrite E2. unfold stripElevatorNamePrefix, orElse.
      destruct (startsWith "ELV " (trim (trim (label s0)))); cbn [negb];
        [destruct (truthy _)|]; apply trim_idem. }
  split; [apply normalizeFrom_NoDup|]. split; [exact Hshape|]. split.
  { intros u. split.
    - intros H. apply normalizeFrom_uuid in H as (_ & Hne & Hs). auto.
    - intros (Hne & s & Hs & <-).
      apply normalizeFrom_complete; try assumption.
      apply not_elem_of_empty. }
  split; [intros s Hs; exact (normalizeFrom_first _ _ _ Hs)|].
  apply normalizeFrom_again; [apply normalizeFrom_NoDup|].
  intros s Hs. destruct (Hshape s Hs) as (H1 & H2 & _).
  repeat split; try assumption. apply not_elem_of_empty.
Qed.

(** *** When the sync does nothing *)

Lemma sync_runs_or_not elevatorId homeUuid w :
  syncElevatorNetwork elevatorId homeUuid w = w
  \/ (userIsGM w = true /\ elevatorId <> ""
      /\ exists master,
           links w !! elevatorId = Some master
           /\ resolveStops w (normalizeStops (m_stops master)) <> []).
Proof.
  unfold syncElevatorNetwork.
  destruct (userIsGM w) eqn:G; cbn [negb]; [|now left].
  destruct (truthy elevatorId) eqn:T; cbn [negb]; [|now left].
  destruct (links w !! elevatorId) as [master|] eqn:L; [|now left].
  destruct (bool_decide (length (normalizeStops (m_stops master)) = 0%nat));
    [now left|].
  set (cleaned := resolveStops w (normalizeStops (m_stops master))).
  destruct (bool_decide (length cleaned = 0%nat)) eqn:C; [now left|].
  right. apply truthy_true in T. apply bool_decide_eq_false in C.
  repeat split; try assumption. exists master. split; [reflexivity|].
  intros E. apply C. unfold cleaned. now rewrite E.
Qed.

(** X4.  The sync returns at once, with no write and no change to the
    registry or to any document, when the caller is not the GM, when the
    elevator id is empty, when the registry has no entry for it, and when
    none of the entry's stops resolves to a Region: in that last case the
    dead stops stay in the registry. *)
Theorem sync_guards (elevatorId homeUuid : string) (w : World) :
  userIsGM w = false \/ elevatorId = "" \/ links w !! elevatorId = None
  \/ (exists master,
        links w !! elevatorId = Some master
        /\ forall s, s ∈ m_stops master ->
             forall d, docs w !! trim (uuid s) <> Some (IsRegion d)) ->
  syncElevatorNetwork elevatorId homeUuid w = w.
Proof.
  intros H.
  destruct (sync_runs_or_not elevatorId homeUuid w)
    as [E|(G & Hid & master & L & C)]; [exact E|].
  exfalso. destruct H as [H|[H|[H|(m & Hm & Hdead)]]]; try congruence.
  rewrite L in Hm. injection Hm as <-.
  destruct (resolveStops w (normalizeStops (m_stops master))) as [|s' l] eqn:R;
    [congruence|].
  assert (Hin : uuid s'
                ∈ map uuid (resolveStops w (normalizeStops (m_stops master))))
    by (rewrite R; cbn; left).
  apply resolveStops_uuid in Hin as (Hn & d & Hd).
  apply normalizeFrom_uuid in Hn as (_ & _ & s & Hs & Es).
  apply (Hdead s Hs d). now rewrite Es.
Qed.

Lemma sync_guards_witness :
  let w :=
    mkWorld true
      {[ "E" := mkMaster "A" "default" "icons/lift.svg" 48 false
                  [mkStop "A" "Roof"; mkStop " B " "Hall"] ]}
      {[ "C" := Samples.plainRegion "Cellar" ]} [] in
  syncElevatorNetwork "E" "A" w = w.
Proof.
  intros w. apply sync_guards. right. right. right.
  eexists. split; [reflexivity|].
  intros s Hs d.
  assert (E : s = mkStop "A" "Roof" \/ s = mkStop " B " "Hall").
  { repeat (apply elem_of_cons in Hs as [Hs|Hs]; [tauto|]). inversion Hs. }
  destruct E as [->| ->]; vm_compute; discriminate.
Defined.

(** *** What a sync leaves alone *)

Lemma sync_userIsGM elevatorId homeUuid w :
  userIsGM (syncElevatorNetwork elevatorId homeUuid w) = userIsGM w.
Proof.
  unfold syncElevatorNetwork.
  destruct (negb (userIsGM w)); [reflexivity|].
  destruct (negb (truthy elevatorId)); [reflexivity|].
  destruct (links w !! elevatorId) as [master|]; [|reflexivity].
  destruct (bool_decide _); [reflexivity|].
  destruct (bool_decide _); [reflexivity|].
  match goal with
  | |- userIsGM (foldl (syncStop ?e ?m ?c ?h ?hl ?a) ?w1 ?l) = _ =>
      destruct (loop_result e m c h hl a l w1
                  (cleaned_NoDup w (m_stops master))) as (_ & G & _);
      cbn zeta in G; rewrite G
  end.
  now destruct (bool_decide _).
Qed.

Lemma restricted_types allowed fallbackUUID bs :
  map b_type (restrictTeleportBehaviorsToNetwork allowed fallbackUUID bs)
  = map b_type bs.
Proof.
  unfold restrictTeleportBehaviorsToNetwork. rewrite map_map.
  apply map_ext. intros b. unfold restrictBehavior.
  destruct (fallbackOf allowed fallbackUUID); [|reflexivity].
  now destruct (needsRedirect allowed b).
Qed.

(** X5.  A sync of one elevator changes no other entry of the registry and no
    document but the Regions that are stops of that elevator in the registry;
    it creates and deletes no document.  On a Region it does update, the
    attributes of the module's flags that the sync does not own are kept, and
    so are the number, the order and the types of the behaviors. *)
Theorem sync_touches_only_its_network
    (elevatorId homeUuid : string) (w : World) :
  let w' := syncElevatorNetwork elevatorId homeUuid w in
  userIsGM w' = userIsGM w
  /\ (forall other, other <> elevatorId -> links w' !! other = links w !! other)
  /\ (forall u, docs w' !! u <> docs w !! u ->
        userIsGM w = true
        /\ exists master d,
             links w !! elevatorId = Some master
             /\ u ∈ map uuid (normalizeStops (m_stops master))
             /\ docs w !! u = Some (IsRegion d))
  /\ (forall u d, docs w !! u = Some (IsRegion d) ->
        exists d',
          docs w' !! u = Some (IsRegion d')
          /\ f_other (getElevatorFlags d') = f_other (getElevatorFlags d)
          /\ map b_type (r_behaviors d') = map b_type (r_behaviors d)).
Proof.
  intros w'. split; [apply sync_userIsGM|].
  destruct (sync_runs_or_not elevatorId homeUuid w)
    as [E|(G & Hid & master & L & C)].
  { subst w'. rewrite E. split; [reflexivity|]. split; [congruence|].
    intros u d Hd. exists d. auto. }
  destruct (sync_result elevatorId homeUuid w master G Hid L C) as (Lk & O & S).
  fold w' in Lk, O, S.
  set (cleaned := resolveStops w (normalizeStops (m_stops master))) in *.
  split.
  { intros other Hother. rewrite Lk. unfold linksAfter, prunedLinks.
    destruct (bool_decide _); [|reflexivity].
    now rewrite lookup_insert_ne by congruence. }
  split.
  - intros u Hu. split; [exact G|].
    destruct (decide (u ∈ map uuid cleaned)) as [Hin|Hout];
      [|now elim Hu; apply O].
    apply resolveStops_uuid in Hin as (Hn & d & Hd). eauto.
  - intros u d Hd.
    destruct (decide (u ∈ map uuid cleaned)) as [Hin|Hout].
    + apply list_elem_of_fmap in Hin as (stop & -> & Hstop).
      destruct (S stop Hstop) as (d0 & Hd0 & Hd').
      rewrite Hd0 in Hd. injection Hd as ->.
      eexists. split; [exact Hd'|]. split; [reflexivity|].
      apply restricted_types.
    + exists d. rewrite (O u Hout). auto.
Qed.

(** *** The home stop *)

Lemma homeOf_not_empty homeUuid master w :
  let cleaned := resolveStops w (normalizeStops (m_stops master)) in
  cleaned <> [] -> homeOf homeUuid master cleaned <> "".
Proof.
  intros cleaned Hne. unfold homeOf, orElse.
  destruct (truthy homeUuid) eqn:T1; [now apply truthy_true|].
  destruct (truthy (m_homeUuid master)) eqn:T2; [now apply truthy_true|].
  destruct cleaned as [|s l] eqn:E; [congruence|].
  assert (Hin : uuid s ∈ map uuid cleaned) by (rewrite E; cbn; left).
  apply resolveStops_uuid in Hin as (Hn & _).
  now apply normalizeFrom_uuid in Hn as (_ & Hn & _).
Qed.

(** X6.  After a sync that reaches its second loop every resolved stop is
    enabled under the elevator id, and the stops are told apart by the home:
    the home is the [homeUuid] option, else the one stored in the registry,
    else the first resolved stop, and is never empty; a stop is flagged
    ["isElevatorHere"] exactly when it is the home, so at most one stop is,
    and then it has no ["returnTo"]; every other stop gets a ["returnTo"]
    that points to the home under a label that is not empty.  When the home
    is not among the resolved stops no stop is flagged. *)
Theorem one_stop_is_home
    (elevatorId homeUuid : string) (w : World) (master : Master) :
  userIsGM w = true -> elevatorId <> "" ->
  links w !! elevatorId = Some master ->
  let cleaned := resolveStops w (normalizeStops (m_stops master)) in
  cleaned <> [] ->
  let w' := syncElevatorNetwork elevatorId homeUuid w in
  let home := homeOf homeUuid master cleaned in
  home <> ""
  /\ (homeUuid <> "" -> home = homeUuid)
  /\ (homeUuid = "" -> m_homeUuid master <> "" -> home = m_homeUuid master)
  /\ (homeUuid = "" -> m_homeUuid master = "" ->
        exists first, cleaned !! 0%nat = Some first /\ home = uuid first)
  /\ (forall stop, stop ∈ cleaned ->
        exists d',
          docs w' !! uuid stop = Some (IsRegion d')
          /\ f_enabled (getElevatorFlags d') = true
          /\ f_elevatorId (getElevatorFlags d') = elevatorId
          /\ (f_isElevatorHere (getElevatorFlags d') = true
              <-> uuid stop = home)
          /\ (uuid stop = home -> f_returnTo (getElevatorFlags d') = None)
          /\ (uuid stop <> home ->
                exists lbl,
                  lbl <> ""
                  /\ f_returnTo (getElevatorFlags d') = Some (mkStop home lbl)))
  /\ (forall s1 s2 d1 d2, s1 ∈ cleaned -> s2 ∈ cleaned ->
        docs w' !! uuid s1 = Some (IsRegion d1) ->
        docs w' !! uuid s2 = Some (IsRegion d2) ->
        f_isElevatorHere (getElevatorFlags d1) = true ->
        f_isElevatorHere (getElevatorFlags d2) = true ->
        s1 = s2)
  /\ (home ∉ map uuid cleaned ->
        forall stop d', stop ∈ cleaned ->
          docs w' !! uuid stop = Some (IsRegion d') ->
          f_isElevatorHere (getElevatorFlags d') = false).
Proof.
  intros G Hid L cleaned C w' home.
  destruct (sync_result elevatorId homeUuid w master G Hid L C) as (_ & _ & S).
  fold cleaned w' home in S.
  assert (Hhome : home <> "") by now apply homeOf_not_empty.
  assert (Here : forall stop d', stop ∈ cleaned ->
            docs w' !! uuid stop = Some (IsRegion d') ->
            f_isElevatorHere (getElevatorFlags d')
            = String.eqb (uuid stop) home).
  { intros stop d' Hin Hd'. destruct (S stop Hin) as (d & _ & Hd).
    rewrite Hd in Hd'. now injection Hd' as <-. }
  split; [exact Hhome|].
  split; [intros H; unfold home, homeOf; now apply orElse_truthy|].
  split.
  { intros -> H. unfold home, homeOf. cbn. now apply orElse_truthy. }
  split.
  { intros -> Hm. unfold home, homeOf. rewrite Hm. cbn.
    destruct cleaned as [|s l]; [congruence|]. now exists s. }
  split.
  { intros stop Hin. destruct (S stop Hin) as (d & _ & Hd).
    eexists. split; [exact Hd|]. cbn.
    split; [reflexivity|]. split; [reflexivity|].
    split; [apply String.eqb_eq|]. split.
    - intros ->. rewrite String.eqb_refl. now rewrite andb_false_r.
    - intros Hneq. rewrite (proj2 (truthy_true _) Hhome).
      destruct (String.eqb_spec home (uuid stop)) as [E|_]; [congruence|].
      cbn. exists (homeLabelOf home cleaned). split; [|reflexivity].
      unfold homeLabelOf, orElse.
      destruct (truthy _) eqn:T; [now apply truthy_true|discriminate]. }
  split.
  { intros s1 s2 d1 d2 H1 H2 Hd1 Hd2 E1 E2.
    rewrite (Here s1 d1 H1 Hd1) in E1. rewrite (Here s2 d2 H2 Hd2) in E2.
    apply String.eqb_eq in E1, E2.
    destruct (list_elem_of_lookup_1 _ _ H1) as [i Hi].
    destruct (list_elem_of_lookup_1 _ _ H2) as [j Hj].
    pose proof (cleaned_NoDup w (m_stops master)) as Hnd. fold cleaned in Hnd.
    pose proof (findIndex_lookup cleaned i s1 Hnd Hi) as F1.
    pose proof (findIndex_lookup cleaned j s2 Hnd Hj) as F2.
    rewrite E1, <- E2, F2 in F1. injection F1 as <-. congruence. }
  intros Hout stop d' Hin Hd'. rewrite (Here stop d' Hin Hd').
  apply String.eqb_neq. intros E. apply Hout. rewrite <- E.
  apply list_elem_of_fmap. eauto.
Qed.

Lemma one_stop_is_home_witness :
  let master :=
    mkMaster "" "default" "icons/lift.svg" 48 false
      [mkStop "A" "Roof"; mkStop "B" "Hall"] in
  let w :=
    mkWorld true {[ "E" := master ]}
      {[ "A" := Samples.plainRegion "Roof"; "B" := Samples.plainRegion "Hall" ]}
      [] in
  exists first,
    resolveStops w (normalizeStops (m_stops master)) !! 0%nat = Some first
    /\ homeOf "" master (resolveStops w (normalizeStops (m_stops master)))
       = uuid first.
Proof.
  intros master w.
  refine (proj1 (proj2 (proj2 (proj2
            (one_stop_is_home "E" "" w master eq_refl _ _ _))))
            eq_refl eq_refl).
  - discriminate.
  - vm_compute. reflexivity.
  - vm_compute. discriminate.
Defined.

(** *** Teleport behaviors *)

Lemma restricted_in_network allowed fallbackUUID bs b :
  fallbackOf allowed fallbackUUID <> None ->
  In b (restrictTeleportBehaviorsToNetwork allowed fallbackUUID bs) ->
  b_type b = "teleportToken" -> b_destination b <> "" ->
  b_destination b ∈ allowed.
Proof.
  intros F Hin Hty Hdest.
  pose proof (restricted_behaviors_settled allowed fallbackUUID bs F) as Hset.
  destruct (needsRedirect allowed b) eqn:N.
  - assert (Hf : In b (List.filter (needsRedirect allowed)
                         (restrictTeleportBehaviorsToNetwork allowed
                            fallbackUUID bs)))
      by (apply filter_In; auto).
    rewrite Hset in Hf. destruct Hf.
  - unfold needsRedirect in N. rewrite Hty in N.
    rewrite (proj2 (truthy_true _) Hdest) in N. cbn in N.
    apply negb_false_iff in N. now apply bool_decide_eq_true in N.
Qed.

(** X7.  After a sync whose home is one of the resolved stops, every
    [teleportToken] behavior of every resolved stop that has a destination
    points to a stop of the network: a destination outside the network has
    been replaced by the home, a behavior that needed no redirection is as it
    was.  When the home is not among the resolved stops the behaviors are all
    left as they were. *)
Theorem teleports_stay_in_the_network
    (elevatorId homeUuid : string) (w : World) (master : Master) :
  userIsGM w = true -> elevatorId <> "" ->
  links w !! elevatorId = Some master ->
  let cleaned := resolveStops w (normalizeStops (m_stops master)) in
  cleaned <> [] ->
  let w' := syncElevatorNetwork elevatorId homeUuid w in
  let home := homeOf homeUuid master cleaned in
  forall stop, stop ∈ cleaned ->
    exists d d',
      docs w !! uuid stop = Some (IsRegion d)
      /\ docs w' !! uuid stop = Some (IsRegion d')
      /\ length (r_behaviors d') = length (r_behaviors d)
      /\ (home ∈ map uuid cleaned ->
            (forall b, In b (r_behaviors d') ->
               b_type b = "teleportToken" -> b_destination b <> "" ->
               b_destination b ∈ map uuid cleaned)
            /\ (forall i b, r_behaviors d !! i = Some b ->
                  r_behaviors d' !! i
                  = Some (if String.eqb (b_type b) "teleportToken"
                             && truthy (b_destination b)
                             && negb (bool_decide
                                        (b_destination b ∈ map uuid cleaned))
                          then mkBehavior (b_type b) home else b)))
      /\ (home ∉ map uuid cleaned -> r_behaviors d' = r_behaviors d).
Proof.
  intros G Hid L cleaned C w' home stop Hin.
  destruct (sync_result elevatorId homeUuid w master G Hid L C) as (_ & _ & S).
  fold cleaned w' home in S.
  destruct (S stop Hin) as (d & Hd & Hd').
  set (allowed := list_to_set (map uuid cleaned) : gset string) in *.
  assert (Hal : forall u, u ∈ allowed <-> u ∈ map uuid cleaned)
    by (intros u; apply elem_of_list_to_set).
  eexists d, _. split; [exact Hd|]. split; [exact Hd'|].
  cbn [r_behaviors syncedRegion].
  split; [unfold restrictTeleportBehaviorsToNetwork; apply length_map|].
  pose proof (homeOf_not_empty homeUuid master w C) as Hhome.
  fold cleaned home in Hhome.
  split.
  - intros Hhin.
    assert (F : fallbackOf allowed home = Some home).
    { unfold fallbackOf. rewrite (proj2 (truthy_true _) Hhome).
      now rewrite bool_decide_eq_true_2 by now apply Hal. }
    split.
    + intros b Hb Hty Hdest. apply Hal.
      apply (restricted_in_network allowed home (r_behaviors d) b);
        try assumption.
      rewrite F. discriminate.
    + intros i b Hi. unfold restrictTeleportBehaviorsToNetwork.
      rewrite list_lookup_fmap, Hi. cbn. rewrite F. unfold restrictBehavior.
      f_equal. unfold needsRedirect.
      now rewrite (bool_decide_ext _ _ (Hal (b_destination b))).
  - intros Hout.
    assert (F : fallbackOf allowed home = None).
    { unfold fallbackOf. rewrite bool_decide_eq_false_2 by now rewrite Hal.
      now rewrite andb_false_r. }
    unfold restrictTeleportBehaviorsToNetwork. rewrite F. cbn.
    apply map_id.
Qed.

Lemma teleports_stay_in_the_network_witness :
  let master :=
    mkMaster "A" "default" "icons/lift.svg" 48 false
      [mkStop "A" "Roof"; mkStop "B" "Hall"] in
  let w :=
    mkWorld true {[ "E" := master ]}
      {[ "A" := IsRegion (mkRegion "Roof" None
                            [mkBehavior "teleportToken" "Z";
                             mkBehavior "teleportToken" "B";
                             mkBehavior "executeMacro" "Z"]);
         "B" := Samples.plainRegion "Hall" ]}
      [] in
  exists d d',
    docs w !! "A" = Some (IsRegion d)
    /\ docs (syncElevatorNetwork "E" "" w) !! "A" = Some (IsRegion d')
    /\ length (r_behaviors d') = length (r_behaviors d).
Proof.
  intros master w.
  destruct (teleports_stay_in_the_network "E" "" w master eq_refl
              ltac:(discriminate) ltac:(vm_compute; reflexivity)
              ltac:(vm_compute; discriminate) (mkStop "A" "Roof"))
    as (d & d' & H1 & H2 & H3 & _).
  - vm_compute. apply list_elem_of_here.
  - exists d, d'. repeat split; assumption.
Defined.

(** *** Names under a second sync *)

Lemma findIndex_uuids u l l' :
  map uuid l = map uuid l' -> findIndex u l = findIndex u l'.
Proof.
  revert l'. induction l as [|x l IH]; intros [|x' l'] E; try discriminate;
    [reflexivity|].
  cbn in E. injection E as Ex El. cbn. rewrite Ex, (IH l' El). reflexivity.
Qed.

Lemma resolveStops_all w l :
  (forall s, s ∈ l -> exists d, docs w !! uuid s = Some (IsRegion d)) ->
  map uuid (resolveStops w l) = map uuid l.
Proof.
  induction l as [|x l IH]; intros H; [reflexivity|].
  cbn. fold (resolveStops w l).
  destruct (H x ltac:(left)) as (d & Hd).
  unfold resolveStop. rewrite Hd. cbn. f_equal.
  apply IH. intros s Hs. apply H. now right.
Qed.

Lemma resolveStops_member w l s d :
  s ∈ l -> docs w !! uuid s = Some (IsRegion d) ->
  mkStop (uuid s) (orElse (label s) (r_name d)) ∈ resolveStops w l.
Proof.
  intros Hs Hd. unfold resolveStops. apply list_elem_of_omap.
  exists s. split; [exact Hs|]. unfold resolveStop. now rewrite Hd.
Qed.

(** The name the sync gives to a stop of the cleaned list. *)
Lemma desiredNameOf_member elevatorId cleaned c d :
  NoDup (map uuid cleaned) -> c ∈ cleaned ->
  desiredNameOf elevatorId cleaned c d
  = formatElevatorRegionName elevatorId (floorNumberOf cleaned c)
      (if truthy (label c) then label c else r_name d).
Proof.
  intros Hnd [i Hi]%list_elem_of_lookup_1.
  unfold desiredNameOf, stopLabelOf.
  rewrite (findIndex_lookup cleaned i c Hnd Hi), Hi. cbn.
  unfold orElse. now destruct (truthy (label c)).
Qed.

(** X8.  A second sync leaves the names alone.  On a registry entry of at
    most 99 stops that all resolve, under an elevator id that is not blank
    and has no line terminator and no two-digit segment, every Region has
    after a second sync the name the first sync gave it, also where the stop
    was stored without a label and the sync reads the label from the name of
    the Region, provided that name was not blank before the first sync. *)
Theorem resync_keeps_names
    (elevatorId homeUuid : string) (w : World) (master : Master) :
  userIsGM w = true ->
  links w !! elevatorId = Some master ->
  trim elevatorId <> "" ->
  allChars isDot (trim elevatorId) = true ->
  existsb isTwoDigitNumber (segments elevatorId) = false ->
  let stops := normalizeStops (m_stops master) in
  stops <> [] -> (length stops <= 99)%nat ->
  (forall s, s ∈ stops ->
     exists d, docs w !! uuid s = Some (IsRegion d)
               /\ (label s = "" -> trim (r_name d) <> "")) ->
  let w1 := syncElevatorNetwork elevatorId homeUuid w in
  let w2 := syncElevatorNetwork elevatorId homeUuid w1 in
  forall s, s ∈ stops ->
    exists d1 d2,
      docs w1 !! uuid s = Some (IsRegion d1)
      /\ docs w2 !! uuid s = Some (IsRegion d2)
      /\ r_name d2 = r_name d1.
Proof.
  intros G L Hid Hdot Hseg stops Hne Hmax Hall w1 w2 s Hs.
  assert (Hid' : elevatorId <> "") by (intros ->; now apply Hid).
  assert (Hnd : NoDup (map uuid stops)) by apply normalizeFrom_NoDup.
  (* the first sync *)
  set (cleaned0 := resolveStops w stops).
  assert (U0 : map uuid cleaned0 = map uuid stops).
  { apply resolveStops_all. intros x Hx. destruct (Hall x Hx) as (d & Hd & _).
    eauto. }
  assert (Len0 : length cleaned0 = length stops)
    by (rewrite <- (length_map uuid cleaned0), U0; apply length_map).
  assert (C0 : resolveStops w (normalizeStops (m_stops master)) <> []).
  { fold stops cleaned0. intros E. rewrite E in Len0.
    destruct stops; [congruence|discriminate]. }
  destruct (sync_result elevatorId homeUuid w master G Hid' L C0)
    as (L1 & _ & S0).
  fold stops cleaned0 w1 in L1, S0.
  assert (L1' : links w1 = links w).
  { rewrite L1. unfold linksAfter. now rewrite bool_decide_eq_false_2 by lia. }
  assert (G1 : userIsGM w1 = true)
    by (unfold w1; now rewrite sync_userIsGM).
  assert (Resolved1 : forall x, x ∈ stops ->
            exists d, docs w1 !! uuid x = Some (IsRegion d)).
  { intros x Hx. destruct (Hall x Hx) as (d & Hd & _).
    destruct (S0 _ (resolveStops_member w stops x d Hx Hd)) as (d' & _ & Hd').
    cbn in Hd'. eauto. }
  (* the second sync *)
  set (cleaned1 := resolveStops w1 stops).
  assert (U1 : map uuid cleaned1 = map uuid stops)
    by now apply resolveStops_all.
  assert (Len1 : length cleaned1 = length stops)
    by (rewrite <- (length_map uuid cleaned1), U1; apply length_map).
  assert (C1 : resolveStops w1 (normalizeStops (m_stops master)) <> []).
  { fold stops cleaned1. intros E. rewrite E in Len1.
    destruct stops; [congruence|discriminate]. }
  assert (Lm1 : links w1 !! elevatorId = Some master) by now rewrite L1'.
  destruct (sync_result elevatorId homeUuid w1 master G1 Hid' Lm1 C1)
    as (_ & _ & S1).
  fold stops cleaned1 w2 in S1.
  (* the stop *)
  destruct (Hall s Hs) as (d0 & Hd0 & Hblank).
  set (c0 := mkStop (uuid s) (orElse (label s) (r_name d0))).
  assert (Hc0 : c0 ∈ cleaned0) by now apply resolveStops_member.
  destruct (S0 c0 Hc0) as (d0' & Hd0' & Hd1). cbn [uuid c0] in Hd0', Hd1.
  rewrite Hd0 in Hd0'. injection Hd0' as <-.
  match type of Hd1 with _ = Some (IsRegion ?x) => set (d1 := x) in * end.
  set (c1 := mkStop (uuid s) (orElse (label s) (r_name d1))).
  assert (Hc1 : c1 ∈ cleaned1) by now apply resolveStops_member.
  destruct (S1 c1 Hc1) as (d1' & Hd1' & Hd2). cbn [uuid c1] in Hd1', Hd2.
  rewrite Hd1 in Hd1'. injection Hd1' as <-.
  eexists d1, _. split; [exact Hd1|]. split; [exact Hd2|].
  rewrite syncedRegion_name.
  assert (N1 : r_name d1 = desiredNameOf elevatorId cleaned0 c0 d0)
    by apply syncedRegion_name.
  rewrite N1.
  rewrite (desiredNameOf_member elevatorId cleaned0 c0 d0)
    by (rewrite ?U0; assumption).
  rewrite (desiredNameOf_member elevatorId cleaned1 c1 d1)
    by (rewrite ?U1; assumption).
  assert (Fl : floorNumberOf cleaned1 c1 = floorNumberOf cleaned0 c0).
  { unfold floorNumberOf. rewrite Len0, Len1. cbn [uuid c0 c1].
    now rewrite (findIndex_uuids (uuid s) cleaned1 cleaned0) by congruence. }
  rewrite Fl.
  assert (Hf : (floorNumberOf cleaned0 c0 <= 99)%Z).
  { unfold floorNumberOf. rewrite Len0. lia. }
  cbn [label c0 c1]. unfold orElse.
  destruct (truthy (label s)) eqn:T; [now rewrite T|].
  apply truthy_false in T. specialize (Hblank T).
  assert (T0 : truthy (r_name d0) = true).
  { apply truthy_true. intros E. rewrite E in Hblank. now apply Hblank. }
  rewrite T0.
  assert (E1 : (if truthy (r_name d1) then r_name d1 else r_name d1)
               = r_name d1)
    by now destruct (truthy (r_name d1)).
  rewrite E1, N1.
  rewrite (desiredNameOf_member elevatorId cleaned0 c0 d0)
    by (rewrite ?U0; assumption).
  cbn [label c0]. unfold orElse. rewrite T. cbn [truthy]. rewrite T0.
  unfold formatElevatorRegionName at 1 3.
  now rewrite strip_of_formatted_name.
Qed.

Lemma resync_keeps_names_witness :
  let w1 := syncElevatorNetwork "E" "A" Samples.blankLabels in
  exists d1 d2,
    docs w1 !! "A" = Some (IsRegion d1)
    /\ docs (syncElevatorNetwork "E" "A" w1) !! "A" = Some (IsRegion d2)
    /\ r_name d2 = r_name d1.
Proof.
  intros w1.
  refine (resync_keeps_names "E" "A" Samples.blankLabels
            (mkMaster "A" "default" "icons/lift.svg" 48 false
               [mkStop "A" ""; mkStop "B" ""])
            eq_refl _ _ _ _ _ _ _ (mkStop "A" "") _).
  - vm_compute. reflexivity.
  - vm_compute. discriminate.
  - vm_compute. reflexivity.
  - vm_compute. reflexivity.
  - vm_compute. discriminate.
  - vm_compute. lia.
  - intros s Hs.
    assert (E : s = mkStop "A" "" \/ s = mkStop "B" "").
    { vm_compute in Hs. repeat (apply elem_of_cons in Hs as [Hs|Hs]; [tauto|]).
      inversion Hs. }
    destruct E as [->| ->]; vm_compute; eexists; (split; [reflexivity|]);
      intros _; discriminate.
  - vm_compute. left.
Defined.

End Network.

(** ** Approval cards from routing to approval *)
Section Cards.
Import JS Approval.

(** The owners the routing picks are owners for [isTokenOwnedByUser]. *)
Lemma routed_owner_owns users token recipients recipient :
  NoDup (map u_id users) ->
  (forall u, In u users -> u_id u <> "" /\ trim (u_id u) = u_id u) ->
  (forall a test, t_actor token = Some a ->
     a_testUserPermission a = Some test ->
     forall u, In u users -> u_isGM u = false ->
       test u OWNER = (OWNER <=? ownershipLevel a (u_id u))%Z) ->
  computeApprovalRecipientsForToken users token = (recipients, "owner") ->
  In recipient recipients ->
  isTokenOwnedByUser users token recipient = true
  /\ userIsGM users recipient = false
  /\ userActive users recipient = true.
Proof.
  intros Hnd Hids Htest Hroute Hin.
  unfold computeApprovalRecipientsForToken in Hroute.
  rewrite (onlineNonGmOwners_computed users token Hnd) in Hroute.
  destruct (bool_decide (length (onlineNonGmOwnerIds users token) = 0%nat));
    cbn [negb] in Hroute.
  { destruct (negb _); discriminate Hroute. }
  injection Hroute as <-.
  unfold onlineNonGmOwnerIds in Hin.
  destruct (t_actor token) as [a|] eqn:Ea; [|destruct Hin].
  apply in_map_iff in Hin as (u & <- & Hu).
  apply filter_In in Hu as [Hu Hown]. unfold isOnlineNonGmOwner in Hown.
  apply andb_true_iff in Hown as [Hown Hgm].
  apply andb_true_iff in Hown as [Hlvl Hact].
  apply negb_true_iff in Hgm.
  destruct (Hids u Hu) as [Hne Htrim].
  pose proof (getUser_self users u Hnd Hu) as Hget.
  split; [|split].
  - unfold isTokenOwnedByUser.
    rewrite Htrim, (proj2 (truthy_true _) Hne), Hget, Ea.
    destruct (a_testUserPermission a) as [test|] eqn:Et; [|exact Hlvl].
    now rewrite (Htest a test eq_refl Et u Hu Hgm).
  - unfold userIsGM. now rewrite Hget.
  - unfold userActive. now rewrite Hget.
Qed.

(** X16.  A card that the routing sent to the owners of a token can be
    approved by each of them.  Every recipient of a request routed as "owner"
    is an online user who is not a GM and whom [isTokenOwnedByUser] accepts
    as the owner of the token; when such a recipient clicks the approve
    button of a card that lists this token, and the teleport does not fail,
    the token is moved to the destination, the card is deleted, and the
    client of the approver knows the elevator of the request, when its id is
    not blank and not ["__proto__"], to be at the destination.  User ids are
    not blank and carry no white space around; where the actor has a
    [testUserPermission] method it answers by the ownership levels for users
    who are not GMs. *)
Theorem owner_routed_card_can_be_approved
    (h : Host) (fresh messageId : string) (p : Payload) (t : Table)
    (token : TokenDocument) (recipients : list string) (recipient : string) :
  NoDup (map u_id (h_users h)) ->
  (forall u, In u (h_users h) -> u_id u <> "" /\ trim (u_id u) = u_id u) ->
  (forall a test, t_actor token = Some a ->
     a_testUserPermission a = Some test ->
     forall u, In u (h_users h) -> u_isGM u = false ->
       test u OWNER = (OWNER <=? ownershipLevel a (u_id u))%Z) ->
  computeApprovalRecipientsForToken (h_users h) token = (recipients, "owner") ->
  In recipient recipients ->
  Net.userId (client t) = recipient ->
  h_tokens h !! t_uuid token = Some token ->
  h_teleportThrows h (t_uuid token) = false ->
  p_tokenUUIDs p = [t_uuid token] ->
  p_destUUID p ∈ h_regions h ->
  let t' := approveClick h fresh messageId p t in
  isTokenOwnedByUser (h_users h) token recipient = true
  /\ userIsGM (h_users h) recipient = false
  /\ userActive (h_users h) recipient = true
  /\ moved t' = (moved t ++ [(t_uuid token, p_destUUID p)])%list
  /\ liveMessages t' = liveMessages t ∖ {[messageId]}
  /\ warnings t' = warnings t
  /\ (trim (p_elevatorId p) <> "" -> trim (p_elevatorId p) <> "__proto__" ->
        trim (p_destUUID p) <> "" ->
        Net.getKnownCurrentLevelUuid (p_elevatorId p) (client t')
        = trim (p_destUUID p)).
Proof.
  intros Hnd Hids Htest Hroute Hin Hme Htok Hthrow Hlist Hdest t'.
  destruct (routed_owner_owns (h_users h) token recipients recipient
              Hnd Hids Htest Hroute Hin) as (Hown & Hgm & Hact).
  split; [exact Hown|]. split; [exact Hgm|]. split; [exact Hact|].
  subst t'. unfold approveClick.
  rewrite (bool_decide_eq_true_2 _ Hdest). cbn [negb].
  assert (Hreq : requestTokenUUIDs h p = [t_uuid token]).
  { unfold requestTokenUUIDs. now rewrite Hlist. }
  rewrite Hreq. unfold approveTokens.
  assert (Happ : approvedTokenUUIDs h (Net.isGM (client t))
                   (Net.userId (client t)) [t_uuid token] = [t_uuid token]).
  { unfold approvedTokenUUIDs, tokenApproved. cbn [List.filter].
    rewrite Htok, Hme, Hown, Hthrow. cbn. now rewrite andb_false_r. }
  rewrite Happ. cbn [length bool_decide decide_rel]. cbn.
  split; [reflexivity|]. split; [reflexivity|]. split; [reflexivity|].
  intros He Hp Hd. rewrite (proj2 (truthy_true _) He).
  rewrite <- getKnown_trimmed.
  apply known_after_request; [| |exact Hd]; now rewrite trim_idem.
Qed.

Lemma owner_routed_card_can_be_approved_witness :
  let users := [mkUser "u1" false true "Ann"; mkUser "g1" true true "Gil"] in
  let actor := mkActor {["u1" := 3%Z]} None None in
  let token := mkToken "Scene.s.Token.t" "Knight" (Some actor) in
  let h :=
    mkHost users {["Scene.s.Region.r"]} {["Scene.s.Token.t" := token]}
      ∅ (fun _ _ => false) (fun _ => false) in
  let p :=
    mkPayload "q1" "u3" "elev1" "Scene.s.Region.r" ["Scene.s.Token.t"] "" "" in
  let t :=
    mkTable (Net.mkClient false "u1" ∅ ∅ ∅ ∅ [] []) {["m1"]} [] [] [] in
  moved (approveClick h "f" "m1" p t)
  = [("Scene.s.Token.t", "Scene.s.Region.r")].
Proof.
  intros users actor token h p t.
  refine (proj1 (proj2 (proj2 (proj2
            (owner_routed_card_can_be_approved h "f" "m1" p t token ["u1"] "u1"
               _ _ _ eq_refl _ eq_refl eq_refl eq_refl eq_refl _))))).
  - apply (bool_decide_unpack _). reflexivity.
  - intros u [<-|[<-|[]]]; split; vm_compute; congruence.
  - intros a test [= <-]. discriminate.
  - now left.
  - apply (bool_decide_unpack _). vm_compute. reflexivity.
Defined.

(** X17.  Whoever clicks the approve button, the click is confined to the
    card and to its request.  With a destination that does not resolve to a
    Region nothing happens at all.  Otherwise the tokens moved are tokens of
    the request that resolve and whose teleport did not fail, each to the
    destination of the card; for the GM they are all of those.  No other card
    is deleted, and this one only when a token was moved; nobody is whispered
    but the requester; when no token is moved the client, the cards and the
    whispers are as before. *)
Theorem approve_click_is_confined
    (h : Host) (fresh messageId : string) (p : Payload) (t : Table) :
  let t' := approveClick h fresh messageId p t in
  (p_destUUID p ∉ h_regions h -> t' = t)
  /\ exists movedNow,
       moved t' = (moved t ++ map (fun u => (u, p_destUUID p)) movedNow)%list
       /\ (forall u, In u movedNow ->
             p_destUUID p ∈ h_regions h
             /\ In u (requestTokenUUIDs h p)
             /\ is_Some (h_tokens h !! u)
             /\ h_teleportThrows h u = false)
       /\ (Net.isGM (client t) = true -> p_destUUID p ∈ h_regions h ->
             movedNow
             = List.filter
                 (fun u => bool_decide (is_Some (h_tokens h !! u))
                           && negb (h_teleportThrows h u))
                 (requestTokenUUIDs h p))
       /\ (movedNow = [] ->
             liveMessages t' = liveMessages t /\ client t' = client t
             /\ whispers t' = whispers t)
       /\ (movedNow <> [] -> liveMessages t' = liveMessages t ∖ {[messageId]})
       /\ (whispers t' = whispers t
           \/ whispers t'
              = (whispers t
                 ++ [mkWhisper INFO_approvalGranted
                       [trim (p_requester p)]])%list).
Proof.
  intros t'. subst t'. unfold approveClick.
  destruct (decide (p_destUUID p ∈ h_regions h)) as [Hd|Hd].
  2:{ rewrite (bool_decide_eq_false_2 _ Hd). cbn [negb].
      split; [reflexivity|]. exists []. cbn. rewrite app_nil_r.
      repeat split; try tauto; try contradiction. }
  rewrite (bool_decide_eq_true_2 _ Hd). cbn [negb].
  split; [contradiction|].
  set (l := requestTokenUUIDs h p).
  exists (approvedTokenUUIDs h (Net.isGM (client t)) (Net.userId (client t)) l).
  unfold approveTokens.
  set (approved := approvedTokenUUIDs h (Net.isGM (client t))
                     (Net.userId (client t)) l).
  assert (Happ : forall u, In u approved ->
            In u l /\ is_Some (h_tokens h !! u)
            /\ h_teleportThrows h u = false).
  { intros u [Hin Hu]%filter_In. split; [exact Hin|].
    unfold tokenApproved in Hu.
    destruct (h_tokens h !! u) as [td|]; [|discriminate].
    split; [eauto|]. destruct (_ && _); [discriminate|].
    now apply negb_true_iff. }
  split.
  { destruct approved; reflexivity. }
  split; [intros u Hu; split; [exact Hd|now apply Happ]|].
  split.
  { intros Hgm _. subst approved. unfold approvedTokenUUIDs.
    apply filter_ext. intros u. unfold tokenApproved. rewrite Hgm.
    destruct (h_tokens h !! u) as [td|] eqn:E; reflexivity. }
  split.
  { intros ->. cbn. auto. }
  split.
  { intros Hne. destruct approved; [congruence|]. reflexivity. }
  destruct approved; cbn; [now left|].
  destruct (truthy (trim (p_requester p))); [now right|now left].
Qed.



End Cards.

(** ** Themes *)
Section Themes.
Import JS Theme.

(** X18.  [normalizeThemeValue] always answers with one of the four themes of
    the module, whatever it is given (a missing value, an unknown name, a
    name of an older version), and leaves its own answers as they are. *)
Theorem normalizeThemeValue_is_a_theme (theme : option string) :
  let r := normalizeThemeValue theme in
  (r = "default" \/ r = "scifi" \/ r = "horror" \/ r = "rustic")
  /\ normalizeThemeValue (Some r) = r
  /\ (toLowerCase (trim (str theme)) = "light"
      \/ toLowerCase (trim (str theme)) = "dark" -> r = "default")
  /\ (toLowerCase (trim (str theme)) = "fantasy" -> r = "rustic").
Proof.
  cbn zeta.
  assert (R : normalizeThemeValue theme = "default"
              \/ normalizeThemeValue theme = "scifi"
              \/ normalizeThemeValue theme = "horror"
              \/ normalizeThemeValue theme = "rustic").
  { unfold normalizeThemeValue.
    set (t := toLowerCase (trim (str theme))).
    destruct (String.eqb_spec t "default") as [->|_]; [tauto|].
    destruct (String.eqb_spec t "scifi") as [->|_]; [tauto|].
    destruct (String.eqb_spec t "horror") as [->|_]; [tauto|].
    destruct (String.eqb_spec t "rustic") as [->|_]; [tauto|].
    cbn [orb].
    destruct (String.eqb t "light" || String.eqb t "dark"); [tauto|].
    destruct (String.eqb t "fantasy"); tauto. }
  split; [exact R|]. split.
  - destruct R as [->|[->|[->| ->]]]; reflexivity.
  - unfold normalizeThemeValue. split.
    + intros [->| ->]; reflexivity.
    + intros ->. reflexivity.
Qed.

End Themes.

(** ** The panel and the known level *)
Section Panels.
Import JS Sync Net Panel.

Lemma NoDup_fmap_eq {A B} (f : A -> B) (l : list A) x y :
  NoDup (map f l) -> x ∈ l -> y ∈ l -> f x = f y -> x = y.
Proof.
  intros Hnd [i Hi]%list_elem_of_lookup_1 [j Hj]%list_elem_of_lookup_1 E.
  assert (Hi' : map f l !! i = Some (f x))
    by (rewrite list_lookup_fmap, Hi; reflexivity).
  assert (Hj' : map f l !! j = Some (f y))
    by (rewrite list_lookup_fmap, Hj; reflexivity).
  rewrite <- E in Hj'.
  pose proof (NoDup_lookup _ _ _ _ Hnd Hi' Hj') as ->. congruence.
Qed.

Lemma existsb_uuid (l : list Stop) u :
  existsb (fun s => String.eqb (uuid s) u) l = true <-> u ∈ map uuid l.
Proof.
  rewrite existsb_exists. split.
  - intros (s & Hs & E). apply String.eqb_eq in E. subst u.
    apply list_elem_of_fmap. exists s. split; [reflexivity|].
    now apply list_elem_of_In.
  - intros (s & -> & Hs)%list_elem_of_fmap. exists s.
    split; [now apply list_elem_of_In|apply String.eqb_refl].
Qed.

Lemma rawStops_uuids masterLinks p :
  NoDup (map uuid (rawStops masterLinks p))
  /\ pn_regionUuid p ∈ map uuid (rawStops masterLinks p).
Proof.
  unfold rawStops.
  set (stops := match (if truthy _ then _ else _) with
                | Some m => normalizeStops (m_stops m)
                | None => _
                end).
  assert (Hnd : NoDup (map uuid stops)).
  { subst stops. destruct (if truthy _ then _ else _);
      apply normalizeFrom_NoDup. }
  destruct (existsb _ stops) eqn:E.
  - split; [exact Hnd|]. now apply existsb_uuid.
  - assert (Hout : pn_regionUuid p ∉ map uuid stops).
    { intros H. apply existsb_uuid in H. congruence. }
    rewrite map_app. cbn. split.
    + apply NoDup_app. split; [exact Hnd|]. split.
      * intros x Hx [->|H]%elem_of_cons; [contradiction|inversion H].
      * apply NoDup_singleton.
    + apply elem_of_app. right. left.
Qed.

Lemma baseLevels_uuids uuidToLabel cab here l :
  map lv_uuid (imap (baseLevel uuidToLabel cab here) l) = map uuid l.
Proof.
  change (map lv_uuid (imap (baseLevel uuidToLabel cab here) l))
    with (lv_uuid <$> imap (baseLevel uuidToLabel cab here) l).
  rewrite fmap_imap. unfold compose. cbn.
  generalize 0%nat. induction l as [|x l IH]; intros n; [reflexivity|].
  cbn. f_equal. unfold compose.
  rewrite <- (IH (S n)). apply imap_ext. reflexivity.
Qed.

(** X19.  The level list the panel shows.  Its uuids are pairwise distinct
    and the Region of the panel is always among them, whatever the registry
    and the flags hold.  The entry marked as current is the one of the known
    level of the elevator (the cached or persisted level, else the panel's
    Region when flagged ["isElevatorHere"]) and, when no level is known, the
    one of the panel's Region: so at most one entry is marked, and exactly
    one when no level is known.  Every entry has a label that is not empty. *)
Theorem panel_levels_mark_one_stop
    (uuidToLabel : gmap string string) (masterLinks : gmap string Master)
    (st : Client) (p : ElevatorPanel) :
  let levels := getData_levels uuidToLabel masterLinks st p in
  let cab := currentCabUUID st p in
  let target := if truthy cab then cab else pn_regionUuid p in
  NoDup (map lv_uuid levels)
  /\ pn_regionUuid p ∈ map lv_uuid levels
  /\ (forall l, l ∈ levels -> lv_isCurrent l = true <-> lv_uuid l = target)
  /\ (forall l1 l2, l1 ∈ levels -> l2 ∈ levels ->
        lv_isCurrent l1 = true -> lv_isCurrent l2 = true -> l1 = l2)
  /\ (cab = "" -> exists l, l ∈ levels /\ lv_isCurrent l = true
                            /\ lv_uuid l = pn_regionUuid p)
  /\ (forall l, l ∈ levels -> lv_label l <> "").
Proof.
  intros levels cab target.
  destruct (rawStops_uuids masterLinks p) as [Hnd Hhere].
  set (base := imap (baseLevel uuidToLabel cab (pn_regionUuid p))
                 (rawStops masterLinks p)).
  assert (Hbu : map lv_uuid base = map uuid (rawStops masterLinks p))
    by apply baseLevels_uuids.
  assert (Hbase : forall l, l ∈ base ->
            (lv_isCurrent l = true <-> lv_uuid l = target) /\ lv_label l <> "").
  { intros l (i & Hi)%list_elem_of_lookup_1. subst base.
    rewrite list_lookup_imap in Hi.
    destruct (rawStops masterLinks p !! i) as [s|]; [|discriminate].
    injection Hi as <-. cbn. split.
    - subst target. destruct (truthy cab); cbn.
      + rewrite orb_false_r. apply String.eqb_eq.
      + apply String.eqb_eq.
    - unfold orElse. destruct (truthy (label s)) eqn:T;
        [now apply truthy_true|discriminate]. }
  assert (Hshape :
    levels = base
    \/ exists r, f_returnTo (pn_flags p) = Some r /\ uuid r <> ""
         /\ (uuid r ∉ map lv_uuid base)
         /\ levels
            = mkLevel (uuid r) (uuidLabelOf uuidToLabel (uuid r))
                (orElse (label r) "Return")
                (truthy cab && String.eqb (uuid r) cab) :: base).
  { subst levels. unfold getData_levels. fold cab. fold base.
    destruct (f_returnTo (pn_flags p)) as [r|]; [|now left].
    destruct (truthy (uuid r)) eqn:T; [|now left]. cbn [andb].
    destruct (existsb _ base) eqn:E; [now left|]. cbn [negb].
    right. exists r. split; [reflexivity|]. split; [now apply truthy_true|].
    split; [|reflexivity].
    intros (l & El & Hl)%list_elem_of_fmap.
    assert (existsb (fun l0 => String.eqb (lv_uuid l0) (uuid r)) base = true).
    { apply existsb_exists. exists l. split; [now apply list_elem_of_In|].
      rewrite El. apply String.eqb_refl. }
    congruence. }
  assert (Hall : NoDup (map lv_uuid levels)
                 /\ pn_regionUuid p ∈ map lv_uuid levels
                 /\ forall l, l ∈ levels ->
                      (lv_isCurrent l = true <-> lv_uuid l = target)
                      /\ lv_label l <> "").
  { destruct Hshape as [->|(r & Hr & Hne & Hout & ->)].
    - rewrite Hbu. auto.
    - cbn [map]. split; [|split].
      + apply NoDup_cons. split; [exact Hout|]. now rewrite Hbu.
      + right. now rewrite Hbu.
      + intros l [->|Hl]%elem_of_cons; [|now apply Hbase]. cbn. split.
        * subst target. destruct (truthy cab) eqn:T; cbn.
          -- apply String.eqb_eq.
          -- split; [discriminate|]. intros E. exfalso. apply Hout.
             rewrite E, Hbu. exact Hhere.
        * unfold orElse. destruct (truthy (label r)) eqn:T;
            [now apply truthy_true|discriminate]. }
  destruct Hall as (N & H & C).
  split; [exact N|]. split; [exact H|].
  split; [intros l Hl; now apply C|]. split.
  { intros l1 l2 H1 H2 C1 C2.
    apply (NoDup_fmap_eq lv_uuid levels); try assumption.
    apply (C l1 H1) in C1. apply (C l2 H2) in C2. congruence. }
  split; [|intros l Hl; now apply C].
  intros Hcab. apply list_elem_of_fmap in H as (l & El & Hl).
  exists l. split; [exact Hl|]. split; [|now symmetry].
  apply (C l Hl). subst target. rewrite Hcab. cbn. now symmetry.
Qed.

(** X20.  Calling the elevator from a panel.  With a stop whose elevator id
    is neither blank nor ["__proto__"] and whose uuid is not blank and
    trimmed, the client, GM or player, knows the elevator to be at the Region
    of the panel as soon as the call returns, and the panel shows it as here,
    whatever it showed and whatever was cached or persisted before; no
    warning is shown. *)
Theorem call_brings_the_elevator_here
    (fresh : string) (p : ElevatorPanel) (st : Client) :
  trim (f_elevatorId (pn_flags p)) <> "" ->
  trim (f_elevatorId (pn_flags p)) <> "__proto__" ->
  pn_regionUuid p <> "" -> trim (pn_regionUuid p) = pn_regionUuid p ->
  let p' := (_handleCall fresh p st).1.1 in
  let st' := (_handleCall fresh p st).1.2 in
  (_handleCall fresh p st).2 = []
  /\ st' = requestSetCurrentLevel fresh (f_elevatorId (pn_flags p))
             (pn_regionUuid p) st
  /\ getKnownCurrentLevelUuid (f_elevatorId (pn_flags p)) st'
     = pn_regionUuid p
  /\ pn_isHere p' = true
  /\ pn_regionUuid p' = pn_regionUuid p /\ pn_flags p' = pn_flags p.
Proof.
  intros He Hp Hu Ht. cbn zeta. unfold _handleCall.
  assert (Hne : f_elevatorId (pn_flags p) <> "").
  { intros E. rewrite E in He. now apply He. }
  rewrite (proj2 (truthy_true _) Hne). cbn [negb fst snd].
  split; [reflexivity|]. split; [reflexivity|].
  assert (Hu' : trim (pn_regionUuid p) <> "") by now rewrite Ht.
  assert (K : getKnownCurrentLevelUuid (f_elevatorId (pn_flags p))
                (requestSetCurrentLevel fresh (f_elevatorId (pn_flags p))
                   (pn_regionUuid p) st)
              = pn_regionUuid p).
  { rewrite known_after_request by assumption. exact Ht. }
  split; [exact K|]. split; [|split; reflexivity].
  cbn [pn_isHere setIsHere]. unfold _deriveState. rewrite K.
  rewrite (proj2 (truthy_true _) Hu). apply String.eqb_refl.
Qed.

Lemma call_brings_the_elevator_here_witness :
  let st := mkClient false "player1" {["elev1" := "stopA"]} ∅ ∅ ∅ [] [] in
  let flags := mkFlags true "elev1" false "default" "" 48 false [] None [] in
  let p := mkPanel "stopB" "Hall" flags false in
  pn_isHere (_handleCall "r1" p st).1.1 = true.
Proof.
  intros st flags p.
  exact (proj1 (proj2 (proj2 (proj2
           (call_brings_the_elevator_here "r1" p st
              ltac:(vm_compute; discriminate) ltac:(vm_compute; discriminate)
              ltac:(discriminate) eq_refl))))).
Defined.

(** X21.  A broadcast reaches the open panels.  When a client has handled a
    [currentLevelChanged] that is not a repeat, for an elevator id other than
    ["__proto__"], the rerender of the elevator is pending; once its timer
    has fired no rerender is pending for it and every open panel of that
    elevator shows the elevator as here exactly when its Region is the Region
    of the broadcast.  The panels of other elevators are as they were. *)
Theorem broadcast_reaches_open_panels
    (now : Z) (fresh : string) (data : Message) (st : Client)
    (windows : list ElevatorPanel) :
  trim (str (msg_type data)) = "currentLevelChanged" ->
  let elevId := trim (str (msg_elevatorId data)) in
  let uuid := trim (str (msg_regionUuid data)) in
  elevId <> "" -> elevId <> "__proto__" -> uuid <> "" ->
  (forall ts, seenSocketIds st !! trim (str (msg_requestId data)) = Some ts ->
              (now - ts > DEDUP_WINDOW_MS)%Z) ->
  let st1 := handleSocketMessage now fresh data st in
  let st2 := (onRerenderTimer elevId st1 windows).1 in
  let windows2 := (onRerenderTimer elevId st1 windows).2 in
  elevId ∈ rerenderTimers st1
  /\ (elevId ∉ rerenderTimers st2)
  /\ optimistic st2 = optimistic st1
  /\ windows2
     = map (fun app =>
              if String.eqb (trim (f_elevatorId (pn_flags app))) elevId
              then setIsHere (String.eqb uuid (pn_regionUuid app)) app
              else app)
         windows.
Proof.
  intros Ht elevId uuid He Hp Hu Hnew st1 st2 windows2.
  assert (Ht' : trim (str (msg_type data)) <> "") by (rewrite Ht; discriminate).
  destruct (handleSocketMessage_passes now fresh data st Ht' Hnew) as [_ S].
  pose proof (wasSocketRequestSeen_frame (msg_requestId data) DEDUP_WINDOW_MS
                now st) as F.
  cbn zeta in F. destruct F as (_ & _ & F3 & F4 & F5 & _).
  assert (E1 : optimistic st1
               = <[elevId := uuid]> (optimistic st)
               /\ rerenderTimers st1 = {[elevId]} ∪ rerenderTimers st).
  { subst st1. rewrite S, Ht. unfold dispatch.
    cbn [String.eqb Ascii.eqb Bool.eqb].
    rewrite (onCurrentLevelChanged_value data _ He Hp Hu). cbn.
    now rewrite F3, F5. }
  destruct E1 as [O1 T1].
  split; [rewrite T1; apply elem_of_union; left; now apply elem_of_singleton|].
  split.
  { subst st2. cbn. intros [_ H]%elem_of_difference. apply H.
    now apply elem_of_singleton. }
  split; [reflexivity|].
  subst windows2. cbn [snd onRerenderTimer]. unfold rerenderOpenElevatorPanels.
  assert (Hee : trim elevId = elevId) by apply trim_idem.
  rewrite Hee, (proj2 (truthy_true elevId) He). cbn [negb].
  apply map_ext. intros app.
  destruct (String.eqb_spec (trim (f_elevatorId (pn_flags app))) elevId)
    as [E|E]; cbn [negb]; [|reflexivity].
  f_equal. unfold _deriveState.
  assert (K : getKnownCurrentLevelUuid (f_elevatorId (pn_flags app)) st1
              = uuid).
  { unfold getKnownCurrentLevelUuid, readKey. rewrite E.
    rewrite (proj2 (truthy_true elevId) He). cbn [negb].
    rewrite O1, lookup_insert_eq. cbn [default from_option id]. cbv zeta.
    assert (Huu : trim uuid = uuid) by apply trim_idem.
    now rewrite Huu, (proj2 (truthy_true uuid) Hu). }
  now rewrite K, (proj2 (truthy_true uuid) Hu).
Qed.

Lemma broadcast_reaches_open_panels_witness :
  let st := mkClient false "player1" ∅ ∅ ∅ ∅ [] [] in
  let flags := mkFlags true "elev1" true "default" "" 48 false [] None [] in
  let atA := mkPanel "stopA" "Roof" flags true in
  let atB := mkPanel "stopB" "Hall" flags false in
  let st1 :=
    handleSocketMessage 1000 "f" (changedUnified "r1" "elev1" "stopB") st in
  (onRerenderTimer "elev1" st1 [atA; atB]).2
  = [setIsHere false atA; setIsHere true atB].
Proof.
  intros st flags atA atB st1.
  exact (proj2 (proj2 (proj2
           (broadcast_reaches_open_panels 1000 "f"
              (changedUnified "r1" "elev1" "stopB") st [atA; atB] eq_refl
              ltac:(vm_compute; discriminate) ltac:(vm_compute; discriminate)
              ltac:(vm_compute; discriminate)
              ltac:(intros ts Hts; discriminate Hts))))).
Defined.

End Panels.

(** ** Saving the configuration of a stop *)
Section Saving.
Import JS Sync Net Theme Panel.

Lemma resolveStops_complete w l u d :
  u ∈ map uuid l -> docs w !! u = Some (IsRegion d) ->
  u ∈ map uuid (resolveStops w l).
Proof.
  intros (s & -> & Hs)%list_elem_of_fmap Hd.
  apply list_elem_of_fmap.
  exists (mkStop (uuid s) (orElse (label s) (r_name d))).
  split; [reflexivity|]. unfold resolveStops. apply list_elem_of_omap.
  exists s. split; [exact Hs|]. unfold resolveStop. now rewrite Hd.
Qed.

Lemma savedStops_here here name rows :
  here ∈ map uuid (savedStops here name rows).
Proof.
  unfold savedStops. destruct (existsb _ _) eqn:E.
  - now apply existsb_uuid.
  - rewrite map_app. apply elem_of_app. right. cbn. left.
Qed.

(** X22.  Saving the form of an enabled stop with an elevator id other than
    ["__proto__"] makes the Region of the panel the home of the network.  The
    registry entry of the elevator names it as home and has it among its
    stops; the sync that the handler runs leaves the Region enabled under the
    trimmed id, with the theme normalised, flagged ["isElevatorHere"]
    whatever the checkbox of the form says, without a ["returnTo"], and with
    ["levels"] that are Regions of the world other than itself; the
    attributes the form does not own are kept.  The panel keeps the flags as
    the form gave them. *)
Theorem saving_makes_the_panel_the_home
    (form : ConfigForm) (st : Client) (p : ElevatorPanel) (w : World)
    (d : RegionDocument) :
  Sync.userIsGM w = true ->
  docs w !! pn_regionUuid p = Some (IsRegion d) ->
  pn_regionUuid p <> "" -> trim (pn_regionUuid p) = pn_regionUuid p ->
  cf_enabled form = true -> trim (cf_elevatorId form) <> "" ->
  trim (cf_elevatorId form) <> "__proto__" ->
  let here := pn_regionUuid p in
  let elevatorId := trim (cf_elevatorId form) in
  let w' := (saveConfig form st p w).1 in
  let p' := (saveConfig form st p w).2 in
  (exists master',
     links w' !! elevatorId = Some master'
     /\ m_homeUuid master' = here
     /\ here ∈ map uuid (m_stops master'))
  /\ (exists d',
        docs w' !! here = Some (IsRegion d')
        /\ f_enabled (getElevatorFlags d') = true
        /\ f_elevatorId (getElevatorFlags d') = elevatorId
        /\ f_isElevatorHere (getElevatorFlags d') = true
        /\ f_returnTo (getElevatorFlags d') = None
        /\ f_theme (getElevatorFlags d')
           = normalizeThemeValue (Some (default "default" (cf_theme form)))
        /\ f_other (getElevatorFlags d') = f_other (getElevatorFlags d)
        /\ (forall s, s ∈ f_levels (getElevatorFlags d') ->
              uuid s <> here
              /\ exists ds, docs w' !! uuid s = Some (IsRegion ds)))
  /\ pn_regionUuid p' = here
  /\ pn_flags p' = savedFlags form here d
  /\ f_isElevatorHere (pn_flags p') = cf_isElevatorHere form.
Proof.
  intros G Hd Hne Htrim Hen Hid Hproto here elevatorId w' p'. subst here.
  remember (pn_regionUuid p) as here eqn:Ehere.
  set (w2 := withSavedMaster form here d (withSavedFlags form here d w)).
  set (master := savedMaster form here d).
  assert (Ew : w' = syncElevatorNetwork elevatorId here w2).
  { subst w'. unfold saveConfig. rewrite G. cbn [negb]. cbv zeta.
    rewrite <- Ehere, Hd, Hen. now rewrite (proj2 (truthy_true _) Hid). }
  assert (Ep : pn_flags p' = savedFlags form here d /\ pn_regionUuid p' = here).
  { subst p'. unfold saveConfig. rewrite G. cbn [negb]. cbv zeta.
    now rewrite <- Ehere, Hd. }
  assert (G2 : Sync.userIsGM w2 = true) by exact G.
  assert (L2 : links w2 !! elevatorId = Some master).
  { cbn. rewrite (assignKey_ordinary _ _ _ Hproto). apply lookup_insert_eq. }
  set (d2 := mkRegion (r_name d) (Some (savedFlags form here d))
               (r_behaviors d)).
  assert (D2 : docs w2 !! here = Some (IsRegion d2))
    by (cbn; apply lookup_insert_eq).
  set (stops := normalizeStops (m_stops master)).
  set (cleaned := resolveStops w2 stops).
  assert (Hin_stops : here ∈ map uuid stops).
  { pose proof (savedStops_here here (r_name d) (cf_rows form)) as H.
    apply list_elem_of_fmap in H as (s & Es & Hs).
    rewrite <- Htrim, Es. apply normalizeFrom_complete.
    - exact Hs.
    - rewrite <- Es, Htrim. exact Hne.
    - apply not_elem_of_empty. }
  assert (Hin : here ∈ map uuid cleaned)
    by (eapply resolveStops_complete; eauto).
  assert (C : cleaned <> []).
  { intros E. rewrite E in Hin. inversion Hin. }
  destruct (sync_result elevatorId here w2 master G2 Hid L2 C) as (Lk & _ & S).
  fold stops cleaned in Lk, S. rewrite <- Ew in Lk, S.
  assert (Hhome : homeOf here master cleaned = here)
    by (unfold homeOf; now apply orElse_truthy).
  rewrite Hhome in S.
  split.
  { rewrite Lk. unfold linksAfter, prunedLinks.
    destruct (bool_decide _).
    - eexists. split; [apply lookup_insert_eq|]. split; [reflexivity|exact Hin].
    - exists master. split; [exact L2|]. split; [reflexivity|].
      apply savedStops_here. }
  split; [|now destruct Ep as [-> ->]].
  apply list_elem_of_fmap in Hin as (stop & Es & Hstop).
  destruct (S stop Hstop) as (d0 & Hd0 & Hd').
  rewrite <- Es in Hd0, Hd'. rewrite D2 in Hd0. injection Hd0 as <-.
  eexists. split; [exact Hd'|]. cbn.
  split; [reflexivity|]. split; [reflexivity|].
  split; [rewrite <- Es; apply String.eqb_refl|].
  split; [rewrite <- Es, String.eqb_refl; now rewrite andb_false_r|].
  split; [reflexivity|]. split; [reflexivity|].
  intros s Hs. unfold otherStopsOf in Hs.
  apply list_elem_of_filter in Hs as [Hs1 Hs2].
  split; [now rewrite Es|].
  destruct (S s Hs2) as (ds & _ & Hds). eauto.
Qed.

Lemma saving_makes_the_panel_the_home_witness :
  let w :=
    mkWorld true ∅
      {[ "A" := Samples.plainRegion "Roof"; "B" := Samples.plainRegion "Hall" ]}
      [] in
  let form :=
    mkConfigForm true " Tower " false (Some "Dark") "" 48 false
      [mkStop "B" "Hall"; mkStop "Z" "Gone"] in
  let p := mkPanel "A" "Roof" noFlags false in
  let st := mkClient true "gm" ∅ ∅ ∅ ∅ [] [] in
  exists d',
    docs (saveConfig form st p w).1 !! "A" = Some (IsRegion d')
    /\ f_isElevatorHere (getElevatorFlags d') = true
    /\ f_levels (getElevatorFlags d') = [mkStop "B" "Hall"].
Proof.
  intros w form p st.
  destruct (saving_makes_the_panel_the_home form st p w
              (mkRegion "Roof" None []) eq_refl eq_refl
              ltac:(discriminate) eq_refl eq_refl
              ltac:(vm_compute; discriminate) ltac:(vm_compute; discriminate))
    as (_ & (d' & Hd' & _ & _ & Hh & _) & _).
  exists d'. split; [exact Hd'|]. split; [exact Hh|].
  assert (E : docs (saveConfig form st p w).1 !! "A"
              = Some (IsRegion
                        (mkRegion "ELV Tower 01 Roof"
                           (Some (mkFlags true "Tower" true "default" "" 48
                                    false [mkStop "B" "Hall"] None []))
                           [])))
    by (vm_compute; reflexivity).
  pose proof (eq_trans (eq_sym Hd') E) as H. now injection H as ->.
Defined.

End Saving.

(** ** Selecting a destination *)
Section Selecting.
Import JS Sync Net Approval Panel.

Lemma teleportOwned_loop h destUUID l : forall k,
  let k' := foldl (teleportOwned h destUUID) k l in
  dk_panel k' = dk_panel k /\ dk_client k' = dk_client k
  /\ dk_cards k' = dk_cards k
  /\ dk_moved k'
     = (dk_moved k
        ++ map (fun t => (t_uuid t, destUUID))
             (List.filter (fun t => negb (sh_teleportFails h (t_uuid t)))
                l))%list
  /\ dk_notices k'
     = (dk_notices k
        ++ map (fun _ => WARN_teleportUnavailable)
             (List.filter (fun t => sh_teleportFails h (t_uuid t)) l))%list.
Proof.
  induction l as [|t l IH]; intros k; cbn zeta.
  - cbn. now rewrite !app_nil_r.
  - cbn [foldl]. destruct (IH (teleportOwned h destUUID k t))
      as (P & C & K & M & N).
    cbn zeta in *. rewrite P, C, K, M, N. unfold teleportOwned.
    cbn [List.filter].
    destruct (sh_teleportFails h (t_uuid t)); cbn;
      rewrite <- ?app_assoc; auto.
Qed.

Lemma notifySent_frame requireAllGM sent st :
  let st' := notifySent requireAllGM sent st in
  isGM st' = isGM st /\ userId st' = userId st
  /\ optimistic st' = optimistic st /\ persisted st' = persisted st
  /\ rerenderTimers st' = rerenderTimers st
  /\ seenSocketIds st' = seenSocketIds st /\ emitted st' = emitted st.
Proof.
  cbn zeta. unfold notifySent.
  repeat match goal with
         | |- context [if ?b then _ else _] => destruct b
         end; now cbn.
Qed.

(** What the card of a token holds. *)
Local Abbreviation cardOf users payload t c :=
  (p_tokenUUIDs (c_request c) = [t_uuid t]
   /\ c_whisper c
      = List.filter truthy (computeApprovalRecipientsForToken users t).1
   /\ c_whisper c <> []
   /\ p_requester (c_request c) = p_requester payload
   /\ p_elevatorId (c_request c) = p_elevatorId payload
   /\ p_destUUID (c_request c) = p_destUUID payload
   /\ p_sourceRegionUuid (c_request c) = p_sourceRegionUuid payload
   /\ p_sceneFromId (c_request c) = p_sceneFromId payload).

Lemma requestApproval_step users fresh payload acc t :
  exists cs,
    s_cards (requestApproval users fresh payload acc t)
    = (s_cards acc ++ cs)%list
    /\ (length cs <= 1)%nat
    /\ (forall c, c ∈ cs -> cardOf users payload t c)
    /\ (List.filter truthy (computeApprovalRecipientsForToken users t).1
        <> [] ->
          exists c, c ∈ cs /\ cardOf users payload t c).
Proof.
  unfold requestApproval.
  destruct (computeApprovalRecipientsForToken users t)
    as [recipientIds routedTo] eqn:R.
  cbn [fst].
  destruct (bool_decide (length recipientIds = 0%nat)) eqn:B.
  { exists []. rewrite app_nil_r. split; [reflexivity|]. split; [cbn; lia|].
    split; [intros c Hc; inversion Hc|].
    apply bool_decide_eq_true in B. destruct recipientIds; [|discriminate].
    intros H. now elim H. }
  set (one := mkPayload _ _ _ _ _ _ _).
  exists (createApprovalChatCard one recipientIds).
  split; [now destruct (String.eqb routedTo "owner")|].
  unfold createApprovalChatCard.
  destruct (bool_decide (length (List.filter truthy recipientIds) = 0%nat))
    eqn:F.
  - split; [cbn; lia|]. split; [intros c Hc; inversion Hc|].
    apply bool_decide_eq_true in F.
    destruct (List.filter truthy recipientIds); [|discriminate].
    intros H. now elim H.
  - apply bool_decide_eq_false in F.
    assert (Hne : List.filter truthy recipientIds <> [])
      by (intros E; apply F; now rewrite E).
    assert (Hc : cardOf users payload t
                   (mkCard (List.filter truthy recipientIds) one))
      by (rewrite R; cbn; repeat split; auto).
    rewrite R in Hc.
    split; [cbn; lia|]. split.
    + intros c [->|H]%elem_of_cons; [exact Hc|inversion H].
    + intros _. eexists. split; [left|exact Hc].
Qed.

Lemma requestApproval_loop users fresh payload l : forall acc,
  exists new,
    s_cards (foldl (requestApproval users fresh payload) acc l)
    = (s_cards acc ++ new)%list
    /\ (length new <= length l)%nat
    /\ (forall c, c ∈ new -> exists t, t ∈ l /\ cardOf users payload t c)
    /\ (forall t, t ∈ l ->
          List.filter truthy (computeApprovalRecipientsForToken users t).1
          <> [] ->
          exists c, c ∈ new /\ cardOf users payload t c).
Proof.
  induction l as [|t l IH]; intros acc.
  - exists []. cbn. rewrite app_nil_r. split; [reflexivity|]. split; [lia|].
    split; [intros c Hc; inversion Hc|intros t Ht; inversion Ht].
  - cbn [foldl].
    destruct (requestApproval_step users fresh payload acc t)
      as (cs & E1 & L1 & A1 & B1).
    destruct (IH (requestApproval users fresh payload acc t))
      as (new & E2 & L2 & A2 & B2).
    exists (cs ++ new)%list. rewrite E2, E1, <- app_assoc.
    split; [reflexivity|]. split; [rewrite length_app; cbn; lia|]. split.
    + intros c [Hc|Hc]%elem_of_app.
      * exists t. split; [left|now apply A1].
      * destruct (A2 c Hc) as (t' & Ht' & Hc'). exists t'.
        split; [now right|exact Hc'].
    + intros t' [->|Ht']%elem_of_cons Hq.
      * destruct (B1 Hq) as (c & Hc & Hc'). exists c.
        split; [apply elem_of_app; now left|exact Hc'].
      * destruct (B2 t' Ht' Hq) as (c & Hc & Hc'). exists c.
        split; [apply elem_of_app; now right|exact Hc'].
Qed.

(** X23.  A selection that gets past its checks (a destination that is a
    Region other than the panel's, at least one token inside) moves the
    elevator whatever becomes of the tokens.  The tokens moved are the owned
    ones whose teleport did not fail, each to the destination; a token that
    is not owned is never moved by the selection itself.  The handler ends
    with [requestSetCurrentLevel] for the destination, so with a destination
    that is not blank and an elevator id that is neither blank nor
    ["__proto__"] the client knows the elevator to be at the destination at
    once, also when every token still waits for an approval.  The GM creates
    no approval card.  When the destination has an object on the canvas the
    panel is bound to it with its flags. *)
Theorem selection_moves_the_elevator
    (h : SelectHost) (destUUID : string) (k : Desk) (dest : RegionDocument) :
  destUUID <> "" ->
  sh_docs h !! destUUID = Some (IsRegion dest) ->
  destUUID <> pn_regionUuid (dk_panel k) ->
  sh_tokens h <> [] ->
  let elevId := f_elevatorId (pn_flags (dk_panel k)) in
  let owned := map fst (List.filter snd (sh_tokens h)) in
  let k' := _handleSelect h destUUID k in
  dk_moved k'
  = (dk_moved k
     ++ map (fun t => (t_uuid t, destUUID))
          (List.filter (fun t => negb (sh_teleportFails h (t_uuid t)))
             owned))%list
  /\ dk_notices k'
     = (dk_notices k
        ++ map (fun _ => WARN_teleportUnavailable)
             (List.filter (fun t => sh_teleportFails h (t_uuid t)) owned))%list
  /\ (exists requestId before,
        dk_client k' = requestSetCurrentLevel requestId elevId destUUID before
        /\ isGM before = isGM (dk_client k)
        /\ optimistic before = optimistic (dk_client k)
        /\ persisted before = persisted (dk_client k)
        /\ emitted before = emitted (dk_client k))
  /\ (trim elevId <> "" -> trim elevId <> "__proto__" ->
        trim destUUID <> "" ->
        getKnownCurrentLevelUuid elevId (dk_client k') = trim destUUID)
  /\ (isGM (dk_client k) = true -> dk_cards k' = dk_cards k)
  /\ (sh_destObject h = false -> dk_panel k' = dk_panel k)
  /\ (sh_destObject h = true ->
        pn_regionUuid (dk_panel k') = destUUID
        /\ pn_regionName (dk_panel k') = r_name dest
        /\ pn_flags (dk_panel k') = getElevatorFlags dest
        /\ pn_isHere (dk_panel k')
           = _deriveState (dk_client k')
               (mkPanel destUUID (r_name dest) (getElevatorFlags dest)
                  (pn_isHere (dk_panel k)))).
Proof.
  intros Hne Hdest Hother Htok elevId owned k'.
  assert (Hlen : length (sh_tokens h) <> 0%nat)
    by (destruct (sh_tokens h); cbn; congruence).
  destruct (teleportOwned_loop h destUUID owned k) as (P1 & C1 & K1 & M1 & N1).
  cbn zeta in P1, C1, K1, M1, N1.
  set (k1 := foldl (teleportOwned h destUUID) k owned) in *.
  set (notOwned := map fst (List.filter (fun t => negb t.2) (sh_tokens h))).
  set (payload := mkPayload (sh_fresh h 0%nat) (userId (dk_client k1)) elevId
                    destUUID (map t_uuid notOwned)
                    (pn_regionUuid (dk_panel k)) (sh_sceneFromId h)).
  set (asks := negb (isGM (dk_client k1))
               && negb (bool_decide (length notOwned = 0%nat))).
  set (sent := if asks
               then foldl (requestApproval (sh_users h) (sh_fresh h) payload)
                      (mkSent [] 0 0 1) notOwned
               else mkSent [] 0 0 1).
  set (client2 := if asks
                  then notifySent (sh_requireAllGM h) sent (dk_client k1)
                  else dk_client k1).
  set (client3 := requestSetCurrentLevel (sh_fresh h (s_ids sent)) elevId
                    destUUID client2).
  set (bound := mkPanel destUUID (r_name dest) (getElevatorFlags dest)
                  (pn_isHere (dk_panel k))).
  assert (E : k' = mkDesk (if sh_destObject h
                           then setIsHere (_deriveState client3 bound) bound
                           else dk_panel k)
                     client3 (dk_cards k1 ++ s_cards sent)%list (dk_moved k1)
                     (dk_notices k1)).
  { subst k'. unfold _handleSelect.
    rewrite (proj2 (truthy_true _) Hne), Hdest. cbn [negb].
    destruct (String.eqb_spec destUUID (pn_regionUuid (dk_panel k)));
      [contradiction|].
    rewrite (bool_decide_eq_false_2 _ Hlen). reflexivity. }
  assert (F2 : isGM client2 = isGM (dk_client k)
               /\ optimistic client2 = optimistic (dk_client k)
               /\ persisted client2 = persisted (dk_client k)
               /\ emitted client2 = emitted (dk_client k)).
  { subst client2. destruct asks; [|now rewrite C1].
    destruct (notifySent_frame (sh_requireAllGM h) sent (dk_client k1))
      as (F1 & _ & F3 & F4 & _ & _ & F7).
    cbn zeta in *. now rewrite F1, F3, F4, F7, C1. }
  rewrite E. cbn [dk_moved dk_notices dk_client dk_cards dk_panel].
  split; [exact M1|]. split; [exact N1|]. split.
  { exists (sh_fresh h (s_ids sent)), client2. split; [reflexivity|exact F2]. }
  split; [intros He Hp Hd; now apply known_after_request|]. split.
  { intros G. subst sent asks. rewrite C1, G. cbn. now rewrite app_nil_r, K1. }
  split; [now intros ->|].
  intros ->. cbn. auto.
Qed.

Lemma selection_moves_the_elevator_witness :
  let owner := mkUser "u2" false true "Bob" in
  let actor := mkActor {["u2" := 3%Z]} None None in
  let token := mkToken "Scene.s.Token.t" "Knight" (Some actor) in
  let flags := mkFlags true "elev1" true "default" "" 48 false [] None [] in
  let h :=
    mkSelectHost [mkUser "u1" false true "Ann"; owner]
      {[ "stopB" := Samples.plainRegion "Hall" ]} [(token, false)]
      (fun _ => false) false "s" false
      (fun n => "r" ++ numberToString (Z.of_nat n)) in
  let k :=
    mkDesk (mkPanel "stopA" "Roof" flags true)
      (mkClient false "u1" ∅ ∅ ∅ ∅ [] []) [] [] [] in
  dk_moved (_handleSelect h "stopB" k) = []
  /\ getKnownCurrentLevelUuid "elev1" (dk_client (_handleSelect h "stopB" k))
     = "stopB".
Proof.
  intros owner actor token flags h k.
  destruct (selection_moves_the_elevator h "stopB" k
              (mkRegion "Hall" None []) ltac:(discriminate) eq_refl
              ltac:(discriminate) ltac:(discriminate))
    as (M & _ & _ & K & _).
  split; [exact M|].
  exact (K ltac:(vm_compute; discriminate) ltac:(vm_compute; discriminate)
           ltac:(vm_compute; discriminate)).
Defined.

(** X24.  The approval cards of a selection by a player.  Past the checks of
    the handler, every token inside the Region that the player does not own
    and for which the routing finds a recipient gets a card of its own: the
    request of the card lists that token alone, names the requester, the
    elevator, the destination and the Region of the panel, and the card is
    whispered to the recipients the routing computed for the token.  A token
    without any recipient gets none, and there are no other cards. *)
Theorem selection_asks_for_each_token
    (h : SelectHost) (destUUID : string) (k : Desk) (dest : RegionDocument) :
  destUUID <> "" ->
  sh_docs h !! destUUID = Some (IsRegion dest) ->
  destUUID <> pn_regionUuid (dk_panel k) ->
  sh_tokens h <> [] ->
  isGM (dk_client k) = false ->
  let notOwned :=
    map fst (List.filter (fun t => negb (snd t)) (sh_tokens h)) in
  let asked c t :=
    p_tokenUUIDs (c_request c) = [t_uuid t]
    /\ c_whisper c
       = List.filter truthy
           (computeApprovalRecipientsForToken (sh_users h) t).1
    /\ c_whisper c <> []
    /\ p_requester (c_request c) = userId (dk_client k)
    /\ p_elevatorId (c_request c) = f_elevatorId (pn_flags (dk_panel k))
    /\ p_destUUID (c_request c) = destUUID
    /\ p_sourceRegionUuid (c_request c) = pn_regionUuid (dk_panel k)
    /\ p_sceneFromId (c_request c) = sh_sceneFromId h in
  exists new,
    dk_cards (_handleSelect h destUUID k) = (dk_cards k ++ new)%list
    /\ (length new <= length notOwned)%nat
    /\ (forall c, c ∈ new -> exists t, t ∈ notOwned /\ asked c t)
    /\ (forall t, t ∈ notOwned ->
          List.filter truthy
            (computeApprovalRecipientsForToken (sh_users h) t).1 <> [] ->
          exists c, c ∈ new /\ asked c t).
Proof.
  intros Hne Hdest Hother Htok G notOwned asked.
  assert (Hlen : length (sh_tokens h) <> 0%nat)
    by (destruct (sh_tokens h); cbn; congruence).
  set (owned := map fst (List.filter snd (sh_tokens h))).
  destruct (teleportOwned_loop h destUUID owned k) as (_ & C1 & K1 & _).
  cbn zeta in C1, K1.
  set (k1 := foldl (teleportOwned h destUUID) k owned) in *.
  set (payload := mkPayload (sh_fresh h 0%nat) (userId (dk_client k))
                    (f_elevatorId (pn_flags (dk_panel k))) destUUID
                    (map t_uuid notOwned) (pn_regionUuid (dk_panel k))
                    (sh_sceneFromId h)).
  assert (E : dk_cards (_handleSelect h destUUID k)
              = (dk_cards k
                 ++ s_cards
                      (if negb (bool_decide (length notOwned = 0%nat))
                       then foldl (requestApproval (sh_users h) (sh_fresh h)
                                     payload)
                              (mkSent [] 0 0 1) notOwned
                       else mkSent [] 0 0 1))%list).
  { unfold _handleSelect.
    rewrite (proj2 (truthy_true _) Hne), Hdest. cbn [negb].
    destruct (String.eqb_spec destUUID (pn_regionUuid (dk_panel k)));
      [contradiction|].
    rewrite (bool_decide_eq_false_2 _ Hlen). cbn [dk_cards].
    fold owned. fold k1. fold notOwned. rewrite C1, G, K1.
    cbn [negb andb]. reflexivity. }
  rewrite E.
  destruct (bool_decide (length notOwned = 0%nat)) eqn:B; cbn [negb].
  - apply bool_decide_eq_true in B.
    destruct notOwned; [|discriminate]. exists []. cbn.
    split; [reflexivity|]. split; [lia|].
    split; [intros c Hc; inversion Hc|intros t Ht; inversion Ht].
  - destruct (requestApproval_loop (sh_users h) (sh_fresh h) payload notOwned
                (mkSent [] 0 0 1)) as (new & En & Ln & An & Bn).
    exists new. rewrite En. cbn [s_cards app].
    split; [reflexivity|]. split; [exact Ln|].
    split.
    + intros c Hc. destruct (An c Hc) as (t & Ht & Hcard). exists t.
      split; [exact Ht|exact Hcard].
    + intros t Ht Hq. destruct (Bn t Ht Hq) as (c & Hc & Hcard). exists c.
      split; [exact Hc|exact Hcard].
Qed.

Lemma selection_asks_for_each_token_witness :
  let owner := mkUser "u2" false true "Bob" in
  let actor := mkActor {["u2" := 3%Z]} None None in
  let token := mkToken "Scene.s.Token.t" "Knight" (Some actor) in
  let flags := mkFlags true "elev1" true "default" "" 48 false [] None [] in
  let h :=
    mkSelectHost
      [mkUser "u1" false true "Ann"; owner; mkUser "g1" true true "Gil"]
      {[ "stopB" := Samples.plainRegion "Hall" ]} [(token, false)]
      (fun _ => false) false "s" false
      (fun n => "r" ++ numberToString (Z.of_nat n)) in
  let k :=
    mkDesk (mkPanel "stopA" "Roof" flags true)
      (mkClient false "u1" ∅ ∅ ∅ ∅ [] []) [] [] [] in
  exists c,
    dk_cards (_handleSelect h "stopB" k) = [c]
    /\ c_whisper c = ["u2"]
    /\ p_tokenUUIDs (c_request c) = ["Scene.s.Token.t"].
Proof.
  intros owner actor token flags h k.
  destruct (selection_asks_for_each_token h "stopB" k
              (mkRegion "Hall" None []) ltac:(discriminate) eq_refl
              ltac:(discriminate) ltac:(discriminate) eq_refl)
    as (new & E & L & A & B).
  destruct new as [|c [|c' new]]; cbn in L; [|clear L|lia].
  - exfalso. destruct (B token) as (c & Hc & _).
    + left.
    + vm_compute. discriminate.
    + inversion Hc.
  - exists c. split; [exact E|].
    destruct (A c ltac:(left)) as (t & Ht & H1 & H2 & _).
    assert (t = token) as ->
      by (apply elem_of_cons in Ht as [Ht|Ht]; [exact Ht|inversion Ht]).
    split; [exact H2|exact H1].
Defined.

End Selecting.
